(** * Hardware diagnostic engine of [diagnostico_pc.py]

    A shallow embedding of the telemetry getters, the one-shot full
    diagnostic, the alerts tab, the monitoring loop and the exports of its
    buffers of class [DiagnosticoPCAvancado], followed by the properties
    established about them.

    Conventions of the embedding:
    - Python floats that come from sensors are exact rationals ([Q]);
      infinities and NaN are outside the model.  Byte counts and other
      Python ints are [Z].
    - Python dictionaries are insertion-ordered association lists.
    - The sensor libraries (psutil, GPUtil, cpuinfo, wmi, platform) are an
      explicit [Provider] record: each call has an outcome, a value or a
      raised exception.  Within one poll the provider answers every
      repetition of a call the same way.
    - Methods that mutate [self] are computations in a state-and-exception
      monad; a raised exception keeps the mutations made before it. *)

From Stdlib Require Import List String Ascii ZArith NArith QArith Qabs Lia Lqa Bool.
From Stdlib Require Import DecimalString DecimalN DecimalPos DecimalFacts.
Import ListNotations.

#[local] Open Scope Z_scope.
#[local] Open Scope list_scope.
#[local] Open Scope string_scope.

(** ** Python primitives used by the source *)

Module Py.

(** [a > b] on floats modelled as rationals. *)
Definition gt (a b : Q) : bool :=
  match Qcompare a b with Gt => true | _ => false end.

(** [str.lower()] on the ASCII range. *)
Definition lower_char (c : ascii) : ascii :=
  let n := nat_of_ascii c in
  if andb (Nat.leb 65 n) (Nat.leb n 90) then ascii_of_nat (n + 32) else c.

Fixpoint lower (s : string) : string :=
  match s with
  | EmptyString => EmptyString
  | String c r => String (lower_char c) (lower r)
  end.

(** [needle in hay] for strings. *)
Fixpoint contains (needle hay : string) : bool :=
  if String.prefix needle hay then true
  else match hay with
       | EmptyString => false
       | String _ r => contains needle r
       end.

(** [s.replace(c, "")] for a one-character pattern [c]. *)
Fixpoint remove_char (c : ascii) (s : string) : string :=
  match s with
  | EmptyString => EmptyString
  | String a r =>
      if Ascii.eqb a c then remove_char c r else String a (remove_char c r)
  end.

(** [s[:n]] *)
Fixpoint take (n : nat) (s : string) : string :=
  match n, s with
  | S k, String c r => String c (take k r)
  | _, _ => EmptyString
  end.

(** [str(z)] and [f"{z}"] for an int. *)
Definition str_of_Z (z : Z) : string :=
  NilZero.string_of_int (Z.to_int z).

(** Rounding to the nearest integer, ties to even: the rounding of
    [format(x, ".Nf")]. *)
Definition round_half_even (q : Q) : Z :=
  let n := Qnum q in
  let d := Zpos (Qden q) in
  let f := n / d in
  match Z.compare (2 * (n mod d)) d with
  | Lt => f
  | Gt => f + 1
  | Eq => if Z.even f then f else f + 1
  end.

(** Left padding of a digit sequence with zeros up to [w] digits. *)
Fixpoint pad_zeros (k : nat) (u : Decimal.uint) : Decimal.uint :=
  match k with
  | O => u
  | S k' => Decimal.D0 (pad_zeros k' u)
  end.

Definition pad_uint (w : nat) (u : Decimal.uint) : Decimal.uint :=
  pad_zeros (w - Decimal.nb_digits u) u.

(** The number of tenths, hundredths, ... ([10^d]-ths) that
    [f"{q:.df}"] prints, without its sign. *)
Definition scaled (d : nat) (q : Q) : N :=
  Z.to_N (round_half_even (Qabs q * inject_Z (10 ^ Z.of_nat d))).

(** [f"{q:.df}"] *)
Definition format_fixed (d : nat) (q : Q) : string :=
  let t := scaled d q in
  let p := (10 ^ N.of_nat d)%N in
  let sign := if gt 0 q then "-" else "" in
  let ip := NilZero.string_of_uint (N.to_uint (t / p)) in
  match d with
  | O => sign ++ ip
  | _ => sign ++ ip ++ "." ++
         NilEmpty.string_of_uint (pad_uint d (N.to_uint (t mod p)))
  end.

(** Splitting at the first ["."]: the part before it and, when there is a
    dot, the part after it. *)
Fixpoint split_dot (s : string) : string * option string :=
  match s with
  | EmptyString => (EmptyString, None)
  | String c r =>
      if Ascii.eqb c "." then (EmptyString, Some r)
      else let (a, b) := split_dot r in (String c a, b)
  end.

(** [float(s)] on plain decimal notation: an optional minus sign, digits,
    and optionally a dot followed by digits.  [None] is [ValueError].
    (Exponents, "inf", "nan" and surrounding blanks, which [float] also
    accepts, never reach it in this program.) *)
Definition parse_unsigned (s : string) : option Q :=
  match split_dot s with
  | (EmptyString, _) => None
  | (ip, None) =>
      match NilEmpty.uint_of_string ip with
      | Some u => Some (inject_Z (Z.of_N (N.of_uint u)))
      | None => None
      end
  | (ip, Some fp) =>
      match NilEmpty.uint_of_string ip, NilEmpty.uint_of_string fp with
      | Some u, Some v =>
          let k := 10 ^ Z.of_nat (String.length fp) in
          Some (Qmake (Z.of_N (N.of_uint u) * k + Z.of_N (N.of_uint v))
                      (Z.to_pos k))
      | _, _ => None
      end
  end.

Definition parse_float (s : string) : option Q :=
  match s with
  | String "-" r => option_map Qopp (parse_unsigned r)
  | _ => parse_unsigned s
  end.

(** [int(s)] on decimal digits with an optional minus sign. *)
Definition parse_int (s : string) : option Z :=
  match s with
  | EmptyString => None
  | String "-" EmptyString => None
  | _ => option_map Z.of_int (NilEmpty.int_of_string s)
  end.

(** [sum(l)] and [max(l)] on a list of floats; [max] of an empty list
    raises in Python and is never called on one here. *)
Definition sum (l : list Q) : Q := fold_left Qplus l 0%Q.

Definition max2 (a b : Q) : Q := if gt b a then b else a.

Definition max (l : list Q) : option Q :=
  match l with
  | [] => None
  | x :: r => Some (fold_left max2 r x)
  end.

End Py.

(** ** Dictionaries and the values stored in them *)

#[warnings="-register-all"]
Inductive value : Type :=
| VNone
| VBool (b : bool)
| VInt (z : Z)
| VFloat (q : Q)
| VStr (s : string)
| VList (l : list value)
| VDict (d : list (string * value)).

Abbreviation dict := (list (string * value)).

Module Dict.

Fixpoint get (k : string) (d : dict) : option value :=
  match d with
  | [] => None
  | (k', v) :: r => if String.eqb k k' then Some v else get k r
  end.

(** [k in d] *)
Definition has (k : string) (d : dict) : bool :=
  match get k d with Some _ => true | None => false end.

(** [d[k] = v]: an existing key keeps its place. *)
Fixpoint set (k : string) (v : value) (d : dict) : dict :=
  match d with
  | [] => [(k, v)]
  | (k', v') :: r =>
      if String.eqb k k' then (k, v) :: r else (k', v') :: set k v r
  end.

(** [d.update(new)] *)
Definition update (new : dict) (d : dict) : dict :=
  fold_left (fun acc kv => set (fst kv) (snd kv) acc) new d.

(** [d[k].append(v)] when [d[k]] is a list. *)
Definition append_to (k : string) (v : value) (d : dict) : dict :=
  match get k d with
  | Some (VList l) => set k (VList (l ++ [v])%list) d
  | _ => d
  end.

(** [d[k][0][k2] = v] when [d[k]] is a non-empty list of dictionaries. *)
Definition set_in_first (k k2 : string) (v : value) (d : dict) : dict :=
  match get k d with
  | Some (VList (VDict fst_d :: r)) =>
      set k (VList (VDict (set k2 v fst_d) :: r)) d
  | _ => d
  end.

End Dict.

(** [str(v)] as an f-string interpolates it, for the scalar values that
    are interpolated in this program. *)
Definition value_str (v : value) : string :=
  match v with
  | VStr s => s
  | VInt z => Py.str_of_Z z
  | VNone => "None"
  | VBool true => "True"
  | VBool false => "False"
  | _ => ""
  end.

(** ** Exceptions, outcomes and the state-and-exception monad *)

Inductive exn_class : Type :=
| PermissionError
| ZeroDivisionError
| ValueError
| AttributeError
| UnboundLocalError
| OtherError.

(** Every class above derives from Python's [Exception]. *)
Record exn : Type := mkExn { exn_kind : exn_class; exn_msg : string }.

Inductive result (A : Type) : Type :=
| Ok (a : A)
| Raise (e : exn).
Arguments Ok {A} a.
Arguments Raise {A} e.

Definition is_ok {A} (r : result A) : bool :=
  match r with Ok _ => true | Raise _ => false end.

Section StateExn.
Context {S : Type}.

Definition M (A : Type) : Type := S -> result A * S.

Definition ret {A} (a : A) : M A := fun s => (Ok a, s).

Definition bind {A B} (m : M A) (k : A -> M B) : M B :=
  fun s => match m s with
           | (Ok a, s') => k a s'
           | (Raise e, s') => (Raise e, s')
           end.

Definition raise {A} (e : exn) : M A := fun s => (Raise e, s).

(** The outcome of a call into a sensor library. *)
Definition call {A} (o : result A) : M A := fun s => (o, s).

Definition gets {A} (f : S -> A) : M A := fun s => (Ok (f s), s).

Definition modify (f : S -> S) : M unit := fun s => (Ok tt, f s).

(** [try: m  except Exception as e: h e] and the bare [except:]. *)
Definition try_except {A} (m : M A) (h : exn -> M A) : M A :=
  fun s => match m s with
           | (Ok a, s') => (Ok a, s')
           | (Raise e, s') => h e s'
           end.

(** [try: m  except C: h], for one exception class [C]. *)
Definition try_except_class {A} (c : exn_class -> bool)
           (m : M A) (h : exn -> M A) : M A :=
  fun s => match m s with
           | (Ok a, s') => (Ok a, s')
           | (Raise e, s') =>
               if c (exn_kind e) then h e s' else (Raise e, s')
           end.

Definition when (b : bool) (m : M unit) : M unit :=
  if b then m else ret tt.

(** [for x in l: body x], where the body says whether it ran to its end
    (or hit [continue]) or hit [break]. *)
Inductive flow : Type := Next | Break.

Fixpoint for_each {A} (l : list A) (body : A -> M flow) : M unit :=
  match l with
  | [] => ret tt
  | x :: r =>
      bind (body x) (fun f =>
        match f with
        | Next => for_each r body
        | Break => ret tt
        end)
  end.

(** A list comprehension or accumulation loop whose steps may raise. *)
Fixpoint map_m {A B} (f : A -> M B) (l : list A) : M (list B) :=
  match l with
  | [] => ret []
  | x :: r => bind (f x) (fun y => bind (map_m f r) (fun ys => ret (y :: ys)))
  end.

End StateExn.

Arguments M : clear implicits.

Declare Scope monad_scope.
Delimit Scope monad_scope with monad.
Notation "x <- m ;; k" := (bind m (fun x => k))
  (at level 100, m at next level, right associativity) : monad_scope.
Notation "m ;; k" := (bind m (fun _ => k))
  (at level 100, right associativity) : monad_scope.
#[local] Open Scope monad_scope.

(** True division [a / b]. *)
Definition pydiv {S} (msg : string) (a b : Q) : M S Q :=
  if Qeq_bool b 0 then raise (mkExn ZeroDivisionError msg)
  else ret (a / b)%Q.

Definition int_div_msg : string := "division by zero".
Definition float_div_msg : string := "float division by zero".

(** ** The sensor libraries *)

(** What [psutil] returns. *)
Record scpufreq : Type := { freq_current : Q; freq_max : Q }.

Record svmem : Type :=
  { vm_total : Z; vm_available : Z; vm_used : Z; vm_free : Z;
    vm_percent : Q; vm_cached : option Z; vm_buffers : option Z }.

Record sswap : Type := { sw_total : Z; sw_used : Z; sw_percent : Q }.

Record sdiskpart : Type :=
  { dp_device : string; dp_mountpoint : string; dp_fstype : string }.

Record sdiskusage : Type := { du_total : Z; du_used : Z; du_free : Z }.

Record sdiskio : Type :=
  { read_bytes : Z; write_bytes : Z; read_count : Z; write_count : Z;
    read_time : Z; write_time : Z }.

Record snicaddr : Type :=
  { nic_family : string;            (* [str(addr.family)] *)
    nic_address : string;
    nic_netmask : option string;
    nic_broadcast : option string }.

Record snicstats : Type := { isup : bool; nic_speed : Z; nic_mtu : Z }.

Record snetio : Type :=
  { bytes_sent : Z; bytes_recv : Z; packets_sent : Z; packets_recv : Z;
    errin : Z; errout : Z }.

(** One [GPUtil] GPU. *)
Record GPU : Type :=
  { gpu_name : string; memoryTotal : Q; memoryUsed : Q; memoryFree : Q;
    gpu_load : Q; gpu_temperature : Q; gpu_uuid : string;
    gpu_driver : option string      (* [None]: no attribute [driver] *) }.

(** The WMI classes that are queried; an absent property is [None]. *)
Record Win32_PhysicalMemory : Type :=
  { pm_Capacity : option string; pm_Speed : option Z;
    pm_SMBIOSMemoryType : option Z; pm_Manufacturer : option string;
    pm_SerialNumber : option string; pm_DeviceLocator : option string }.

Record Win32_DiskDrive : Type :=
  { dd_Model : option string; dd_InterfaceType : option string;
    dd_Size : option string; dd_SerialNumber : option string;
    dd_Status : option string }.

Record Win32_BaseBoard : Type :=
  { bb_Manufacturer : option string; bb_Product : option string;
    bb_Version : option string; bb_SerialNumber : option string }.

Record Win32_BIOS : Type :=
  { bios_Manufacturer : option string; bios_SMBIOSBIOSVersion : option string;
    bios_ReleaseDate : option string }.

Record Win32_Processor : Type :=
  { pr_SocketDesignation : option string; pr_Description : option string }.

(** The machine as the program sees it during one poll: which optional
    libraries were imported ([available_libs]) and the outcome of every
    library call the getters make. *)
Record Provider : Type :=
  { lib_psutil : bool;
    lib_GPUtil : bool;
    lib_cpuinfo : bool;
    lib_wmi : bool;
    (* platform *)
    platform_system : result string;
    platform_version : result string;
    platform_release : result string;
    platform_architecture : result string;   (* [architecture()[0]] *)
    platform_processor : result string;
    platform_machine : result string;
    platform_node : result string;
    (* psutil *)
    cpu_percent : result Q;
    cpu_count_physical : result (option Z);
    cpu_count_logical : result (option Z);
    cpu_freq : result (option scpufreq);
    sensors_temperatures : result (list (string * list Q));
    virtual_memory : result svmem;
    swap_memory : result sswap;
    disk_partitions : result (list sdiskpart);
    disk_usage : string -> result sdiskusage;
    disk_io_counters : result (option sdiskio);
    net_if_addrs : result (list (string * list snicaddr));
    net_if_stats : result (list (string * snicstats));
    net_io_counters : result (option snetio);
    boot_time_str : result string;   (* boot time, "%Y-%m-%d %H:%M:%S" *)
    uptime_str : result string;      (* [str(now - boot).split('.')[0]] *)
    users_count : result nat;        (* [len(psutil.users())] *)
    (* cpuinfo *)
    cpuinfo_get_cpu_info : result dict;
    (* GPUtil *)
    getGPUs : result (list GPU);
    (* wmi *)
    wmi_WMI : result unit;
    wmi_PhysicalMemory : result (list Win32_PhysicalMemory);
    wmi_DiskDrive : result (list Win32_DiskDrive);
    wmi_BaseBoard : result (list Win32_BaseBoard);
    wmi_BIOS : result (list Win32_BIOS);
    wmi_Processor : result (list Win32_Processor) }.

(** ** The engine: the fields of [self] that the diagnostic core uses *)

Record Alert : Type :=
  { tipo : string; componente : string; mensagem : string;
    prioridade : string }.

Record Recommendation : Type :=
  { categoria : string; rec_prioridade : string; rec_componente : string;
    problema : string; recomendacao : string }.

Record TempLimits : Type :=
  { cpu_warning : Z; cpu_critical : Z; gpu_warning : Z; gpu_critical : Z;
    disk_warning : Z; disk_critical : Z }.

(** [datetime.now()], in microseconds. *)
Definition datetime : Type := Z.

Record MonitoringData : Type :=
  { cpu_usage : list Q; gpu_usage : list Q; memory_usage : list Q;
    cpu_temp : list Q; gpu_temp : list Q; timestamps : list datetime }.

Record Engine : Type :=
  { monitoring : bool;
    monitoring_data : MonitoringData;
    alerts : list Alert;
    recommendations : list Recommendation;
    temp_limits : TempLimits;
    monitoring_log : list string    (* the lines put into the log view *) }.

Definition empty_data : MonitoringData :=
  {| cpu_usage := []; gpu_usage := []; memory_usage := [];
     cpu_temp := []; gpu_temp := []; timestamps := [] |}.

(** [__init__] *)
Definition init : Engine :=
  {| monitoring := false;
     monitoring_data := empty_data;
     alerts := [];
     recommendations := [];
     temp_limits :=
       {| cpu_warning := 75; cpu_critical := 85;
          gpu_warning := 80; gpu_critical := 90;
          disk_warning := 50; disk_critical := 60 |};
     monitoring_log := [] |}.

Definition set_alerts (l : list Alert) (e : Engine) : Engine :=
  {| monitoring := monitoring e; monitoring_data := monitoring_data e;
     alerts := l; recommendations := recommendations e;
     temp_limits := temp_limits e; monitoring_log := monitoring_log e |}.

Definition set_recommendations (l : list Recommendation) (e : Engine) : Engine :=
  {| monitoring := monitoring e; monitoring_data := monitoring_data e;
     alerts := alerts e; recommendations := l;
     temp_limits := temp_limits e; monitoring_log := monitoring_log e |}.

Definition set_monitoring (b : bool) (e : Engine) : Engine :=
  {| monitoring := b; monitoring_data := monitoring_data e;
     alerts := alerts e; recommendations := recommendations e;
     temp_limits := temp_limits e; monitoring_log := monitoring_log e |}.

Definition set_monitoring_data (d : MonitoringData) (e : Engine) : Engine :=
  {| monitoring := monitoring e; monitoring_data := d;
     alerts := alerts e; recommendations := recommendations e;
     temp_limits := temp_limits e; monitoring_log := monitoring_log e |}.

Definition set_monitoring_log (l : list string) (e : Engine) : Engine :=
  {| monitoring := monitoring e; monitoring_data := monitoring_data e;
     alerts := alerts e; recommendations := recommendations e;
     temp_limits := temp_limits e; monitoring_log := l |}.

(** A method body at work: [self] and the method's local variable that
    outlives a raised exception. *)
Record Frame (L : Type) : Type := mkFrame { self : Engine; local : L }.
Arguments mkFrame {L} self local.
Arguments self {L} f.
Arguments local {L} f.

Section FrameOps.
Context {L : Type}.

(** [self.alerts.append(a)] *)
Definition alerts_append (a : Alert) : M (Frame L) unit :=
  modify (fun f =>
    mkFrame (set_alerts (alerts (self f) ++ [a])%list (self f)) (local f)).

Definition get_limits : M (Frame L) TempLimits :=
  gets (fun f => temp_limits (self f)).

Definition get_local : M (Frame L) L := gets local.

Definition set_local (l : L) : M (Frame L) unit :=
  modify (fun f => mkFrame (self f) l).

Definition modify_local (g : L -> L) : M (Frame L) unit :=
  modify (fun f => mkFrame (self f) (g (local f))).

End FrameOps.

(** Running a method body on [self] with its local variable initialised,
    and returning that variable: [x = init; ...; return x]. *)
Definition method {L} (l0 : L) (body : M (Frame L) unit) : M Engine L :=
  fun e =>
    match body (mkFrame e l0) with
    | (Ok _, f) => (Ok (local f), self f)
    | (Raise x, f) => (Raise x, self f)
    end.

(** ** The telemetry getters *)

(** [f"{q:.df}suffix"] as a dictionary value. *)
Definition fmt (d : nat) (q : Q) (suffix : string) : value :=
  VStr (Py.format_fixed d q ++ suffix).

(** [x / (1024**3)] and [x / (1024**2)] *)
Definition gib (x : Z) : Q := (inject_Z x / inject_Z (1024 ^ 3))%Q.
Definition mib (x : Z) : Q := (inject_Z x / inject_Z (1024 ^ 2))%Q.

(** [s or 'N/A'] for a property that is a string or [None]. *)
Definition or_na (o : option string) : value :=
  match o with
  | Some (String c r) => VStr (String c r)
  | _ => VStr "N/A"
  end.

(** [n or 'N/A'] for a property that is an int or [None]. *)
Definition int_or_na (o : option Z) : value :=
  match o with
  | Some z => if Z.eqb z 0 then VStr "N/A" else VInt z
  | None => VStr "N/A"
  end.

Definition opt_int (o : option Z) : value :=
  match o with Some z => VInt z | None => VNone end.

Definition opt_str (o : option string) : value :=
  match o with Some s => VStr s | None => VNone end.

(** [info.get(k, default)] *)
Definition get_default (k : string) (default : value) (d : dict) : value :=
  match Dict.get k d with Some v => v | None => default end.

(** [f"{psutil.cpu_freq().X:.0f} MHz" if psutil.cpu_freq() else "N/A"] *)
Definition cpu_freq_field {L} (p : Provider) (proj : scpufreq -> Q)
  : M (Frame L) value :=
  c <- call (cpu_freq p) ;;
  match c with
  | Some _ =>
      c' <- call (cpu_freq p) ;;
      match c' with
      | Some f => ret (fmt 0 (proj f) " MHz")
      | None => raise (mkExn AttributeError
                         "'NoneType' object has no attribute 'current'")
      end
  | None => ret (VStr "N/A")
  end.

(** ['coretemp' in name.lower() or 'cpu' in name.lower()] *)
Definition is_cpu_sensor (name : string) : bool :=
  Py.contains "coretemp" (Py.lower name) || Py.contains "cpu" (Py.lower name).

(** The temperature check of [get_cpu_info] ("Verificar alertas de
    temperatura"). *)
Definition cpu_temperature_check (temp : Q) : M (Frame dict) unit :=
  lim <- get_limits ;;
  if Py.gt temp (inject_Z (cpu_critical lim)) then
    alerts_append
      {| tipo := "CRÍTICO";
         componente := "CPU";
         mensagem := "Temperatura crítica: " ++ Py.format_fixed 1 temp
                     ++ "°C (limite: " ++ Py.str_of_Z (cpu_critical lim)
                     ++ "°C)";
         prioridade := "ALTA" |}
  else if Py.gt temp (inject_Z (cpu_warning lim)) then
    alerts_append
      {| tipo := "AVISO";
         componente := "CPU";
         mensagem := "Temperatura alta: " ++ Py.format_fixed 1 temp
                     ++ "°C (limite recomendado: "
                     ++ Py.str_of_Z (cpu_warning lim) ++ "°C)";
         prioridade := "MÉDIA" |}
  else ret tt.

(** The body of the loop over [sensors.items()] in [get_cpu_info]. *)
Definition cpu_sensor_step (sensor : string * list Q) : M (Frame dict) flow :=
  let (name, entries) := sensor in
  if is_cpu_sensor name then
    match entries with
    | temp :: _ =>
        modify_local (Dict.set "temperatura" (fmt 1 temp "°C")) ;;
        cpu_temperature_check temp ;;
        ret Break
    | [] => ret Next
    end
  else ret Next.

(** "Informações básicas do psutil" *)
Definition cpu_psutil_block (p : Provider) : M (Frame dict) unit :=
  uso <- call (cpu_percent p) ;;
  fisicos <- call (cpu_count_physical p) ;;
  logicos <- call (cpu_count_logical p) ;;
  atual <- cpu_freq_field p freq_current ;;
  maxima <- cpu_freq_field p freq_max ;;
  modify_local (Dict.update
    [("uso_atual", fmt 1 uso "%");
     ("nucleos_fisicos", opt_int fisicos);
     ("nucleos_logicos", opt_int logicos);
     ("frequencia_atual", atual);
     ("frequencia_maxima", maxima)]).

(** "Informações detalhadas do py-cpuinfo" *)
Definition cpu_cpuinfo_block (p : Provider) : M (Frame dict) unit :=
  info <- call (cpuinfo_get_cpu_info p) ;;
  modify_local (Dict.update
    [("modelo", get_default "brand_raw" (VStr "N/A") info);
     ("fabricante", get_default "vendor_id_raw" (VStr "N/A") info);
     ("arquitetura", get_default "arch" (VStr "N/A") info);
     ("cache_l1", get_default "l1_data_cache_size" (VStr "N/A") info);
     ("cache_l2", get_default "l2_cache_size" (VStr "N/A") info);
     ("cache_l3", get_default "l3_cache_size" (VStr "N/A") info);
     ("flags", get_default "flags" (VList []) info)]).

(** "Temperatura (requer sensores específicos)": the inner [try]. *)
Definition cpu_temperature_block (p : Provider) : M (Frame dict) unit :=
  try_except
    (when (lib_psutil p)
       (sensors <- call (sensors_temperatures p) ;;
        match sensors with
        | [] => ret tt
        | _ => for_each sensors cpu_sensor_step
        end))
    (fun _ => modify_local
                (Dict.set "temperatura" (VStr "N/A (sensores não acessíveis)"))).

Definition get_cpu_info (p : Provider) : M Engine dict :=
  method [("erro", VStr "Informações não disponíveis")]
    (try_except
       (when (lib_psutil p) (cpu_psutil_block p) ;;
        when (lib_cpuinfo p) (cpu_cpuinfo_block p) ;;
        cpu_temperature_block p)
       (fun e => modify_local
                   (Dict.set "erro"
                      (VStr ("Erro ao obter informações do CPU: " ++ exn_msg e))))).

(** "Verificar alertas de temperatura da GPU" *)
Definition gpu_temperature_check (gpu : GPU) : M (Frame dict) unit :=
  lim <- get_limits ;;
  if Py.gt (gpu_temperature gpu) (inject_Z (gpu_critical lim)) then
    alerts_append
      {| tipo := "CRÍTICO";
         componente := "GPU";
         mensagem := "Temperatura crítica: "
                     ++ Py.format_fixed 1 (gpu_temperature gpu)
                     ++ "°C (limite: "
                     ++ Py.str_of_Z (gpu_critical lim) ++ "°C)";
         prioridade := "ALTA" |}
  else if Py.gt (gpu_temperature gpu) (inject_Z (gpu_warning lim)) then
    alerts_append
      {| tipo := "AVISO";
         componente := "GPU";
         mensagem := "Temperatura alta: "
                     ++ Py.format_fixed 1 (gpu_temperature gpu)
                     ++ "°C (limite recomendado: "
                     ++ Py.str_of_Z (gpu_warning lim) ++ "°C)";
         prioridade := "MÉDIA" |}
  else ret tt.

(** "Verificar uso excessivo de memória" of the GPU *)
Definition gpu_memory_check (gpu : GPU) : M (Frame dict) unit :=
  ratio <- pydiv float_div_msg (memoryUsed gpu) (memoryTotal gpu) ;;
  let mem_usage_percent := (ratio * 100)%Q in
  when (Py.gt mem_usage_percent 90)
    (alerts_append
       {| tipo := "AVISO";
          componente := "GPU";
          mensagem := "Uso alto de memória VRAM: "
                      ++ Py.format_fixed 1 mem_usage_percent ++ "%";
          prioridade := "MÉDIA" |}).

(** The dictionary built for the main GPU. *)
Definition gpu_snapshot (gpu : GPU) : M (Frame dict) unit :=
  ratio <- pydiv float_div_msg (memoryUsed gpu) (memoryTotal gpu) ;;
  set_local
    [("modelo", VStr (gpu_name gpu));
     ("memoria_total", fmt 0 (memoryTotal gpu) " MB");
     ("memoria_usada", fmt 0 (memoryUsed gpu) " MB");
     ("memoria_livre", fmt 0 (memoryFree gpu) " MB");
     ("uso_gpu", fmt 1 (gpu_load gpu * 100) "%");
     ("uso_memoria", fmt 1 (ratio * 100) "%");
     ("temperatura", fmt 1 (gpu_temperature gpu) "°C");
     ("uuid", VStr (gpu_uuid gpu));
     ("driver", match gpu_driver gpu with
                | Some d => VStr d
                | None => VStr "N/A"
                end)].

Definition get_gpu_info (p : Provider) : M Engine dict :=
  method [("erro", VStr "Informações não disponíveis")]
    (try_except
       (if lib_GPUtil p then
          gpus <- call (getGPUs p) ;;
          match gpus with
          | gpu :: _ =>
              gpu_snapshot gpu ;;
              gpu_temperature_check gpu ;;
              gpu_memory_check gpu
          | [] => set_local [("erro", VStr "Nenhuma GPU NVIDIA/AMD detectada")]
          end
        else
          set_local
            [("erro",
              VStr "GPUtil não disponível - instale com: pip install GPUtil")])
       (fun e => modify_local
                   (Dict.set "erro"
                      (VStr ("Erro ao obter informações da GPU: " ++ exn_msg e))))).

(** One element of [memory_modules] in [get_memory_info]. *)
Definition memory_module_info {L} (memory : Win32_PhysicalMemory)
  : M (Frame L) value :=
  capacidade <-
    match pm_Capacity memory with
    | Some (String c r) =>
        match Py.parse_int (String c r) with
        | Some n => ret (fmt 0 (gib n) " GB")
        | None => raise (mkExn ValueError "invalid literal for int()")
        end
    | _ => ret (VStr "N/A")
    end ;;
  ret (VDict
    [("capacidade", capacidade);
     ("velocidade", match pm_Speed memory with
                    | Some z => if Z.eqb z 0 then VStr "N/A"
                                else VStr (Py.str_of_Z z ++ " MHz")
                    | None => VStr "N/A"
                    end);
     ("tipo", int_or_na (pm_SMBIOSMemoryType memory));
     ("fabricante", or_na (pm_Manufacturer memory));
     ("numero_serie", or_na (pm_SerialNumber memory));
     ("localizacao", or_na (pm_DeviceLocator memory))]).

(** The dictionary built from [psutil.virtual_memory()]. *)
Definition memory_snapshot (mem : svmem) : dict :=
  [("total", fmt 2 (gib (vm_total mem)) " GB");
   ("disponivel", fmt 2 (gib (vm_available mem)) " GB");
   ("usada", fmt 2 (gib (vm_used mem)) " GB");
   ("porcentagem_uso", fmt 1 (vm_percent mem) "%");
   ("livre", fmt 2 (gib (vm_free mem)) " GB");
   ("em_cache", match vm_cached mem with
                | Some c => fmt 2 (gib c) " GB"
                | None => VStr "N/A"
                end);
   ("buffers", match vm_buffers mem with
               | Some b => fmt 2 (gib b) " GB"
               | None => VStr "N/A"
               end)].

(** "Verificar uso excessivo de memória" *)
Definition memory_usage_check (mem : svmem) : M (Frame dict) unit :=
  if Py.gt (vm_percent mem) 90 then
    alerts_append
      {| tipo := "CRÍTICO";
         componente := "RAM";
         mensagem := "Uso crítico de memória: "
                     ++ Py.format_fixed 1 (vm_percent mem)
                     ++ "% (Recomendado: <85%)";
         prioridade := "ALTA" |}
  else if Py.gt (vm_percent mem) 80 then
    alerts_append
      {| tipo := "AVISO";
         componente := "RAM";
         mensagem := "Uso alto de memória: "
                     ++ Py.format_fixed 1 (vm_percent mem)
                     ++ "% (Recomendado: <80%)";
         prioridade := "MÉDIA" |}
  else ret tt.

(** "Informações de SWAP" *)
Definition memory_swap_block (p : Provider) : M (Frame dict) unit :=
  swap <- call (swap_memory p) ;;
  when (Z.gtb (sw_total swap) 0)
    (modify_local (Dict.update
       [("swap_total", fmt 2 (gib (sw_total swap)) " GB");
        ("swap_usado", fmt 2 (gib (sw_used swap)) " GB");
        ("swap_porcentagem", fmt 1 (sw_percent swap) "%")]) ;;
     when (Py.gt (sw_percent swap) 50)
       (alerts_append
          {| tipo := "AVISO";
             componente := "SWAP";
             mensagem := "Uso alto de arquivo de troca: "
                         ++ Py.format_fixed 1 (sw_percent swap) ++ "%";
             prioridade := "BAIXA" |})).

(** "Tentar obter informações detalhadas via WMI (Windows)" *)
Definition memory_wmi_block (p : Provider) : M (Frame dict) unit :=
  when (lib_wmi p)
    (system <- call (platform_system p) ;;
     when (String.eqb system "Windows")
       (try_except
          (call (wmi_WMI p) ;;
           memories <- call (wmi_PhysicalMemory p) ;;
           memory_modules <- map_m memory_module_info memories ;;
           match memory_modules with
           | [] => ret tt
           | _ =>
               modify_local (Dict.set "modulos" (VList memory_modules)) ;;
               modify_local
                 (Dict.set "slots_ocupados"
                    (VInt (Z.of_nat (List.length memory_modules))))
           end)
          (fun _ => ret tt))).

Definition get_memory_info (p : Provider) : M Engine dict :=
  method [("erro", VStr "Informações não disponíveis")]
    (try_except
       (when (lib_psutil p)
          (mem <- call (virtual_memory p) ;;
           set_local (memory_snapshot mem) ;;
           memory_usage_check mem ;;
           memory_swap_block p ;;
           memory_wmi_block p))
       (fun e => modify_local
                   (Dict.set "erro"
                      (VStr ("Erro ao obter informações da memória: "
                             ++ exn_msg e))))).

Definition is_PermissionError (c : exn_class) : bool :=
  match c with PermissionError => true | _ => false end.

(** "Verificar espaço em disco" *)
Definition disk_space_check (partition : sdiskpart) (usage : sdiskusage)
  : M (Frame dict) unit :=
  ratio <- pydiv int_div_msg (inject_Z (du_used usage))
                 (inject_Z (du_total usage)) ;;
  let usage_percent := (ratio * 100)%Q in
  if Py.gt usage_percent 95 then
    alerts_append
      {| tipo := "CRÍTICO";
         componente := "DISCO";
         mensagem := "Espaço crítico em " ++ dp_device partition ++ ": "
                     ++ Py.format_fixed 1 usage_percent ++ "% usado";
         prioridade := "ALTA" |}
  else if Py.gt usage_percent 85 then
    alerts_append
      {| tipo := "AVISO";
         componente := "DISCO";
         mensagem := "Espaço baixo em " ++ dp_device partition ++ ": "
                     ++ Py.format_fixed 1 usage_percent ++ "% usado";
         prioridade := "MÉDIA" |}
  else ret tt.

(** The [device_info] dictionary of one partition. *)
Definition device_snapshot {L} (partition : sdiskpart) (usage : sdiskusage)
  : M (Frame L) dict :=
  ratio <- pydiv int_div_msg (inject_Z (du_used usage))
                 (inject_Z (du_total usage)) ;;
  ret [("dispositivo", VStr (dp_device partition));
       ("ponto_montagem", VStr (dp_mountpoint partition));
       ("sistema_arquivos", VStr (dp_fstype partition));
       ("tamanho_total", fmt 2 (gib (du_total usage)) " GB");
       ("usado", fmt 2 (gib (du_used usage)) " GB");
       ("livre", fmt 2 (gib (du_free usage)) " GB");
       ("porcentagem_uso", fmt 1 (ratio * 100) "%")].

(** The body of the loop over [partitions] in [get_storage_info]. *)
Definition storage_partition_step (p : Provider) (partition : sdiskpart)
  : M (Frame dict) flow :=
  try_except_class is_PermissionError
    (usage <- call (disk_usage p (dp_mountpoint partition)) ;;
     device_info <- device_snapshot partition usage ;;
     disk_space_check partition usage ;;
     modify_local (Dict.append_to "dispositivos" (VDict device_info)) ;;
     ret Next)
    (fun _ => ret Next).

(** "Informações de I/O de disco" *)
Definition storage_io_block (p : Provider) : M (Frame dict) unit :=
  try_except
    (disk_io <- call (disk_io_counters p) ;;
     match disk_io with
     | Some io =>
         modify_local (Dict.set "estatisticas_io" (VDict
           [("bytes_lidos", fmt 2 (gib (read_bytes io)) " GB");
            ("bytes_escritos", fmt 2 (gib (write_bytes io)) " GB");
            ("operacoes_leitura", VInt (read_count io));
            ("operacoes_escrita", VInt (write_count io));
            ("tempo_leitura", fmt 2 (inject_Z (read_time io) / 1000) " s");
            ("tempo_escrita", fmt 2 (inject_Z (write_time io) / 1000) " s")]))
     | None => ret tt
     end)
    (fun _ => ret tt).

(** The body of the loop over [c.Win32_DiskDrive()], which ends in [break]. *)
Definition storage_smart_step (disk : Win32_DiskDrive) : M (Frame dict) flow :=
  tamanho <-
    match dd_Size disk with
    | Some (String c r) =>
        match Py.parse_int (String c r) with
        | Some n => ret (fmt 2 (gib n) " GB")
        | None => raise (mkExn ValueError "invalid literal for int()")
        end
    | _ => ret (VStr "N/A")
    end ;;
  let smart_info :=
    [("modelo", or_na (dd_Model disk));
     ("interface", or_na (dd_InterfaceType disk));
     ("tamanho", tamanho);
     ("numero_serie", or_na (dd_SerialNumber disk));
     ("status", or_na (dd_Status disk))] in
  modify_local (Dict.set_in_first "dispositivos" "smart" (VDict smart_info)) ;;
  ret Break.

(** "Tentar obter informações S.M.A.R.T. via WMI (Windows)" *)
Definition storage_smart_block (p : Provider) : M (Frame dict) unit :=
  when (lib_wmi p)
    (system <- call (platform_system p) ;;
     when (String.eqb system "Windows")
       (try_except
          (call (wmi_WMI p) ;;
           disks <- call (wmi_DiskDrive p) ;;
           for_each disks storage_smart_step)
          (fun _ => ret tt))).

Definition get_storage_info (p : Provider) : M Engine dict :=
  method [("dispositivos", VList []); ("erro", VNone)]
    (try_except
       (when (lib_psutil p)
          (partitions <- call (disk_partitions p) ;;
           for_each partitions (storage_partition_step p) ;;
           storage_io_block p ;;
           storage_smart_block p))
       (fun e => modify_local
                   (Dict.set "erro"
                      (VStr ("Erro ao obter informações de armazenamento: "
                             ++ exn_msg e))))).

Definition get_motherboard_info (p : Provider) : M Engine dict :=
  method [("erro", VStr "Informações não disponíveis")]
    (try_except
       (windows <-
          (if lib_wmi p then
             system <- call (platform_system p) ;;
             ret (String.eqb system "Windows")
           else ret false) ;;
        if (windows : bool) then
          call (wmi_WMI p) ;;
          boards <- call (wmi_BaseBoard p) ;;
          for_each boards (fun board =>
            set_local
              [("fabricante", or_na (bb_Manufacturer board));
               ("modelo", or_na (bb_Product board));
               ("versao", or_na (bb_Version board));
               ("numero_serie", or_na (bb_SerialNumber board))] ;;
            ret Break) ;;
          bioses <- call (wmi_BIOS p) ;;
          for_each bioses (fun bios =>
            modify_local (Dict.update
              [("bios_fabricante", or_na (bios_Manufacturer bios));
               ("bios_versao", or_na (bios_SMBIOSBIOSVersion bios));
               ("bios_data", match bios_ReleaseDate bios with
                             | Some (String c r) => VStr (Py.take 8 (String c r))
                             | _ => VStr "N/A"
                             end)]) ;;
            ret Break) ;;
          processors <- call (wmi_Processor p) ;;
          for_each processors (fun processor =>
            modify_local (Dict.update
              [("socket", or_na (pr_SocketDesignation processor));
               ("chipset", or_na (pr_Description processor))]) ;;
            ret Break)
        else
          set_local
            [("erro",
              VStr "WMI não disponível - informações limitadas no seu sistema")])
       (fun e => modify_local
                   (Dict.set "erro"
                      (VStr ("Erro ao obter informações da placa-mãe: "
                             ++ exn_msg e))))).

Definition get_system_info (p : Provider) : M Engine dict :=
  method []
    (try_except
       (sistema <- call (platform_system p) ;;
        versao <- call (platform_version p) ;;
        release <- call (platform_release p) ;;
        arquitetura <- call (platform_architecture p) ;;
        processador <- call (platform_processor p) ;;
        maquina <- call (platform_machine p) ;;
        no_computador <- call (platform_node p) ;;
        set_local
          [("sistema", VStr sistema);
           ("versao", VStr versao);
           ("release", VStr release);
           ("arquitetura", VStr arquitetura);
           ("processador", VStr processador);
           ("maquina", VStr maquina);
           ("no_computador", VStr no_computador)] ;;
        when (lib_psutil p)
          (inicializacao <- call (boot_time_str p) ;;
           atividade <- call (uptime_str p) ;;
           n <- call (users_count p) ;;
           usuarios <- match n with
                       | O => ret 0%nat
                       | S _ => call (users_count p)
                       end ;;
           modify_local (Dict.update
             [("tempo_inicializacao", VStr inicializacao);
              ("tempo_atividade", VStr atividade);
              ("usuarios_logados", VInt (Z.of_nat usuarios))])))
       (fun e => modify_local
                   (Dict.set "erro"
                      (VStr ("Erro ao obter informações do sistema: "
                             ++ exn_msg e))))).

(** [stats[name]] when [name in stats] *)
Fixpoint lookup_stats (name : string) (stats : list (string * snicstats))
  : option snicstats :=
  match stats with
  | [] => None
  | (n, st) :: r => if String.eqb name n then Some st else lookup_stats name r
  end.

(** One element of [network_info["interfaces"]]. *)
Definition interface_info (stats : list (string * snicstats))
           (iface : string * list snicaddr) : dict :=
  let (interface_name, addresses) := iface in
  let enderecos :=
    List.map (fun addr =>
      VDict [("familia", VStr (nic_family addr));
             ("endereco", VStr (nic_address addr));
             ("mascara", opt_str (nic_netmask addr));
             ("broadcast", opt_str (nic_broadcast addr))]) addresses in
  let base :=
    [("nome", VStr interface_name);
     ("ativo", match lookup_stats interface_name stats with
               | Some st => VBool (isup st)
               | None => VBool false
               end);
     ("enderecos", VList enderecos)] in
  match lookup_stats interface_name stats with
  | Some stat =>
      Dict.update
        [("velocidade", if Z.gtb (nic_speed stat) 0
                        then VStr (Py.str_of_Z (nic_speed stat) ++ " Mbps")
                        else VStr "N/A");
         ("mtu", VInt (nic_mtu stat))] base
  | None => base
  end.

Definition get_network_info (p : Provider) : M Engine dict :=
  method [("interfaces", VList []); ("erro", VNone)]
    (try_except
       (when (lib_psutil p)
          (interfaces <- call (net_if_addrs p) ;;
           stats <- call (net_if_stats p) ;;
           for_each interfaces (fun iface =>
             modify_local
               (Dict.append_to "interfaces" (VDict (interface_info stats iface))) ;;
             ret Next) ;;
           net_io <- call (net_io_counters p) ;;
           match net_io with
           | Some io =>
               modify_local (Dict.set "estatisticas" (VDict
                 [("bytes_enviados", fmt 2 (mib (bytes_sent io)) " MB");
                  ("bytes_recebidos", fmt 2 (mib (bytes_recv io)) " MB");
                  ("pacotes_enviados", VInt (packets_sent io));
                  ("pacotes_recebidos", VInt (packets_recv io));
                  ("erros_entrada", VInt (errin io));
                  ("erros_saida", VInt (errout io))]))
           | None => ret tt
           end))
       (fun e => modify_local
                   (Dict.set "erro"
                      (VStr ("Erro ao obter informações de rede: "
                             ++ exn_msg e))))).

(** ** Health analysis and the one-shot full diagnostic *)

(** [self.recommendations.append(r)] *)
Definition recommendations_append (r : Recommendation) : M Engine unit :=
  modify (fun e => set_recommendations (recommendations e ++ [r])%list e).

(** [float(v.replace("%", ""))] *)
Definition percent_of {S} (v : value) : M S Q :=
  match v with
  | VStr s =>
      match Py.parse_float (Py.remove_char "%" s) with
      | Some q => ret q
      | None => raise (mkExn ValueError "could not convert string to float")
      end
  | _ => raise (mkExn AttributeError "object has no attribute 'replace'")
  end.

(** [d[k]] *)
Definition subscript {S} (k : string) (d : dict) : M S value :=
  match Dict.get k d with
  | Some v => ret v
  | None => raise (mkExn OtherError k)
  end.

(** The body of the loop over [storage_info.get("dispositivos", [])]. *)
Definition storage_recommendation_step (device : value) : M Engine flow :=
  match device with
  | VDict dev =>
      match Dict.get "porcentagem_uso" dev with
      | Some v =>
          storage_usage <- percent_of v ;;
          (if Py.gt storage_usage 90 then
             name <- subscript "dispositivo" dev ;;
             recommendations_append
               {| categoria := "Armazenamento";
                  rec_prioridade := "CRÍTICA";
                  rec_componente := "DISCO";
                  problema := "Espaço crítico em " ++ value_str name ++ ": "
                              ++ Py.format_fixed 1 storage_usage ++ "%";
                  recomendacao := "Libere espaço urgentemente, mova arquivos para disco externo, execute limpeza de disco" |}
           else if Py.gt storage_usage 80 then
             name <- subscript "dispositivo" dev ;;
             recommendations_append
               {| categoria := "Armazenamento";
                  rec_prioridade := "MÉDIA";
                  rec_componente := "DISCO";
                  problema := "Espaço baixo em " ++ value_str name ++ ": "
                              ++ Py.format_fixed 1 storage_usage ++ "%";
                  recomendacao := "Execute limpeza de arquivos temporários, desinstale programas não utilizados" |}
           else ret tt) ;;
          ret Next
      | None => ret Next
      end
  | _ => raise (mkExn OtherError "argument of type is not iterable")
  end.

Definition cpu_recommendation (cpu_usage : Q) : Recommendation :=
  {| categoria := "Performance";
     rec_prioridade := "ALTA";
     rec_componente := "CPU";
     problema := "Uso alto de CPU: " ++ Py.format_fixed 1 cpu_usage ++ "%";
     recomendacao := "Feche programas desnecessários, verifique processos em segundo plano, considere upgrade do processador" |}.

Definition gpu_recommendation (gpu_usage : Q) : Recommendation :=
  {| categoria := "Performance";
     rec_prioridade := "MÉDIA";
     rec_componente := "GPU";
     problema := "Uso alto de GPU: " ++ Py.format_fixed 1 gpu_usage ++ "%";
     recomendacao := "Reduza configurações gráficas em jogos/aplicações, verifique drivers atualizados" |}.

Definition memory_recommendation (mem_usage : Q) : Recommendation :=
  {| categoria := "Hardware";
     rec_prioridade := "ALTA";
     rec_componente := "RAM";
     problema := "Uso alto de memória: " ++ Py.format_fixed 1 mem_usage ++ "%";
     recomendacao := "Considere adicionar mais RAM, feche aplicações não utilizadas, verifique vazamentos de memória" |}.

Definition maintenance_recommendation : Recommendation :=
  {| categoria := "Manutenção";
     rec_prioridade := "BAIXA";
     rec_componente := "GERAL";
     problema := "Manutenção preventiva";
     recomendacao := "Execute limpeza física do PC a cada 6 meses, atualize drivers regularmente, faça backup dos dados importantes" |}.

Definition security_recommendation : Recommendation :=
  {| categoria := "Segurança";
     rec_prioridade := "MÉDIA";
     rec_componente := "SISTEMA";
     problema := "Segurança do sistema";
     recomendacao := "Mantenha o sistema operacional atualizado, use antivírus atualizado, ative o firewall do Windows" |}.

Definition analysis_error_recommendation (e : exn) : Recommendation :=
  {| categoria := "Sistema";
     rec_prioridade := "BAIXA";
     rec_componente := "DIAGNÓSTICO";
     problema := "Erro na análise";
     recomendacao := "Erro durante análise de saúde: " ++ exn_msg e |}.

Definition analyze_health_and_recommendations (p : Provider) : M Engine unit :=
  modify (set_recommendations []) ;;
  try_except
    (cpu_info <- get_cpu_info p ;;
     match Dict.get "uso_atual" cpu_info with
     | Some v =>
         cpu_usage <- percent_of v ;;
         when (Py.gt cpu_usage 80)
           (recommendations_append (cpu_recommendation cpu_usage))
     | None => ret tt
     end ;;
     gpu_info <- get_gpu_info p ;;
     match Dict.get "uso_gpu" gpu_info with
     | Some v =>
         gpu_usage <- percent_of v ;;
         when (Py.gt gpu_usage 90)
           (recommendations_append (gpu_recommendation gpu_usage))
     | None => ret tt
     end ;;
     memory_info <- get_memory_info p ;;
     match Dict.get "porcentagem_uso" memory_info with
     | Some v =>
         mem_usage <- percent_of v ;;
         when (Py.gt mem_usage 85)
           (recommendations_append (memory_recommendation mem_usage))
     | None => ret tt
     end ;;
     storage_info <- get_storage_info p ;;
     match get_default "dispositivos" (VList []) storage_info with
     | VList devices => for_each devices storage_recommendation_step
     | _ => raise (mkExn OtherError "object is not iterable")
     end ;;
     recommendations_append maintenance_recommendation ;;
     recommendations_append security_recommendation)
    (fun e => recommendations_append (analysis_error_recommendation e)).

(** The snapshots a full diagnostic collects.  The report text that the
    source assembles from them, and the status line it updates, belong to
    the presentation layer. *)
Record Report : Type :=
  { rep_cpu : dict; rep_gpu : dict; rep_memory : dict; rep_storage : dict;
    rep_motherboard : dict; rep_system : dict; rep_network : dict }.

(** What [diagnosis_thread] does once the two lists are cleared: the
    report header reads the platform, every getter is called, and the
    health analysis runs. *)
Definition diagnosis_body (p : Provider) : M Engine Report :=
  call (platform_system p) ;;
  call (platform_release p) ;;
  cpu_info <- get_cpu_info p ;;
  gpu_info <- get_gpu_info p ;;
  memory_info <- get_memory_info p ;;
  storage_info <- get_storage_info p ;;
  mb_info <- get_motherboard_info p ;;
  sys_info <- get_system_info p ;;
  network_info <- get_network_info p ;;
  analyze_health_and_recommendations p ;;
  ret {| rep_cpu := cpu_info; rep_gpu := gpu_info;
         rep_memory := memory_info; rep_storage := storage_info;
         rep_motherboard := mb_info; rep_system := sys_info;
         rep_network := network_info |}.

(** The thread body of [run_complete_diagnosis]; [None] is the [except]
    branch, which shows an error instead of a report. *)
Definition diagnosis_thread (p : Provider) : M Engine (option Report) :=
  try_except
    (modify (set_alerts []) ;;
     modify (set_recommendations []) ;;
     report <- diagnosis_body p ;;
     ret (Some report))
    (fun _ => ret None).

(** [run_complete_diagnosis] starts [diagnosis_thread]; the model runs it
    to its end. *)
Definition run_complete_diagnosis (p : Provider) (e : Engine) : Engine :=
  snd (diagnosis_thread p e).

(** ** Real-time monitoring *)

Definition newline : string := String (ascii_of_nat 10) EmptyString.

Definition pad2 (n : Z) : string :=
  if Z.ltb n 10 then "0" ++ Py.str_of_Z n else Py.str_of_Z n.

(** [t.strftime('%H:%M:%S')], the clock being read in local time. *)
Definition strftime_HMS (t : datetime) : string :=
  let s := (t / 1000000) mod 86400 in
  pad2 (s / 3600) ++ ":" ++ pad2 ((s / 60) mod 60) ++ ":" ++ pad2 (s mod 60).

(** The first reading that the loop over [sensors.items()] reaches: the
    first CPU sensor that has entries. *)
Fixpoint first_cpu_reading (sensors : list (string * list Q)) : option Q :=
  match sensors with
  | [] => None
  | (name, entries) :: r =>
      if is_cpu_sensor name then
        match entries with
        | temp :: _ => Some temp
        | [] => first_cpu_reading r
        end
      else first_cpu_reading r
  end.

Definition get_cpu_temperature {S} (p : Provider) : M S (option Q) :=
  try_except
    (if lib_psutil p then
       sensors <- call (sensors_temperatures p) ;;
       ret (first_cpu_reading sensors)
     else ret None)
    (fun _ => ret None).

(** What one pass of the monitoring loop meets: the machine, the clocks,
    and whether the foreground calls [stop_monitoring] while the pass is
    under way (after the loop test that admitted it).  The foreground is
    taken not to start a new session before the loop has seen the cleared
    flag. *)
Record TickEnv : Type :=
  { tick_provider : Provider;
    tick_time : Q;               (* [time.time()] in the loop test *)
    tick_now : datetime;         (* [datetime.now()] at the top of the body *)
    tick_now_except : datetime;  (* [datetime.now()] in the handler *)
    stop_requested : bool }.

Section Buffers.
Context {L : Type}.

Definition modify_data (g : MonitoringData -> MonitoringData)
  : M (Frame L) unit :=
  modify (fun f =>
    mkFrame (set_monitoring_data (g (monitoring_data (self f))) (self f))
            (local f)).

(** [self.root.after(0, lambda: self.monitoring_log.insert(tk.END, msg))] *)
Definition log_insert (msg : string) : M (Frame L) unit :=
  modify (fun f =>
    mkFrame (set_monitoring_log (monitoring_log (self f) ++ [msg])%list (self f))
            (local f)).
End Buffers.

Definition append_timestamp (t : datetime) (d : MonitoringData) :=
  {| cpu_usage := cpu_usage d; gpu_usage := gpu_usage d;
     memory_usage := memory_usage d; cpu_temp := cpu_temp d;
     gpu_temp := gpu_temp d; timestamps := (timestamps d ++ [t])%list |}.

Definition append_cpu_usage (x : Q) (d : MonitoringData) :=
  {| cpu_usage := (cpu_usage d ++ [x])%list; gpu_usage := gpu_usage d;
     memory_usage := memory_usage d; cpu_temp := cpu_temp d;
     gpu_temp := gpu_temp d; timestamps := timestamps d |}.

Definition append_gpu_usage (x : Q) (d : MonitoringData) :=
  {| cpu_usage := cpu_usage d; gpu_usage := (gpu_usage d ++ [x])%list;
     memory_usage := memory_usage d; cpu_temp := cpu_temp d;
     gpu_temp := gpu_temp d; timestamps := timestamps d |}.

Definition append_memory_usage (x : Q) (d : MonitoringData) :=
  {| cpu_usage := cpu_usage d; gpu_usage := gpu_usage d;
     memory_usage := (memory_usage d ++ [x])%list; cpu_temp := cpu_temp d;
     gpu_temp := gpu_temp d; timestamps := timestamps d |}.

Definition append_cpu_temp (x : Q) (d : MonitoringData) :=
  {| cpu_usage := cpu_usage d; gpu_usage := gpu_usage d;
     memory_usage := memory_usage d; cpu_temp := (cpu_temp d ++ [x])%list;
     gpu_temp := gpu_temp d; timestamps := timestamps d |}.

Definition append_gpu_temp (x : Q) (d : MonitoringData) :=
  {| cpu_usage := cpu_usage d; gpu_usage := gpu_usage d;
     memory_usage := memory_usage d; cpu_temp := cpu_temp d;
     gpu_temp := (gpu_temp d ++ [x])%list; timestamps := timestamps d |}.

(** The body of the [while] loop of [monitoring_thread].  The local
    variable of the frame is [cpu_percent], unbound until first assigned.
    The two-second sleeps show only in the clock readings of the next
    pass. *)
Definition monitoring_tick (env : TickEnv) : M (Frame (option Q)) unit :=
  let p := tick_provider env in
  try_except
    (let current_time := tick_now env in
     modify_data (append_timestamp current_time) ;;
     when (lib_psutil p)
       (cpu_percent <- call (cpu_percent p) ;;
        set_local (Some cpu_percent) ;;
        modify_data (append_cpu_usage cpu_percent) ;;
        cpu_temp <- get_cpu_temperature p ;;
        match cpu_temp with
        | Some t => when (negb (Qeq_bool t 0)) (modify_data (append_cpu_temp t))
        | None => ret tt
        end ;;
        memory <- call (virtual_memory p) ;;
        modify_data (append_memory_usage (vm_percent memory))) ;;
     when (lib_GPUtil p)
       (try_except
          (gpus <- call (getGPUs p) ;;
           match gpus with
           | gpu :: _ =>
               modify_data (append_gpu_usage (gpu_load gpu * 100)) ;;
               modify_data (append_gpu_temp (gpu_temperature gpu))
           | [] => ret tt
           end)
          (fun _ => ret tt)) ;;
     cpu_percent <- get_local ;;
     match cpu_percent with
     | Some c =>
         when (Py.gt c 80)
           (log_insert ("[" ++ strftime_HMS current_time ++ "] ⚠️  CPU alta: "
                        ++ Py.format_fixed 1 c ++ "%" ++ newline))
     | None =>
         raise (mkExn UnboundLocalError
                  "cannot access local variable 'cpu_percent' where it is not associated with a value")
     end ;;
     when (lib_psutil p)
       (memory <- call (virtual_memory p) ;;
        when (Py.gt (vm_percent memory) 85)
          (log_insert ("[" ++ strftime_HMS current_time ++ "] ⚠️  RAM alta: "
                       ++ Py.format_fixed 1 (vm_percent memory) ++ "%"
                       ++ newline))))
    (fun e =>
       log_insert ("[" ++ strftime_HMS (tick_now_except env) ++ "] ❌ Erro: "
                   ++ exn_msg e ++ newline)).

Definition stop_monitoring (e : Engine) : Engine := set_monitoring false e.

(** The [while self.monitoring and time.time() < end_time] loop over the
    passes that the schedule describes.  The boolean tells whether the loop
    was left ([true]) or whether the schedule ended while the loop was
    still running ([false]). *)
Fixpoint monitoring_loop (end_time : Q) (schedule : list TickEnv)
         (f : Frame (option Q)) : bool * Frame (option Q) :=
  if monitoring (self f) then
    match schedule with
    | [] => (false, f)
    | env :: rest =>
        if Py.gt end_time (tick_time env) then
          let f1 := snd (monitoring_tick env f) in
          let f2 := if stop_requested env
                    then mkFrame (stop_monitoring (self f1)) (local f1)
                    else f1 in
          monitoring_loop end_time rest f2
        else (true, f)
    end
  else (true, f).

(** [sum(l) / len(l)] and [max(l)] of a non-empty buffer. *)
Definition summary_stats (l : list Q) : option (Q * Q) :=
  match Py.max l with
  | Some m => Some ((Py.sum l / inject_Z (Z.of_nat (List.length l)))%Q, m)
  | None => None
  end.

Definition summary_line (label : string) (l : list Q) : string :=
  match summary_stats l with
  | Some (avg, mx) =>
      "   " ++ label ++ " - Média: " ++ Py.format_fixed 1 avg
      ++ "%, Máximo: " ++ Py.format_fixed 1 mx ++ "%" ++ newline
  | None => ""
  end.

(** The text [finish_monitoring] puts into the monitoring log. *)
Definition end_msg (now : datetime) (d : MonitoringData) : string :=
  newline ++ "🔴 Monitoramento finalizado: " ++ strftime_HMS now ++ newline
  ++ "📊 Dados coletados: "
  ++ Py.str_of_Z (Z.of_nat (List.length (timestamps d))) ++ " amostras"
  ++ newline
  ++ summary_line "CPU" (cpu_usage d)
  ++ summary_line "RAM" (memory_usage d).

Definition finish_monitoring (now : datetime) (e : Engine) : Engine :=
  let e1 := set_monitoring false e in
  set_monitoring_log
    (monitoring_log e1 ++ [end_msg now (monitoring_data e1)])%list e1.

(** [start_monitoring] up to the start of its thread. *)
Definition start_monitoring (duration_minutes : Z) (now : datetime)
           (e : Engine) : Engine :=
  let e1 := set_monitoring true e in
  let e2 := set_monitoring_data empty_data e1 in
  set_monitoring_log
    ["🟢 Monitoramento iniciado por " ++ Py.str_of_Z duration_minutes
       ++ " minutos..." ++ newline;
     "Início: " ++ strftime_HMS now ++ newline ++ newline] e2.

(** [monitoring_thread]: the loop, then [finish_monitoring].  [None] when
    the schedule ends before the loop does. *)
Definition monitoring_thread (duration_minutes : Z) (start_time : Q)
           (schedule : list TickEnv) (finish_now : datetime) (e : Engine)
  : option Engine :=
  let end_time := (start_time + inject_Z (duration_minutes * 60))%Q in
  match monitoring_loop end_time schedule (mkFrame e None) with
  | (true, f) => Some (finish_monitoring finish_now (self f))
  | (false, _) => None
  end.

(** A whole session: [start_monitoring] and its thread. *)
Definition monitoring_session (duration_minutes : Z) (now : datetime)
           (start_time : Q) (schedule : list TickEnv) (finish_now : datetime)
           (e : Engine) : option Engine :=
  monitoring_thread duration_minutes start_time schedule finish_now
                    (start_monitoring duration_minutes now e).


(** ** CSV export of the monitoring buffers *)

(** A cell of the CSV file: a timestamp (written with [strftime]), a
    number, or the empty string. *)
Inductive cell : Type :=
| CTime (t : datetime)
| CNum (q : Q)
| CEmpty.

(** [l[i] if i < len(l) else ''] *)
Definition cell_at (l : list Q) (i : nat) : cell :=
  match nth_error l i with
  | Some x => CNum x
  | None => CEmpty
  end.

(** [l and any(t for t in l if t)] *)
Definition any_reading (l : list Q) : bool :=
  existsb (fun t => negb (Qeq_bool t 0)) l.

Definition nonempty {A} (l : list A) : bool :=
  match l with [] => false | _ => true end.

Definition csv_headers (d : MonitoringData) : list string :=
  (["Timestamp"; "CPU_Usage_%"; "Memory_Usage_%"]
   ++ (if nonempty (gpu_usage d) then ["GPU_Usage_%"] else [])
   ++ (if any_reading (cpu_temp d) then ["CPU_Temp_C"] else [])
   ++ (if nonempty (gpu_temp d) then ["GPU_Temp_C"] else []))%list.

(** The row written for the [i]-th timestamp. *)
Definition csv_row (d : MonitoringData) (i : nat) (timestamp : datetime)
  : list cell :=
  ([CTime timestamp; cell_at (cpu_usage d) i; cell_at (memory_usage d) i]
   ++ (if nonempty (gpu_usage d) then [cell_at (gpu_usage d) i] else [])
   ++ (if any_reading (cpu_temp d) then [cell_at (cpu_temp d) i] else [])
   ++ (if nonempty (gpu_temp d) then [cell_at (gpu_temp d) i] else []))%list.

(** What [save_monitoring_csv] hands to the CSV writer: the header and one
    row per timestamp; [None] when there is no data (a warning is shown). *)
Definition save_monitoring_csv (d : MonitoringData)
  : option (list string * list (list cell)) :=
  match timestamps d with
  | [] => None
  | ts =>
      Some (csv_headers d,
            List.map (fun it => csv_row d (fst it) (snd it))
                     (combine (seq 0 (List.length ts)) ts))
  end.

(** ** The monitoring section of the complete report *)



(** ** The alerts tab *)

(** [s * n] *)
Fixpoint repeat_string (s : string) (n : nat) : string :=
  match n with
  | O => ""
  | S k => s ++ repeat_string s k
  end.

(** [[alert for alert in self.alerts if alert['tipo'] == t]] *)
Definition alerts_of_type (t : string) (l : list Alert) : list Alert :=
  filter (fun a => String.eqb (tipo a) t) l.

(** [[rec for rec in self.recommendations if rec['prioridade'] == priority]] *)
Definition recs_of_priority (priority : string) (l : list Recommendation)
  : list Recommendation :=
  filter (fun r => String.eqb (rec_prioridade r) priority) l.

Definition priorities : list string := ["CRÍTICA"; "ALTA"; "MÉDIA"; "BAIXA"].

Definition alert_line (icon : string) (a : Alert) : string :=
  icon ++ componente a ++ ": " ++ mensagem a ++ newline.

Definition healthy_text : string :=
  "✅ SISTEMA SAUDÁVEL" ++ newline ++ newline ++ "Nenhum alerta crítico detectado.".

(** The text [update_alerts_tab] puts into the alerts view. *)
Definition alert_text (l : list Alert) : string :=
  let critical_alerts := alerts_of_type "CRÍTICO" l in
  let warnings := alerts_of_type "AVISO" l in
  if nonempty critical_alerts || nonempty warnings then
    "🚨 ALERTAS DETECTADOS" ++ newline ++ repeat_string "=" 40 ++ newline ++ newline
    ++ (if nonempty critical_alerts then
          "🔴 CRÍTICOS:" ++ newline
          ++ String.concat "" (List.map (alert_line "⚠️  ") critical_alerts)
          ++ newline
        else "")
    ++ (if nonempty warnings then
          "🟡 AVISOS:" ++ newline
          ++ String.concat "" (List.map (alert_line "🔶 ") warnings)
        else "")
  else healthy_text.

(** The lines of the [i]-th recommendation of a priority. *)
Definition rec_lines (ir : nat * Recommendation) : string :=
  let (i, r) := ir in
  Py.str_of_Z (Z.of_nat i) ++ ". [" ++ categoria r ++ "] "
  ++ rec_componente r ++ ":" ++ newline
  ++ "   Problema: " ++ problema r ++ newline
  ++ "   Solução: " ++ recomendacao r ++ newline ++ newline.

Definition priority_section (l : list Recommendation) (priority : string)
  : string :=
  let priority_recs := recs_of_priority priority l in
  if nonempty priority_recs then
    "🔴 PRIORIDADE " ++ priority ++ ":" ++ newline
    ++ String.concat ""
         (List.map rec_lines
                   (combine (seq 1 (List.length priority_recs)) priority_recs))
  else "".

Definition optimized_text : string :=
  "✅ SISTEMA OTIMIZADO" ++ newline ++ newline ++ "Nenhuma recomendação específica no momento.".

(** The text [update_alerts_tab] puts into the recommendations view. *)
Definition rec_text (l : list Recommendation) : string :=
  if nonempty l then
    "💡 RECOMENDAÇÕES DE MELHORIA" ++ newline ++ repeat_string "=" 40 ++ newline ++ newline
    ++ String.concat "" (List.map (priority_section l) priorities)
  else optimized_text.

Definition update_alerts_tab (e : Engine) : string * string :=
  (alert_text (alerts e), rec_text (recommendations e)).

(** ** Concrete machines used by the examples below *)

Definition no_lib (name : string) : exn :=
  mkExn OtherError ("name '" ++ name ++ "' is not defined").

(** A Linux desktop with psutil only: one CPU sensor, 16 GiB of memory,
    one partition; the other libraries are not installed. *)
Definition desktop (cpu_temp_reading : Q) (mem_percent : Q) : Provider :=
  {| lib_psutil := true; lib_GPUtil := false; lib_cpuinfo := false;
     lib_wmi := false;
     platform_system := Ok "Linux";
     platform_version := Ok "#1 SMP";
     platform_release := Ok "6.1.0";
     platform_architecture := Ok "64bit";
     platform_processor := Ok "x86_64";
     platform_machine := Ok "x86_64";
     platform_node := Ok "desktop";
     cpu_percent := Ok 12.5%Q;
     cpu_count_physical := Ok (Some 4);
     cpu_count_logical := Ok (Some 8);
     cpu_freq := Ok (Some {| freq_current := 2400; freq_max := 3600 |});
     sensors_temperatures :=
       Ok [("acpitz", [40%Q]); ("coretemp", [cpu_temp_reading; 50%Q])];
     virtual_memory :=
       Ok {| vm_total := 17179869184; vm_available := 8589934592;
             vm_used := 8589934592; vm_free := 4294967296;
             vm_percent := mem_percent;
             vm_cached := Some 1073741824; vm_buffers := None |};
     swap_memory := Ok {| sw_total := 0; sw_used := 0; sw_percent := 0 |};
     disk_partitions :=
       Ok [{| dp_device := "/dev/sda1"; dp_mountpoint := "/";
              dp_fstype := "ext4" |}];
     disk_usage := fun _ =>
       Ok {| du_total := 1000; du_used := 500; du_free := 500 |};
     disk_io_counters := Ok None;
     net_if_addrs := Ok [];
     net_if_stats := Ok [];
     net_io_counters := Ok None;
     boot_time_str := Ok "2025-01-01 08:00:00";
     uptime_str := Ok "1:00:00";
     users_count := Ok 1%nat;
     cpuinfo_get_cpu_info := Raise (no_lib "cpuinfo");
     getGPUs := Raise (no_lib "GPUtil");
     wmi_WMI := Raise (no_lib "wmi");
     wmi_PhysicalMemory := Raise (no_lib "wmi");
     wmi_DiskDrive := Raise (no_lib "wmi");
     wmi_BaseBoard := Raise (no_lib "wmi");
     wmi_BIOS := Raise (no_lib "wmi");
     wmi_Processor := Raise (no_lib "wmi") |}.

(** A machine on which one partition cannot be read for lack of permission. *)
Definition locked_partition : Provider :=
  {| lib_psutil := true; lib_GPUtil := false; lib_cpuinfo := false;
     lib_wmi := false;
     platform_system := Ok "Linux";
     platform_version := Ok "#1 SMP";
     platform_release := Ok "6.1.0";
     platform_architecture := Ok "64bit";
     platform_processor := Ok "x86_64";
     platform_machine := Ok "x86_64";
     platform_node := Ok "desktop";
     cpu_percent := Ok 12.5%Q;
     cpu_count_physical := Ok (Some 4);
     cpu_count_logical := Ok (Some 8);
     cpu_freq := Ok None;
     sensors_temperatures := Ok [];
     virtual_memory :=
       Ok {| vm_total := 17179869184; vm_available := 8589934592;
             vm_used := 8589934592; vm_free := 4294967296;
             vm_percent := 50;
             vm_cached := None; vm_buffers := None |};
     swap_memory := Ok {| sw_total := 0; sw_used := 0; sw_percent := 0 |};
     disk_partitions :=
       Ok [{| dp_device := "/dev/sdb1"; dp_mountpoint := "/mnt/locked";
              dp_fstype := "ext4" |}];
     disk_usage := fun _ =>
       Raise (mkExn PermissionError "[Errno 13] Permission denied");
     disk_io_counters := Ok None;
     net_if_addrs := Ok [];
     net_if_stats := Ok [];
     net_io_counters := Ok None;
     boot_time_str := Ok "2025-01-01 08:00:00";
     uptime_str := Ok "1:00:00";
     users_count := Ok 1%nat;
     cpuinfo_get_cpu_info := Raise (no_lib "cpuinfo");
     getGPUs := Raise (no_lib "GPUtil");
     wmi_WMI := Raise (no_lib "wmi");
     wmi_PhysicalMemory := Raise (no_lib "wmi");
     wmi_DiskDrive := Raise (no_lib "wmi");
     wmi_BaseBoard := Raise (no_lib "wmi");
     wmi_BIOS := Raise (no_lib "wmi");
     wmi_Processor := Raise (no_lib "wmi") |}.

(** The engine with other disk limits. *)
Definition set_disk_limits (dw dc : Z) (e : Engine) : Engine :=
  {| monitoring := monitoring e; monitoring_data := monitoring_data e;
     alerts := alerts e; recommendations := recommendations e;
     temp_limits :=
       {| cpu_warning := cpu_warning (temp_limits e);
          cpu_critical := cpu_critical (temp_limits e);
          gpu_warning := gpu_warning (temp_limits e);
          gpu_critical := gpu_critical (temp_limits e);
          disk_warning := dw; disk_critical := dc |};
     monitoring_log := monitoring_log e |}.

(** The machine with another answer of [psutil.sensors_temperatures()]. *)
Definition with_sensors (o : result (list (string * list Q))) (p : Provider)
  : Provider :=
  {| lib_psutil := lib_psutil p; lib_GPUtil := lib_GPUtil p;
     lib_cpuinfo := lib_cpuinfo p; lib_wmi := lib_wmi p;
     platform_system := platform_system p;
     platform_version := platform_version p;
     platform_release := platform_release p;
     platform_architecture := platform_architecture p;
     platform_processor := platform_processor p;
     platform_machine := platform_machine p;
     platform_node := platform_node p;
     cpu_percent := cpu_percent p;
     cpu_count_physical := cpu_count_physical p;
     cpu_count_logical := cpu_count_logical p;
     cpu_freq := cpu_freq p;
     sensors_temperatures := o;
     virtual_memory := virtual_memory p;
     swap_memory := swap_memory p;
     disk_partitions := disk_partitions p;
     disk_usage := disk_usage p;
     disk_io_counters := disk_io_counters p;
     net_if_addrs := net_if_addrs p;
     net_if_stats := net_if_stats p;
     net_io_counters := net_io_counters p;
     boot_time_str := boot_time_str p;
     uptime_str := uptime_str p;
     users_count := users_count p;
     cpuinfo_get_cpu_info := cpuinfo_get_cpu_info p;
     getGPUs := getGPUs p;
     wmi_WMI := wmi_WMI p;
     wmi_PhysicalMemory := wmi_PhysicalMemory p;
     wmi_DiskDrive := wmi_DiskDrive p;
     wmi_BaseBoard := wmi_BaseBoard p;
     wmi_BIOS := wmi_BIOS p;
     wmi_Processor := wmi_Processor p |}.

(** A desktop whose NVMe disk reports 70°C. *)
Definition hot_disk : Provider :=
  with_sensors (Ok [("nvme", [70%Q]); ("coretemp", [45%Q])]) (desktop 45 50).

(** The machine with GPUtil installed and the given answer of
    [GPUtil.getGPUs()]. *)
Definition with_gpus (o : result (list GPU)) (p : Provider) : Provider :=
  {| lib_psutil := lib_psutil p; lib_GPUtil := true;
     lib_cpuinfo := lib_cpuinfo p; lib_wmi := lib_wmi p;
     platform_system := platform_system p;
     platform_version := platform_version p;
     platform_release := platform_release p;
     platform_architecture := platform_architecture p;
     platform_processor := platform_processor p;
     platform_machine := platform_machine p;
     platform_node := platform_node p;
     cpu_percent := cpu_percent p;
     cpu_count_physical := cpu_count_physical p;
     cpu_count_logical := cpu_count_logical p;
     cpu_freq := cpu_freq p;
     sensors_temperatures := sensors_temperatures p;
     virtual_memory := virtual_memory p;
     swap_memory := swap_memory p;
     disk_partitions := disk_partitions p;
     disk_usage := disk_usage p;
     disk_io_counters := disk_io_counters p;
     net_if_addrs := net_if_addrs p;
     net_if_stats := net_if_stats p;
     net_io_counters := net_io_counters p;
     boot_time_str := boot_time_str p;
     uptime_str := uptime_str p;
     users_count := users_count p;
     cpuinfo_get_cpu_info := cpuinfo_get_cpu_info p;
     getGPUs := o;
     wmi_WMI := wmi_WMI p;
     wmi_PhysicalMemory := wmi_PhysicalMemory p;
     wmi_DiskDrive := wmi_DiskDrive p;
     wmi_BaseBoard := wmi_BaseBoard p;
     wmi_BIOS := wmi_BIOS p;
     wmi_Processor := wmi_Processor p |}.

(** A pass in which the [coretemp] sensor is not listed. *)
Definition pass_without_reading : TickEnv :=
  {| tick_provider := with_sensors (Ok [("acpitz", [40%Q])]) (desktop 55 50);
     tick_time := 0; tick_now := 1000000; tick_now_except := 1000000;
     stop_requested := false |}.

(** The next pass, in which it is listed again; the session is stopped
    during it. *)
Definition pass_with_reading : TickEnv :=
  {| tick_provider := desktop 55 50;
     tick_time := 3; tick_now := 4000000; tick_now_except := 4000000;
     stop_requested := true |}.


(** A machine on which none of the optional libraries is installed. *)
Definition bare_machine : Provider :=
  {| lib_psutil := false; lib_GPUtil := false; lib_cpuinfo := false;
     lib_wmi := false;
     platform_system := Ok "Linux";
     platform_version := Ok "#1 SMP";
     platform_release := Ok "6.1.0";
     platform_architecture := Ok "64bit";
     platform_processor := Ok "x86_64";
     platform_machine := Ok "x86_64";
     platform_node := Ok "bare";
     cpu_percent := Raise (no_lib "psutil");
     cpu_count_physical := Raise (no_lib "psutil");
     cpu_count_logical := Raise (no_lib "psutil");
     cpu_freq := Raise (no_lib "psutil");
     sensors_temperatures := Raise (no_lib "psutil");
     virtual_memory := Raise (no_lib "psutil");
     swap_memory := Raise (no_lib "psutil");
     disk_partitions := Raise (no_lib "psutil");
     disk_usage := fun _ => Raise (no_lib "psutil");
     disk_io_counters := Raise (no_lib "psutil");
     net_if_addrs := Raise (no_lib "psutil");
     net_if_stats := Raise (no_lib "psutil");
     net_io_counters := Raise (no_lib "psutil");
     boot_time_str := Raise (no_lib "psutil");
     uptime_str := Raise (no_lib "psutil");
     users_count := Raise (no_lib "psutil");
     cpuinfo_get_cpu_info := Raise (no_lib "cpuinfo");
     getGPUs := Raise (no_lib "GPUtil");
     wmi_WMI := Raise (no_lib "wmi");
     wmi_PhysicalMemory := Raise (no_lib "wmi");
     wmi_DiskDrive := Raise (no_lib "wmi");
     wmi_BaseBoard := Raise (no_lib "wmi");
     wmi_BIOS := Raise (no_lib "wmi");
     wmi_Processor := Raise (no_lib "wmi") |}.

(** A pass on that machine, during which the session is stopped. *)
Definition pass_without_psutil : TickEnv :=
  {| tick_provider := bare_machine; tick_time := 0;
     tick_now := 1000000; tick_now_except := 1000000;
     stop_requested := true |}.


(** * Properties *)

(** The limits that the diagnostic code reads: the disk limits are kept in
    [temp_limits] but nothing looks them up. *)
Definition same_thermal (a b : TempLimits) : Prop :=
  cpu_warning a = cpu_warning b /\ cpu_critical a = cpu_critical b /\
  gpu_warning a = gpu_warning b /\ gpu_critical a = gpu_critical b.

(** The engine [e] holds the CPU and GPU limits of [lim]. *)
Definition reads (lim : TempLimits) (e : Engine) : Prop :=
  same_thermal lim (temp_limits e).

Lemma reads_refl e : reads (temp_limits e) e.
Proof. repeat split. Qed.

Lemma reads_eq lim e : lim = temp_limits e -> reads lim e.
Proof. intros H. subst lim. apply reads_refl. Qed.

(** ** What a method does to the engine *)

Definition add_alerts (l : list Alert) (e : Engine) : Engine :=
  set_alerts (alerts e ++ l)%list e.

(** The footprint of the diagnostic code on [self]: alerts are appended;
    recommendations are appended, possibly after being cleared. *)
Record effect : Type :=
  { new_alerts : list Alert;
    reset_recs : bool;
    new_recs : list Recommendation }.

Definition apply_effect (eff : effect) (e : Engine) : Engine :=
  set_recommendations
    ((if reset_recs eff then [] else recommendations e) ++ new_recs eff)%list
    (add_alerts (new_alerts eff) e).

Definition no_effect : effect :=
  {| new_alerts := []; reset_recs := false; new_recs := [] |}.

Definition alert_effect (l : list Alert) : effect :=
  {| new_alerts := l; reset_recs := false; new_recs := [] |}.

Definition seq_effect (a b : effect) : effect :=
  {| new_alerts := (new_alerts a ++ new_alerts b)%list;
     reset_recs := reset_recs a || reset_recs b;
     new_recs := if reset_recs b then new_recs b
                 else (new_recs a ++ new_recs b)%list |}.

Lemma apply_no_effect e : apply_effect no_effect e = e.
Proof.
  destruct e; unfold apply_effect, add_alerts, set_recommendations, set_alerts;
    simpl; now rewrite !List.app_nil_r.
Qed.

Lemma apply_seq_effect a b e :
  apply_effect b (apply_effect a e) = apply_effect (seq_effect a b) e.
Proof.
  destruct e, a as [la ra na], b as [lb rb nb].
  unfold apply_effect, add_alerts, set_recommendations, set_alerts, seq_effect;
    simpl.
  rewrite <- List.app_assoc. f_equal.
  destruct rb, ra; simpl; now rewrite <- ?List.app_assoc.
Qed.

Lemma apply_alert_effect l e : apply_effect (alert_effect l) e = add_alerts l e.
Proof.
  destruct e; unfold apply_effect, add_alerts, set_recommendations, set_alerts;
    simpl; now rewrite List.app_nil_r.
Qed.

Lemma temp_limits_apply_effect eff e :
  temp_limits (apply_effect eff e) = temp_limits e.
Proof. reflexivity. Qed.

Lemma alerts_apply_effect eff e :
  alerts (apply_effect eff e) = (alerts e ++ new_alerts eff)%list.
Proof. reflexivity. Qed.

Lemma recommendations_apply_effect eff e :
  recommendations (apply_effect eff e) =
  ((if reset_recs eff then [] else recommendations e) ++ new_recs eff)%list.
Proof. reflexivity. Qed.

(** A Hoare-style judgement for the monad.  The state is an engine
    together with a rest [R] (the local variable of a method body, or
    nothing).  [hoare Post m] says: from a rest that satisfies [Inv], and
    whatever the engine holds, [m] returns one result, satisfying [Post],
    and changes the engine by one effect, whose new alerts satisfy [PA]
    and new recommendations [PR]; both depend on the engine through its
    temperature limits [lim] only. *)
Section Hoare.
Context {S R : Type} (mk : Engine -> R -> S).
Variable lim : TempLimits.
Variable PA : Alert -> Prop.
Variable PR : Recommendation -> Prop.
Variable allow_reset : bool.
Variable Inv : R -> Prop.

Definition hoare {A} (Post : result A -> Prop) (m : M S A) : Prop :=
  forall rest, Inv rest ->
    exists r eff rest',
      Post r /\ Forall PA (new_alerts eff) /\ Forall PR (new_recs eff) /\
      (reset_recs eff = true -> allow_reset = true) /\
      Inv rest' /\
      forall e, reads lim e ->
                m (mk e rest) = (r, mk (apply_effect eff e) rest').

Definition top {A} : result A -> Prop := fun _ => True.

Lemma hoare_weaken {A} (Post Post' : result A -> Prop) m :
  hoare Post m -> (forall r, Post r -> Post' r) -> hoare Post' m.
Proof.
  intros H HP rest HI.
  destruct (H rest HI) as (r & eff & rest' & Hr & Ha & Hc & Hrs & HI' & Heq).
  exists r, eff, rest'. repeat split; auto.
Qed.

Lemma hoare_pure {A} (Post : result A -> Prop) (r : result A) :
  Post r -> hoare Post (fun s => (r, s)).
Proof.
  intros HP rest HI. exists r, no_effect, rest.
  repeat split; auto; try constructor; try discriminate.
  intros e _. now rewrite apply_no_effect.
Qed.

Lemma hoare_ret {A} (a : A) : hoare top (ret a).
Proof. apply hoare_pure. exact I. Qed.

Lemma hoare_raise {A} (x : exn) : hoare (A:=A) top (raise x).
Proof. apply hoare_pure. exact I. Qed.

Lemma hoare_call {A} (o : result A) : hoare top (call o).
Proof. apply hoare_pure. exact I. Qed.

Lemma hoare_bind {A B} (Post1 : result A -> Prop) (Post2 : result B -> Prop)
      (m : M S A) (k : A -> M S B) :
  hoare Post1 m ->
  (forall a, Post1 (Ok a) -> hoare Post2 (k a)) ->
  (forall x, Post1 (Raise x) -> Post2 (Raise x)) ->
  hoare Post2 (bind m k).
Proof.
  intros Hm Hk Hx rest HI.
  destruct (Hm rest HI) as (r & eff & rest' & Hr & Ha & Hc & Hrs & HI' & Heq).
  destruct r as [a|x].
  - destruct (Hk a Hr rest' HI')
      as (r2 & eff2 & rest2 & Hr2 & Ha2 & Hc2 & Hrs2 & HI2 & Heq2).
    exists r2, (seq_effect eff eff2), rest2.
    repeat split; auto.
    + simpl. apply Forall_app; auto.
    + simpl. destruct (reset_recs eff2); auto. apply Forall_app; auto.
    + simpl. intros [H|H]%orb_true_iff; auto.
    + intros e He. unfold bind. rewrite (Heq e He).
      rewrite Heq2 by exact He.
      now rewrite apply_seq_effect.
  - exists (Raise x), eff, rest'. repeat split; auto.
    intros e He. unfold bind. now rewrite (Heq e He).
Qed.

Lemma tracks_bind {A B} (m : M S A) (k : A -> M S B) :
  hoare top m -> (forall a, hoare top (k a)) -> hoare top (bind m k).
Proof. intros Hm Hk. eapply hoare_bind; eauto. Qed.

(** Binding a library call whose outcome is known. *)
Lemma tracks_bind_call_ok {A B} (a : A) (k : A -> M S B) :
  hoare top (k a) -> hoare top (bind (call (Ok a)) k).
Proof.
  intros Hk rest HI.
  destruct (Hk rest HI) as (r & eff & rest' & Hr & Ha & Hc & Hrs & HI' & Heq).
  exists r, eff, rest'. repeat split; auto.
Qed.

Lemma hoare_try_except {A} (Post : result A -> Prop) (m : M S A)
      (h : exn -> M S A) :
  hoare top m ->
  (forall a, Post (Ok a)) ->
  (forall x, hoare Post (h x)) ->
  hoare Post (try_except m h).
Proof.
  intros Hm Hok Hh rest HI.
  destruct (Hm rest HI) as (r & eff & rest' & Hr & Ha & Hc & Hrs & HI' & Heq).
  destruct r as [a|x].
  - exists (Ok a), eff, rest'. repeat split; auto.
    intros e He. unfold try_except. now rewrite (Heq e He).
  - destruct (Hh x rest' HI')
      as (r2 & eff2 & rest2 & Hr2 & Ha2 & Hc2 & Hrs2 & HI2 & Heq2).
    exists r2, (seq_effect eff eff2), rest2.
    repeat split; auto.
    + simpl. apply Forall_app; auto.
    + simpl. destruct (reset_recs eff2); auto. apply Forall_app; auto.
    + simpl. intros [H|H]%orb_true_iff; auto.
    + intros e He. unfold try_except. rewrite (Heq e He).
      rewrite Heq2 by exact He.
      now rewrite apply_seq_effect.
Qed.

Lemma tracks_try_except {A} (m : M S A) (h : exn -> M S A) :
  hoare top m -> (forall x, hoare top (h x)) -> hoare top (try_except m h).
Proof. intros. apply hoare_try_except; auto. intros; exact I. Qed.

Lemma tracks_try_except_class {A} c (m : M S A) (h : exn -> M S A) :
  hoare top m -> (forall x, hoare top (h x)) ->
  hoare top (try_except_class c m h).
Proof.
  intros Hm Hh rest HI.
  destruct (Hm rest HI) as (r & eff & rest' & Hr & Ha & Hc & Hrs & HI' & Heq).
  destruct r as [a|x].
  - exists (Ok a), eff, rest'. repeat split; auto.
    intros e He. unfold try_except_class. now rewrite (Heq e He).
  - destruct (c (exn_kind x)) eqn:Ec.
    + destruct (Hh x rest' HI')
        as (r2 & eff2 & rest2 & Hr2 & Ha2 & Hc2 & Hrs2 & HI2 & Heq2).
      exists r2, (seq_effect eff eff2), rest2.
      repeat split; auto.
      * simpl. apply Forall_app; auto.
      * simpl. destruct (reset_recs eff2); auto. apply Forall_app; auto.
      * simpl. intros [H|H]%orb_true_iff; auto.
      * intros e He. unfold try_except_class. rewrite (Heq e He), Ec.
        rewrite Heq2 by exact He.
        now rewrite apply_seq_effect.
    + exists (Raise x), eff, rest'. repeat split; auto.
      intros e He. unfold try_except_class. now rewrite (Heq e He), Ec.
Qed.

Lemma tracks_when (b : bool) (m : M S unit) :
  hoare top m -> hoare top (when b m).
Proof. destruct b; simpl; auto. intros _. apply hoare_ret. Qed.

Lemma tracks_for_each {A} (l : list A) (body : A -> M S flow) :
  (forall x, hoare top (body x)) -> hoare top (for_each l body).
Proof.
  intros Hb. induction l as [|x l IH]; simpl.
  - apply hoare_ret.
  - apply tracks_bind; auto. intros [|]; auto. apply hoare_ret.
Qed.

Lemma tracks_map_m {A B} (f : A -> M S B) (l : list A) :
  (forall x, hoare top (f x)) -> hoare top (map_m f l).
Proof.
  intros Hf. induction l as [|x l IH]; simpl.
  - apply hoare_ret.
  - apply tracks_bind; auto. intros y.
    apply tracks_bind; auto. intros ys. apply hoare_ret.
Qed.

Lemma tracks_pydiv msg a b : hoare top (pydiv msg a b).
Proof.
  unfold pydiv. destruct (Qeq_bool b 0); [apply hoare_raise|apply hoare_ret].
Qed.

(** After a division the continuation runs on the quotient, if at all. *)
Lemma tracks_bind_pydiv {B} msg a b (k : Q -> M S B) :
hoare top (k (a / b)%Q) -> hoare top (bind (pydiv msg a b) k).
Proof.
intros Hk rest HI. unfold pydiv.
destruct (Qeq_bool b 0).
- exists (Raise (mkExn ZeroDivisionError msg)), no_effect, rest.
  repeat split; auto; try constructor; try discriminate.
  intros e _. now rewrite apply_no_effect.
- destruct (Hk rest HI) as (r & eff & rest' & Hr & Ha & Hc & Hrs & HI' & Heq).
  exists r, eff, rest'. repeat split; auto.
Qed.

Lemma tracks_percent_of v : hoare top (percent_of v).
Proof.
  unfold percent_of. destruct v; try apply hoare_raise.
  destruct (Py.parse_float _); [apply hoare_ret|apply hoare_raise].
Qed.

Lemma tracks_subscript k d : hoare top (subscript k d).
Proof.
  unfold subscript. destruct (Dict.get k d); [apply hoare_ret|apply hoare_raise].
Qed.

End Hoare.

(** *** Method bodies: the state is a frame *)

Section FrameHoare.
Context {L : Type}.
Variable lim : TempLimits.
Variable PA : Alert -> Prop.
Variable Inv : L -> Prop.

(** Method bodies of the getters never touch the recommendations. *)
Definition fhoare {A} (Post : result A -> Prop) (m : M (Frame L) A) : Prop :=
  hoare (@mkFrame L) lim PA (fun _ => False) false Inv Post m.

Lemma fhoare_alerts_append a :
  PA a -> fhoare (fun r => r = Ok tt) (alerts_append a).
Proof.
  intros Ha loc HI. exists (Ok tt), (alert_effect [a]), loc.
  repeat split; auto; try discriminate.
  - simpl. now repeat constructor.
  - intros e _. unfold alerts_append, modify. simpl.
    now rewrite apply_alert_effect.
Qed.

Lemma tracks_alerts_append a : PA a -> fhoare top (alerts_append a).
Proof.
  intros. eapply hoare_weaken; [now apply fhoare_alerts_append|].
  intros; exact I.
Qed.

Lemma fhoare_bind_limits {A} Post (k : TempLimits -> M (Frame L) A) :
(forall l, same_thermal lim l -> k l = k lim) ->
fhoare Post (k lim) -> fhoare Post (bind get_limits k).
Proof.
intros Hk0 Hk loc HI.
destruct (Hk loc HI) as (r & eff & loc' & Hr & Ha & Hc & Hrs & HI' & Heq).
exists r, eff, loc'. repeat split; auto.
intros e He. unfold bind, get_limits, gets. simpl.
rewrite (Hk0 _ He). now apply Heq.
Qed.

Lemma fhoare_bind_local {A} Post (k : L -> M (Frame L) A) :
  (forall loc, Inv loc -> fhoare Post (k loc)) ->
  fhoare Post (bind get_local k).
Proof.
  intros Hk loc HI.
  destruct (Hk loc HI loc HI)
    as (r & eff & loc' & Hr & Ha & Hc & Hrs & HI' & Heq).
  exists r, eff, loc'. repeat split; auto.
Qed.

Lemma fhoare_modify_local (g : L -> L) :
  (forall l, Inv l -> Inv (g l)) ->
  fhoare (fun r => r = Ok tt) (modify_local g).
Proof.
  intros Hg loc HI. exists (Ok tt), no_effect, (g loc).
  repeat split; auto; try constructor; try discriminate.
  intros e _. unfold modify_local, modify. simpl. now rewrite apply_no_effect.
Qed.

Lemma tracks_modify_local (g : L -> L) :
  (forall l, Inv l -> Inv (g l)) -> fhoare top (modify_local g).
Proof.
  intros. eapply hoare_weaken; [now apply fhoare_modify_local|].
  intros; exact I.
Qed.

Lemma tracks_set_local (l : L) : Inv l -> fhoare top (set_local l).
Proof.
  intros Hl loc HI. exists (Ok tt), no_effect, l.
  repeat split; auto; try constructor; try discriminate.
  intros e _. unfold set_local, modify. simpl. now rewrite apply_no_effect.
Qed.

End FrameHoare.

Lemma Forall_False_nil {A} (l : list A) : Forall (fun _ => False) l -> l = [].
Proof. destruct l; auto. intros H; inversion H; contradiction. Qed.

(** The run of a method body that follows the judgement. *)
Lemma fhoare_run {L A} lim PA (Inv : L -> Prop) Post (m : M (Frame L) A) :
  fhoare lim PA Inv Post m ->
  forall loc, Inv loc ->
    exists r l loc',
      Post r /\ Forall PA l /\ Inv loc' /\
      forall e, reads lim e ->
                m (mkFrame e loc) = (r, mkFrame (add_alerts l e) loc').
Proof.
  intros H loc HI.
  destruct (H loc HI) as (r & eff & loc' & Hr & Ha & Hc & Hrs & HI' & Heq).
  exists r, (new_alerts eff), loc'. repeat split; auto.
  intros e He. rewrite (Heq e He). f_equal. f_equal.
  apply Forall_False_nil in Hc.
  destruct eff as [la rr lr]; simpl in *. subst lr.
  destruct rr; [now discriminate Hrs|].
  now rewrite <- apply_alert_effect.
Qed.

(** What a getter does, seen from its caller: it returns a dictionary and
    appends alerts; dictionary and alerts depend on the engine through
    its limits only. *)
Definition getter_spec (lim : TempLimits) (PA : Alert -> Prop)
           (Post : dict -> Prop) (g : M Engine dict) : Prop :=
  exists d l, Post d /\ Forall PA l /\
    forall e, reads lim e -> g e = (Ok d, add_alerts l e).

(** A getter is [x = init; try: body; except Exception as e: x[...] = ...;
    return x]. *)
Lemma getter_shape lim PA (Inv : dict -> Prop) l0 body (g : exn -> dict -> dict) :
  fhoare lim PA Inv top body ->
  Inv l0 ->
  (forall x l, Inv l -> Inv (g x l)) ->
  getter_spec lim PA Inv
    (method l0 (try_except body (fun x => modify_local (g x)))).
Proof.
  intros Hb H0 Hg.
  assert (H : fhoare lim PA Inv (fun r => r = Ok tt)
                     (try_except body (fun x => modify_local (g x)))).
  { apply hoare_try_except; auto.
    - now intros [].
    - intros x. apply fhoare_modify_local. auto. }
  destruct (H l0 H0) as (r & eff & loc' & Hr & Ha & Hc & Hrs & HI' & Heq).
  subst r. exists loc', (new_alerts eff). repeat split; auto.
  intros e He. unfold method. rewrite (Heq e He). simpl. f_equal.
  apply Forall_False_nil in Hc.
  destruct eff as [la rr lr]; simpl in *. subst lr.
  destruct rr; [now discriminate Hrs|].
  now rewrite <- apply_alert_effect.
Qed.

(** *** Callers of the getters: the state is the engine *)

Definition mkEngine (e : Engine) (_ : unit) : Engine := e.

Section EngineHoare.
Variable lim : TempLimits.
Variable PA : Alert -> Prop.
Variable PR : Recommendation -> Prop.
Variable allow_reset : bool.

Definition ehoare {A} (Post : result A -> Prop) (m : M Engine A) : Prop :=
  hoare mkEngine lim PA PR allow_reset (fun _ => True) Post m.

Lemma tracks_recommendations_append r :
  PR r -> ehoare top (recommendations_append r).
Proof.
  intros Hr [] _.
  exists (Ok tt), {| new_alerts := []; reset_recs := false; new_recs := [r] |}, tt.
  repeat split; auto; try constructor; auto; try discriminate.
  intros e _. unfold recommendations_append, modify, mkEngine, apply_effect,
    add_alerts. simpl. destruct e; unfold set_recommendations, set_alerts;
    simpl. now rewrite List.app_nil_r.
Qed.

Lemma tracks_clear_recommendations :
  allow_reset = true -> ehoare top (modify (set_recommendations [])).
Proof.
  intros Hr [] _.
  exists (Ok tt), {| new_alerts := []; reset_recs := true; new_recs := [] |}, tt.
  repeat split; auto; try constructor.
  intros e _. unfold modify, mkEngine, apply_effect, add_alerts.
  destruct e; unfold set_recommendations, set_alerts; simpl.
  now rewrite List.app_nil_r.
Qed.

Lemma ehoare_getter Post g :
  getter_spec lim PA Post g ->
  ehoare (fun r => exists d, r = Ok d /\ Post d) g.
Proof.
  intros (d & l & Hd & Hl & Heq) [] _.
  exists (Ok d), (alert_effect l), tt.
  repeat split; eauto; try constructor; try discriminate.
  intros e He. unfold mkEngine. rewrite apply_alert_effect. auto.
Qed.

Lemma tracks_bind_getter {B} Post g (k : dict -> M Engine B) :
  getter_spec lim PA Post g ->
  (forall d, Post d -> ehoare top (k d)) ->
  ehoare top (bind g k).
Proof.
  intros Hg Hk. eapply hoare_bind; [apply (ehoare_getter _ _ Hg)| |].
  - intros a (d & [= <-] & Hd). now apply Hk.
  - intros; exact I.
Qed.

(** The engine after a computation that follows the judgement. *)
Lemma ehoare_run {A} Post (m : M Engine A) :
  ehoare Post m ->
  exists r eff,
    Post r /\ Forall PA (new_alerts eff) /\ Forall PR (new_recs eff) /\
    (reset_recs eff = true -> allow_reset = true) /\
    forall e, reads lim e -> m e = (r, apply_effect eff e).
Proof.
  intros H. destruct (H tt I) as (r & eff & [] & Hr & Ha & Hc & Hrs & _ & Heq).
  exists r, eff. repeat split; auto.
Qed.

End EngineHoare.

(** *** Stepping through a method body *)

Lemma tracks_bind_call_raise {S R} (mk : Engine -> R -> S) lim PA PR ar Inv
      {A B} (x : exn) (k : A -> M S B) :
  hoare mk lim PA PR ar Inv top (bind (call (Raise x)) k).
Proof.
  intros rest HI. exists (Raise x), no_effect, rest.
  repeat split; auto; try constructor; try discriminate.
  intros e _. now rewrite apply_no_effect.
Qed.

(** A continuation of [get_limits] that looks up CPU and GPU limits only. *)
Ltac thermal_side :=
  let l := fresh "l" in
  let H1 := fresh in let H2 := fresh in let H3 := fresh in let H4 := fresh in
  intros l (H1 & H2 & H3 & H4); cbv beta;
  rewrite <- ?H1, <- ?H2, <- ?H3, <- ?H4; reflexivity.

Create HintDb blocks.
#[local] Hint Unfold
  cpu_freq_field cpu_temperature_check cpu_sensor_step cpu_psutil_block
  cpu_cpuinfo_block cpu_temperature_block
  gpu_temperature_check gpu_memory_check gpu_snapshot
  memory_module_info memory_usage_check memory_swap_block memory_wmi_block
  disk_space_check device_snapshot storage_partition_step storage_io_block
  storage_smart_step storage_smart_block
  storage_recommendation_step : blocks.

Ltac track_step :=
  lazymatch goal with
  | |- hoare _ _ _ _ _ _ _ ?m =>
      lazymatch m with
      | ret _ => apply hoare_ret
      | raise _ => apply hoare_raise
      | call _ => apply hoare_call
      | bind (call (Ok _)) _ => apply tracks_bind_call_ok
      | bind (call (Raise _)) _ => apply tracks_bind_call_raise
      | bind (call ?o) _ => destruct o eqn:?
      | bind (pydiv _ _ _) _ => apply tracks_bind_pydiv
      | bind get_limits _ => apply fhoare_bind_limits; [thermal_side|]
      | bind get_local _ => apply fhoare_bind_local; intros ? ?
      | bind _ _ => apply tracks_bind; [|intros ?]
      | try_except _ _ => apply tracks_try_except; [|intros ?]
      | try_except_class _ _ _ => apply tracks_try_except_class; [|intros ?]
      | when _ _ => unfold when at 1
      | for_each _ _ => apply tracks_for_each; intros ?
      | map_m _ _ => apply tracks_map_m; intros ?
      | pydiv _ _ _ => apply tracks_pydiv
      | percent_of _ => apply tracks_percent_of
      | subscript _ _ => apply tracks_subscript
      | alerts_append _ => apply tracks_alerts_append
      | set_local _ => apply tracks_set_local
      | modify_local _ => apply tracks_modify_local; intros ? ?
      | recommendations_append _ => apply tracks_recommendations_append
      | modify (set_recommendations []) => apply tracks_clear_recommendations
      | match ?x with _ => _ end => destruct x eqn:?
      | _ => progress autounfold with blocks
      end
  | |- fhoare _ _ _ _ _ => unfold fhoare
  | |- ehoare _ _ _ _ _ _ => unfold ehoare
  end.

Ltac track := repeat (track_step; cbv beta).

(** ** Dictionary facts *)

Lemma get_set k k' v d :
  Dict.get k (Dict.set k' v d) = if String.eqb k k' then Some v else Dict.get k d.
Proof.
  induction d as [|[k0 v0] d IH]; simpl.
  - reflexivity.
  - destruct (String.eqb k' k0) eqn:E1; simpl.
    + apply String.eqb_eq in E1. subst k0.
      destruct (String.eqb k k'); reflexivity.
    + destruct (String.eqb k k0) eqn:E2.
      * apply String.eqb_eq in E2. subst k0.
        rewrite String.eqb_sym in E1. now rewrite E1.
      * exact IH.
Qed.

Lemma get_append_to k k' v d :
  k <> k' -> Dict.get k (Dict.append_to k' v d) = Dict.get k d.
Proof.
  intros Hk. unfold Dict.append_to.
  destruct (Dict.get k' d) as [[]|]; auto.
  rewrite get_set. apply String.eqb_neq in Hk. now rewrite Hk.
Qed.

Lemma get_set_in_first k k' k2 v d :
  k <> k' -> Dict.get k (Dict.set_in_first k' k2 v d) = Dict.get k d.
Proof.
  intros Hk. unfold Dict.set_in_first.
  destruct (Dict.get k' d) as [[| | | | |[|[] ?]|]|]; auto.
  rewrite get_set. apply String.eqb_neq in Hk. now rewrite Hk.
Qed.

(** The entry [k], when present, is a percentage as [f"{q:.1f}%"] prints it. *)
Definition pct_ok (k : string) (d : dict) : Prop :=
  match Dict.get k d with
  | Some v => exists q, v = fmt 1 q "%"
  | None => True
  end.

Ltac dict_simpl :=
  unfold pct_ok, Dict.update in *; simpl fold_left;
  repeat (rewrite get_set; simpl String.eqb; cbv iota);
  repeat (rewrite get_append_to by discriminate);
  repeat (rewrite get_set_in_first by discriminate);
  simpl Dict.get; cbv iota; eauto.

(** ** What each getter does, for every machine *)

Lemma get_cpu_info_spec p lim :
  getter_spec lim (fun a => componente a = "CPU") (pct_ok "uso_atual")
              (get_cpu_info p).
Proof.
  unfold get_cpu_info. apply getter_shape.
  - track; try reflexivity; dict_simpl.
  - dict_simpl.
  - intros; dict_simpl.
Qed.

Lemma get_gpu_info_spec p lim :
  getter_spec lim (fun a => componente a = "GPU") (pct_ok "uso_gpu")
              (get_gpu_info p).
Proof.
  unfold get_gpu_info. apply getter_shape.
  - track; try reflexivity; dict_simpl.
  - dict_simpl.
  - intros; dict_simpl.
Qed.

Lemma get_memory_info_spec p lim :
  getter_spec lim (fun a => componente a = "RAM" \/ componente a = "SWAP")
              (pct_ok "porcentagem_uso") (get_memory_info p).
Proof.
  unfold get_memory_info. apply getter_shape.
  - track; simpl; auto; dict_simpl.
  - dict_simpl.
  - intros; dict_simpl.
Qed.

Lemma get_storage_info_spec p lim :
  getter_spec lim (fun a => componente a = "DISCO") (fun _ => True)
              (get_storage_info p).
Proof.
  unfold get_storage_info. apply getter_shape; auto.
  track; try reflexivity; auto.
Qed.

Lemma get_motherboard_info_spec p lim :
  getter_spec lim (fun _ => False) (fun _ => True) (get_motherboard_info p).
Proof.
  unfold get_motherboard_info. apply getter_shape; auto.
  track; auto.
Qed.

Lemma get_system_info_spec p lim :
  getter_spec lim (fun _ => False) (fun _ => True) (get_system_info p).
Proof.
  unfold get_system_info. apply getter_shape; auto.
  track; auto.
Qed.

Lemma get_network_info_spec p lim :
  getter_spec lim (fun _ => False) (fun _ => True) (get_network_info p).
Proof.
  unfold get_network_info. apply getter_shape; auto.
  track; auto.
Qed.

(** ** The getters and the engine state (claim C5) *)

Lemma getter_spec_run lim PA Post g e :
  getter_spec lim PA Post g -> reads lim e ->
  exists d l, Post d /\ Forall PA l /\ g e = (Ok d, add_alerts l e).
Proof.
  intros (d & l & Hd & Hl & Heq) He. exists d, l. auto.
Qed.

Lemma add_alerts_nil e : add_alerts [] e = e.
Proof.
  destruct e; unfold add_alerts, set_alerts; simpl. now rewrite List.app_nil_r.
Qed.

Lemma silent_getter g e :
  getter_spec (temp_limits e) (fun _ => False) (fun _ => True) g ->
  snd (g e) = e.
Proof.
  intros H. destruct (getter_spec_run _ _ _ _ e H (reads_refl e)) as (d & l & _ & Hl & Heq).
  rewrite Heq. simpl. apply Forall_False_nil in Hl. subst l.
  apply add_alerts_nil.
Qed.

Lemma appending_getter PA Post g e :
  getter_spec (temp_limits e) PA Post g ->
  exists l, Forall PA l /\ snd (g e) = add_alerts l e.
Proof.
  intros H. destruct (getter_spec_run _ _ _ _ e H (reads_refl e)) as (d & l & _ & Hl & Heq).
  exists l. now rewrite Heq.
Qed.

(** C5, as stated, fails: on a machine whose CPU sensor reads 86°C a call
    of [get_cpu_info] changes the alert list of the engine. *)
Lemma get_cpu_info_changes_engine :
  snd (get_cpu_info (desktop 86 50) init) <> init.
Proof.
  intros H. apply (f_equal alerts) in H. vm_compute in H. discriminate H.
Qed.

(** C5, amended: a call of [get_cpu_info], [get_gpu_info],
    [get_memory_info] or [get_storage_info] only appends alerts of its own
    component to the alert list, after the alerts already there; the
    recommendations, the monitoring flag, the monitoring buffers, the
    limits and the log stay as they are.  [get_motherboard_info],
    [get_system_info] and [get_network_info] leave the engine as it is. *)
Theorem getters_only_append_alerts (p : Provider) (e : Engine) :
  (exists l, Forall (fun a => componente a = "CPU") l /\
             snd (get_cpu_info p e) = add_alerts l e) /\
  (exists l, Forall (fun a => componente a = "GPU") l /\
             snd (get_gpu_info p e) = add_alerts l e) /\
  (exists l, Forall (fun a => componente a = "RAM" \/ componente a = "SWAP") l /\
             snd (get_memory_info p e) = add_alerts l e) /\
  (exists l, Forall (fun a => componente a = "DISCO") l /\
             snd (get_storage_info p e) = add_alerts l e) /\
  snd (get_motherboard_info p e) = e /\
  snd (get_system_info p e) = e /\
  snd (get_network_info p e) = e /\
  forall l, alerts (add_alerts l e) = (alerts e ++ l)%list /\
            recommendations (add_alerts l e) = recommendations e /\
            monitoring (add_alerts l e) = monitoring e /\
            monitoring_data (add_alerts l e) = monitoring_data e /\
            temp_limits (add_alerts l e) = temp_limits e /\
            monitoring_log (add_alerts l e) = monitoring_log e.
Proof.
  repeat split.
  - eapply appending_getter, get_cpu_info_spec.
  - eapply appending_getter, get_gpu_info_spec.
  - eapply appending_getter, get_memory_info_spec.
  - eapply appending_getter, get_storage_info_spec.
  - apply silent_getter, get_motherboard_info_spec.
  - apply silent_getter, get_system_info_spec.
  - apply silent_getter, get_network_info_spec.
Qed.

(** ** The getters never raise (claim C3) *)

Lemma getter_returns lim PA Post g e :
  getter_spec lim PA Post g -> reads lim e ->
  exists d, fst (g e) = Ok d.
Proof.
  intros H He. destruct (getter_spec_run _ _ _ _ e H He) as (d & l & _ & _ & Heq).
  exists d. now rewrite Heq.
Qed.

(** The two blocks of [get_cpu_info] that come before the temperature
    read all their values. *)
Definition cpu_basics_ok (p : Provider) : Prop :=
  lib_psutil p = true /\
  is_ok (cpu_percent p) = true /\
  is_ok (cpu_count_physical p) = true /\
  is_ok (cpu_count_logical p) = true /\
  is_ok (cpu_freq p) = true /\
  (lib_cpuinfo p = true -> is_ok (cpuinfo_get_cpu_info p) = true).

Lemma cpu_basics_run p :
  cpu_basics_ok p ->
  forall (k : M (Frame dict) unit) e loc,
  exists loc',
    (when (lib_psutil p) (cpu_psutil_block p) ;;
     when (lib_cpuinfo p) (cpu_cpuinfo_block p) ;; k) (mkFrame e loc)
    = k (mkFrame e loc').
Proof.
  intros (Hps & H1 & H2 & H3 & H4 & H5) k e loc.
  unfold cpu_psutil_block, cpu_cpuinfo_block, cpu_freq_field, when.
  rewrite Hps.
  destruct (cpu_percent p); try discriminate.
  destruct (cpu_count_physical p); try discriminate.
  destruct (cpu_count_logical p); try discriminate.
  destruct (cpu_freq p) as [[f|]|]; try discriminate;
    (destruct (lib_cpuinfo p);
     [ destruct (cpuinfo_get_cpu_info p);
       [|specialize (H5 eq_refl); discriminate] |]);
    unfold bind, call, ret, modify_local, modify; simpl; eauto.
Qed.

(** C3, as stated, fails: when the usage of a partition cannot be read
    (PermissionError), [get_storage_info] returns a dictionary without the
    partition and without any error or N/A marker. *)
Lemma get_storage_info_drops_unreadable_partition :
  fst (get_storage_info locked_partition init)
  = Ok [("dispositivos", VList []); ("erro", VNone)].
Proof. reflexivity. Qed.

(** C3, amended: every telemetry query function returns a dictionary and
    never raises, whatever the provider libraries do.  When the first
    library read of the function raises, the dictionary has the exception
    text under ["erro"]; a missing GPUtil or WMI library is reported
    under ["erro"] by [get_gpu_info] and [get_motherboard_info]; a
    temperature sensor that cannot be read gives the N/A marker under
    ["temperatura"].  (Other failed reads, such as the one above, leave no
    marker.) *)
Theorem getters_never_raise (p : Provider) (e : Engine) :
  ((exists d, fst (get_cpu_info p e) = Ok d) /\
   (exists d, fst (get_gpu_info p e) = Ok d) /\
   (exists d, fst (get_memory_info p e) = Ok d) /\
   (exists d, fst (get_storage_info p e) = Ok d) /\
   (exists d, fst (get_motherboard_info p e) = Ok d) /\
   (exists d, fst (get_system_info p e) = Ok d) /\
   (exists d, fst (get_network_info p e) = Ok d)) /\
  (forall x, lib_psutil p = true -> cpu_percent p = Raise x ->
     fst (get_cpu_info p e) =
     Ok [("erro", VStr ("Erro ao obter informações do CPU: " ++ exn_msg x))]) /\
  (forall x, cpu_basics_ok p -> sensors_temperatures p = Raise x ->
     exists d, fst (get_cpu_info p e) = Ok d /\
               Dict.get "temperatura" d =
               Some (VStr "N/A (sensores não acessíveis)")) /\
  (forall x, lib_GPUtil p = true -> getGPUs p = Raise x ->
     fst (get_gpu_info p e) =
     Ok [("erro", VStr ("Erro ao obter informações da GPU: " ++ exn_msg x))]) /\
  (lib_GPUtil p = false ->
     fst (get_gpu_info p e) =
     Ok [("erro", VStr "GPUtil não disponível - instale com: pip install GPUtil")]) /\
  (forall x, lib_psutil p = true -> virtual_memory p = Raise x ->
     fst (get_memory_info p e) =
     Ok [("erro", VStr ("Erro ao obter informações da memória: " ++ exn_msg x))]) /\
  (forall x, lib_psutil p = true -> disk_partitions p = Raise x ->
     fst (get_storage_info p e) =
     Ok [("dispositivos", VList []);
         ("erro", VStr ("Erro ao obter informações de armazenamento: "
                        ++ exn_msg x))]) /\
  (forall x, lib_wmi p = true -> platform_system p = Ok "Windows" ->
             wmi_WMI p = Raise x ->
     fst (get_motherboard_info p e) =
     Ok [("erro", VStr ("Erro ao obter informações da placa-mãe: " ++ exn_msg x))]) /\
  (lib_wmi p = false ->
     fst (get_motherboard_info p e) =
     Ok [("erro",
          VStr "WMI não disponível - informações limitadas no seu sistema")]) /\
  (forall x, platform_system p = Raise x ->
     fst (get_system_info p e) =
     Ok [("erro", VStr ("Erro ao obter informações do sistema: " ++ exn_msg x))]) /\
  (forall x, lib_psutil p = true -> net_if_addrs p = Raise x ->
     fst (get_network_info p e) =
     Ok [("interfaces", VList []);
         ("erro", VStr ("Erro ao obter informações de rede: " ++ exn_msg x))]).
Proof.
  split; [|repeat apply conj].
  - repeat split.
    + eapply getter_returns; [apply get_cpu_info_spec|apply reads_refl].
    + eapply getter_returns; [apply get_gpu_info_spec|apply reads_refl].
    + eapply getter_returns; [apply get_memory_info_spec|apply reads_refl].
    + eapply getter_returns; [apply get_storage_info_spec|apply reads_refl].
    + eapply getter_returns; [apply get_motherboard_info_spec|apply reads_refl].
    + eapply getter_returns; [apply get_system_info_spec|apply reads_refl].
    + eapply getter_returns; [apply get_network_info_spec|apply reads_refl].
  - intros x Hps Hx.
    unfold get_cpu_info, method, try_except, cpu_psutil_block.
    rewrite Hps, Hx. reflexivity.
  - intros x Hb Hx.
    unfold get_cpu_info, method, try_except.
    destruct (cpu_basics_run p Hb (cpu_temperature_block p) e
                [("erro", VStr "Informações não disponíveis")]) as (loc' & ->).
    destruct Hb as (Hps & _).
    unfold cpu_temperature_block, try_except, when. rewrite Hps, Hx.
    simpl. eexists; split; [reflexivity|].
    rewrite get_set. reflexivity.
  - intros x Hl Hx. unfold get_gpu_info, method, try_except.
    rewrite Hl, Hx. reflexivity.
  - intros Hl. unfold get_gpu_info, method, try_except.
    rewrite Hl. reflexivity.
  - intros x Hps Hx. unfold get_memory_info, method, try_except.
    rewrite Hps, Hx. reflexivity.
  - intros x Hps Hx. unfold get_storage_info, method, try_except.
    rewrite Hps, Hx. reflexivity.
  - intros x Hl Hs Hx. unfold get_motherboard_info, method, try_except.
    rewrite Hl, Hs, Hx. reflexivity.
  - intros Hl. unfold get_motherboard_info, method, try_except.
    rewrite Hl. reflexivity.
  - intros x Hx. unfold get_system_info, method, try_except.
    rewrite Hx. reflexivity.
  - intros x Hps Hx. unfold get_network_info, method, try_except.
    rewrite Hps, Hx. reflexivity.
Qed.

(** ** The full diagnostic rebuilds its lists (claim C4) *)

Lemma getter_spec_weaken lim (PA PA' : Alert -> Prop) Post g :
  getter_spec lim PA Post g -> (forall a, PA a -> PA' a) ->
  getter_spec lim PA' Post g.
Proof.
  intros (d & l & Hd & Hl & Heq) H. exists d, l. repeat split; auto.
  eapply Forall_impl; eauto.
Qed.

#[local] Hint Unfold analyze_health_and_recommendations diagnosis_body : blocks.

(** Stepping over the call of a getter: what remains is to show that the
    alerts of the getter are alerts the judgement admits. *)
Ltac track_getter spec :=
  eapply tracks_bind_getter;
  [ eapply getter_spec_weaken; [apply spec | cbv beta; intros ? ?]
  | cbv beta; intros ? ? ].

Ltac etrack_step :=
  lazymatch goal with
  | |- hoare _ _ _ _ _ _ _ ?m =>
      lazymatch m with
      | bind (get_cpu_info _) _ => track_getter get_cpu_info_spec
      | bind (get_gpu_info _) _ => track_getter get_gpu_info_spec
      | bind (get_memory_info _) _ => track_getter get_memory_info_spec
      | bind (get_storage_info _) _ => track_getter get_storage_info_spec
      | bind (get_motherboard_info _) _ =>
          track_getter get_motherboard_info_spec
      | bind (get_system_info _) _ => track_getter get_system_info_spec
      | bind (get_network_info _) _ => track_getter get_network_info_spec
      | _ => track_step
      end
  | _ => track_step
  end.

Ltac etrack := repeat (etrack_step; cbv beta).

Lemma analyze_tracks p lim :
  ehoare lim (fun _ => True) (fun _ => True) true top
         (analyze_health_and_recommendations p).
Proof. etrack; auto. Qed.

Lemma diagnosis_body_tracks p lim :
  ehoare lim (fun _ => True) (fun _ => True) true top (diagnosis_body p).
Proof. etrack; auto. Qed.

(** The engine after a full diagnostic: the two lists are functions of the
    machine and the limits; nothing else changes. *)
Lemma run_complete_diagnosis_lists p lim :
  exists la lr, forall e,
    reads lim e ->
    run_complete_diagnosis p e = set_recommendations lr (set_alerts la e).
Proof.
  destruct (ehoare_run _ _ _ _ _ _ (diagnosis_body_tracks p lim))
    as (r & eff & _ & _ & _ & _ & Heq).
  exists (new_alerts eff), (new_recs eff). intros e He.
  unfold run_complete_diagnosis, diagnosis_thread, try_except, bind, modify.
  rewrite Heq by exact He.
  destruct e, r; unfold apply_effect, add_alerts, set_recommendations,
    set_alerts, ret; simpl; destruct (reset_recs eff); reflexivity.
Qed.

Lemma temp_limits_run p e :
  temp_limits (run_complete_diagnosis p e) = temp_limits e.
Proof.
  destruct (run_complete_diagnosis_lists p (temp_limits e)) as (la & lr & H).
  now rewrite H.
Qed.

(** C4: a full diagnostic rebuilds the alert list and the recommendation
    list from empty lists, as functions of the readings: run twice in a
    row on the same machine it produces the same two lists both times,
    and whatever the two lists held before has no influence on them. *)
Theorem rebuild_is_deterministic (p : Provider) (e : Engine) :
  let once := run_complete_diagnosis p e in
  let twice := run_complete_diagnosis p once in
  alerts twice = alerts once /\
  recommendations twice = recommendations once /\
  forall la lr,
    let e' := set_recommendations lr (set_alerts la e) in
    alerts (run_complete_diagnosis p e') = alerts once /\
    recommendations (run_complete_diagnosis p e') = recommendations once.
Proof.
  cbv zeta.
  destruct (run_complete_diagnosis_lists p (temp_limits e)) as (la & lr & H).
  assert (H1 := H e (reads_refl e)).
  assert (H2 := H (run_complete_diagnosis p e)
               (reads_eq _ _ (eq_sym (temp_limits_run p e)))).
  rewrite H2, H1.
  split; [reflexivity|split; [reflexivity|]].
  intros la' lr'.
  rewrite (H (set_recommendations lr' (set_alerts la' e)) (reads_refl e)).
  split; reflexivity.
Qed.

(** ** Comparisons *)

Lemma gt_true a b : Py.gt a b = true <-> (b < a)%Q.
Proof.
  unfold Py.gt. rewrite Qlt_alt, <- (Qcompare_antisym a b).
  destruct (Qcompare a b); simpl; split; congruence.
Qed.

Lemma gt_false a b : Py.gt a b = false <-> (a <= b)%Q.
Proof.
  unfold Py.gt. rewrite Qle_alt.
  destruct (Qcompare a b); simpl; split; congruence.
Qed.

(** ** The CPU temperature alert of one call of [get_cpu_info] *)

Lemma cpu_temperature_check_ok t (f : Frame dict) :
  fst (cpu_temperature_check t f) = Ok tt /\
  local (snd (cpu_temperature_check t f)) = local f.
Proof.
  unfold cpu_temperature_check, bind, get_limits, gets, alerts_append, modify, ret.
  destruct (Py.gt t _); [|destruct (Py.gt t _)]; simpl; auto.
Qed.

Lemma for_each_cpu_sensor s :
  forall f : Frame dict,
    for_each s cpu_sensor_step f =
    match first_cpu_reading s with
    | Some t =>
        (Ok tt,
         snd (cpu_temperature_check t
                (mkFrame (self f)
                         (Dict.set "temperatura" (fmt 1 t "°C") (local f)))))
    | None => (Ok tt, f)
    end.
Proof.
  induction s as [|[name entries] s IH]; intros f; simpl.
  - reflexivity.
  - unfold bind at 1. unfold cpu_sensor_step.
    destruct (is_cpu_sensor name).
    + destruct entries as [|t entries].
      * unfold ret at 1. apply IH.
      * unfold bind, modify_local, modify. simpl.
        destruct (cpu_temperature_check_ok t
                    (mkFrame (self f)
                       (Dict.set "temperatura" (fmt 1 t "°C") (local f))))
          as (Hok & _).
        destruct (cpu_temperature_check t _) as [r f']. simpl in *.
        subst r. reflexivity.
    + unfold ret at 1. apply IH.
Qed.

(** With the basic reads in order and a CPU sensor that reads [t], the
    engine after [get_cpu_info] is the engine after the temperature check
    of [t]. *)
Lemma get_cpu_info_run p s t :
  cpu_basics_ok p ->
  sensors_temperatures p = Ok s ->
  first_cpu_reading s = Some t ->
  forall e,
    snd (get_cpu_info p e) = self (snd (cpu_temperature_check t (mkFrame e []))).
Proof.
  intros Hb Hs Ht e.
  unfold get_cpu_info, method, try_except.
  destruct (cpu_basics_run p Hb (cpu_temperature_block p) e
              [("erro", VStr "Informações não disponíveis")]) as (loc' & ->).
  destruct Hb as (Hps & _).
  unfold cpu_temperature_block, try_except, when. rewrite Hps.
  unfold bind at 1. unfold call at 1. rewrite Hs.
  assert (Hfe := for_each_cpu_sensor s (mkFrame e loc')).
  rewrite Ht in Hfe.
  destruct s as [|x s']; [discriminate Ht|].
  rewrite Hfe. simpl.
  unfold cpu_temperature_check, bind, get_limits, gets, alerts_append, modify, ret.
  simpl.
  destruct (Py.gt t _); [|destruct (Py.gt t _)]; reflexivity.
Qed.

(** ** The alerts of a full diagnostic *)

Lemma bind_run {S A B} (m : M S A) (k : A -> M S B) s a s' :
  m s = (Ok a, s') -> bind m k s = k a s'.
Proof. intros H. unfold bind. now rewrite H. Qed.

Definition not_cpu (a : Alert) : Prop := componente a <> "CPU".

Ltac not_cpu_side :=
  unfold not_cpu in *;
  match goal with
  | H : componente ?a = _ |- componente ?a <> _ => rewrite H; discriminate
  | H : componente ?a = _ \/ componente ?a = _ |- componente ?a <> _ =>
      destruct H as [H|H]; rewrite H; discriminate
  | H : False |- _ => destruct H
  | _ => auto
  end.

(** In the health analysis the alerts of [get_cpu_info] are appended
    first; what follows are alerts of other components. *)
Lemma analyze_alerts p lim lc d :
  (forall e, reads lim e -> get_cpu_info p e = (Ok d, add_alerts lc e)) ->
  exists l2, Forall not_cpu l2 /\
    forall e, reads lim e ->
      alerts (snd (analyze_health_and_recommendations p e))
      = (alerts e ++ lc ++ l2)%list.
Proof.
  intros Hcpu. unfold analyze_health_and_recommendations.
  match goal with
  | |- context [bind (get_cpu_info p) ?k] =>
      assert (HK : ehoare lim not_cpu (fun _ => True) true top (k d))
        by (etrack; not_cpu_side)
  end.
  destruct (ehoare_run _ _ _ _ _ _ HK) as (r & eff & _ & Hl & _ & _ & Heq).
  exists (new_alerts eff). split; [exact Hl|].
  intros e He.
  unfold bind at 1. unfold modify at 1. unfold try_except.
  rewrite (bind_run _ _ _ _ _ (Hcpu (set_recommendations [] e) He)).
  rewrite Heq by exact He.
  destruct r; simpl; now rewrite <- List.app_assoc.
Qed.

(** Stepping over a computation whose run is known from [H]. *)
Ltac step_with H :=
  match goal with
  | |- context [bind ?m ?k ?s] => rewrite (bind_run m k s _ _ (H s (reads_refl _)))
  end.

(** The alert list after a full diagnostic: the alerts of [get_cpu_info]
    appear twice, once from the report pass and once from the health
    analysis, which calls the getters again. *)
Lemma run_alerts_decomposition p e :
  is_ok (platform_system p) = true ->
  is_ok (platform_release p) = true ->
  exists lc lg lm ls l2,
    (forall e', reads (temp_limits e) e' ->
                snd (get_cpu_info p e') = add_alerts lc e') /\
    (forall e', reads (temp_limits e) e' ->
                snd (get_gpu_info p e') = add_alerts lg e') /\
    (forall e', reads (temp_limits e) e' ->
                snd (get_memory_info p e') = add_alerts lm e') /\
    (forall e', reads (temp_limits e) e' ->
                snd (get_storage_info p e') = add_alerts ls e') /\
    Forall not_cpu lg /\ Forall not_cpu lm /\ Forall not_cpu ls /\
    Forall not_cpu l2 /\
    alerts (run_complete_diagnosis p e)
    = (lc ++ lg ++ lm ++ ls ++ lc ++ l2)%list.
Proof.
  intros Hps Hpr.
  set (lim := temp_limits e).
  destruct (get_cpu_info_spec p lim) as (dc & lc & _ & _ & Hcpu).
  destruct (get_gpu_info_spec p lim) as (dg & lg & _ & Hlg & Hgpu).
  destruct (get_memory_info_spec p lim) as (dm & lm & _ & Hlm & Hmem).
  destruct (get_storage_info_spec p lim) as (ds & ls & _ & Hls & Hsto).
  destruct (get_motherboard_info_spec p lim) as (db & lb & _ & Hlb & Hmb).
  destruct (get_system_info_spec p lim) as (dy & ly & _ & Hly & Hsys).
  destruct (get_network_info_spec p lim) as (dn & ln & _ & Hln & Hnet).
  destruct (analyze_alerts p lim lc dc Hcpu) as (l2 & Hl2 & Han).
  exists lc, lg, lm, ls, l2.
  apply Forall_False_nil in Hlb, Hly, Hln. subst lb ly ln.
  repeat apply conj.
  - intros e' He'. rewrite (Hcpu e' He'). reflexivity.
  - intros e' He'. rewrite (Hgpu e' He'). reflexivity.
  - intros e' He'. rewrite (Hmem e' He'). reflexivity.
  - intros e' He'. rewrite (Hsto e' He'). reflexivity.
  - eapply Forall_impl; [|exact Hlg]. cbv beta; intros; not_cpu_side.
  - eapply Forall_impl; [|exact Hlm]. cbv beta; intros; not_cpu_side.
  - eapply Forall_impl; [|exact Hls]. cbv beta; intros; not_cpu_side.
  - exact Hl2.
  - unfold run_complete_diagnosis, diagnosis_thread, try_except.
    unfold bind at 1. unfold modify at 1.
    unfold bind at 1. unfold modify at 1.
    unfold diagnosis_body.
    destruct (platform_system p); [|discriminate].
    destruct (platform_release p); [|discriminate].
    unfold bind at 1. unfold bind at 1. unfold call at 1.
    unfold bind at 1. unfold call at 1.
    step_with Hcpu.
    step_with Hgpu.
    step_with Hmem.
    step_with Hsto.
    step_with Hmb.
    step_with Hsys.
    step_with Hnet.
    rewrite !add_alerts_nil.
    unfold bind.
    match goal with
    | |- context [analyze_health_and_recommendations p ?e0] =>
        assert (Ha := Han e0 (reads_refl e));
        destruct (analyze_health_and_recommendations p e0) as [r e1]
    end.
    simpl in Ha.
    destruct r; simpl; rewrite Ha; rewrite <- !List.app_assoc; reflexivity.
Qed.

(** ** CPU temperature alerts of a full diagnostic (claim C1) *)

(** The number of alerts of severity [ti] for component [co]. *)
Definition count_alerts (ti co : string) (l : list Alert) : nat :=
  List.length
    (filter (fun a => String.eqb (tipo a) ti && String.eqb (componente a) co) l).

Lemma count_alerts_app ti co l1 l2 :
  count_alerts ti co (l1 ++ l2) = (count_alerts ti co l1 + count_alerts ti co l2)%nat.
Proof. unfold count_alerts. now rewrite filter_app, length_app. Qed.

Lemma count_alerts_other ti co (P : Alert -> Prop) l :
  (forall a, P a -> componente a <> co) -> Forall P l -> count_alerts ti co l = 0%nat.
Proof.
  intros HP Hl. unfold count_alerts.
  induction Hl as [|a l Ha Hl IH]; simpl; auto.
  apply HP in Ha. apply String.eqb_neq in Ha. rewrite Ha, andb_false_r.
  exact IH.
Qed.

(** The CPU alerts that one call of [get_cpu_info] appends, by reading. *)
Lemma cpu_alerts_by_reading p s t e :
  temp_limits e = temp_limits init ->
  cpu_basics_ok p ->
  sensors_temperatures p = Ok s ->
  first_cpu_reading s = Some t ->
  forall lc,
    snd (get_cpu_info p e) = add_alerts lc e ->
    ((85 < t)%Q ->
       count_alerts "CRÍTICO" "CPU" lc = 1%nat /\ count_alerts "AVISO" "CPU" lc = 0%nat) /\
    ((75 < t)%Q -> (t <= 85)%Q ->
       count_alerts "CRÍTICO" "CPU" lc = 0%nat /\ count_alerts "AVISO" "CPU" lc = 1%nat) /\
    ((t <= 75)%Q -> lc = []).
Proof.
  intros Hlim Hb Hs Ht lc Hlc.
  rewrite (get_cpu_info_run p s t Hb Hs Ht) in Hlc.
  apply (f_equal alerts) in Hlc.
  unfold cpu_temperature_check, bind, get_limits, gets, alerts_append, modify,
    ret in Hlc.
  simpl in Hlc. rewrite Hlim in Hlc. simpl in Hlc.
  change (inject_Z 85) with 85%Q in Hlc. change (inject_Z 75) with 75%Q in Hlc.
  unfold add_alerts in Hlc. simpl in Hlc.
  destruct (Py.gt t 85) eqn:E85; [|destruct (Py.gt t 75) eqn:E75];
    simpl in Hlc;
    [| |rewrite <- (List.app_nil_r (alerts e)) in Hlc at 1];
    apply app_inv_head in Hlc; subst lc;
    rewrite ?gt_true, ?gt_false in *;
    repeat split; intros; try reflexivity; exfalso; lra.
Qed.

(** C1: the code does not do what the claim says.  With the basic CPU
    reads in order and a CPU sensor that reads [t], the alert list after a
    full diagnostic holds TWO critical CPU alerts when [t] is above 85
    (86°C in the claim), and TWO warning CPU alerts when [t] is above 75
    and at most 85 (76°C in the claim): the health analysis calls
    [get_cpu_info] a second time without the alert list being cleared in
    between.  For [t] at most 75 (60°C in the claim) there is no CPU alert,
    as the claim says. *)
Theorem cpu_alert_is_doubled (p : Provider) (e : Engine)
        (s : list (string * list Q)) (t : Q) :
  temp_limits e = temp_limits init ->
  is_ok (platform_system p) = true ->
  is_ok (platform_release p) = true ->
  cpu_basics_ok p ->
  sensors_temperatures p = Ok s ->
  first_cpu_reading s = Some t ->
  let result := alerts (run_complete_diagnosis p e) in
  ((85 < t)%Q ->
     count_alerts "CRÍTICO" "CPU" result = 2%nat /\
     count_alerts "AVISO" "CPU" result = 0%nat) /\
  ((75 < t)%Q -> (t <= 85)%Q ->
     count_alerts "CRÍTICO" "CPU" result = 0%nat /\
     count_alerts "AVISO" "CPU" result = 2%nat) /\
  ((t <= 75)%Q ->
     count_alerts "CRÍTICO" "CPU" result = 0%nat /\
     count_alerts "AVISO" "CPU" result = 0%nat).
Proof.
  intros Hlim Hps Hpr Hb Hs Ht. cbv zeta.
  destruct (run_alerts_decomposition p e Hps Hpr)
    as (lc & lg & lm & ls & l2 & Hcpu & _ & _ & _ & Hlg & Hlm & Hls & Hl2 & ->).
  destruct (cpu_alerts_by_reading p s t e Hlim Hb Hs Ht lc (Hcpu e (reads_refl e)))
    as (Hhot & Hwarm & Hcool).
  assert (H0 : forall ti l, Forall not_cpu l -> count_alerts ti "CPU" l = 0%nat).
  { intros ti l. apply count_alerts_other. auto. }
  rewrite !count_alerts_app, !(H0 _ lg Hlg), !(H0 _ lm Hlm), !(H0 _ ls Hls),
    !(H0 _ l2 Hl2).
  repeat split; intros.
  - destruct Hhot as (-> & _); auto.
  - destruct Hhot as (_ & ->); auto.
  - destruct Hwarm as (-> & _); auto.
  - destruct Hwarm as (_ & ->); auto.
  - rewrite Hcool; auto.
  - rewrite Hcool; auto.
Qed.

Lemma cpu_alert_is_doubled_witness :
  count_alerts "CRÍTICO" "CPU" (alerts (run_complete_diagnosis (desktop 86 50) init))
  = 2%nat.
Proof.
  apply (cpu_alert_is_doubled (desktop 86 50) init
           [("acpitz", [40%Q]); ("coretemp", [86%Q; 50%Q])] 86%Q);
    try reflexivity.
  repeat split; intros; discriminate.
Defined.

Lemma getters_never_raise_witness :
  fst (get_memory_info
         {| lib_psutil := true; lib_GPUtil := false; lib_cpuinfo := false;
            lib_wmi := false;
            platform_system := platform_system locked_partition;
            platform_version := platform_version locked_partition;
            platform_release := platform_release locked_partition;
            platform_architecture := platform_architecture locked_partition;
            platform_processor := platform_processor locked_partition;
            platform_machine := platform_machine locked_partition;
            platform_node := platform_node locked_partition;
            cpu_percent := cpu_percent locked_partition;
            cpu_count_physical := cpu_count_physical locked_partition;
            cpu_count_logical := cpu_count_logical locked_partition;
            cpu_freq := cpu_freq locked_partition;
            sensors_temperatures := sensors_temperatures locked_partition;
            virtual_memory := Raise (mkExn OtherError "sensor failure");
            swap_memory := swap_memory locked_partition;
            disk_partitions := disk_partitions locked_partition;
            disk_usage := disk_usage locked_partition;
            disk_io_counters := disk_io_counters locked_partition;
            net_if_addrs := net_if_addrs locked_partition;
            net_if_stats := net_if_stats locked_partition;
            net_io_counters := net_io_counters locked_partition;
            boot_time_str := boot_time_str locked_partition;
            uptime_str := uptime_str locked_partition;
            users_count := users_count locked_partition;
            cpuinfo_get_cpu_info := cpuinfo_get_cpu_info locked_partition;
            getGPUs := getGPUs locked_partition;
            wmi_WMI := wmi_WMI locked_partition;
            wmi_PhysicalMemory := wmi_PhysicalMemory locked_partition;
            wmi_DiskDrive := wmi_DiskDrive locked_partition;
            wmi_BaseBoard := wmi_BaseBoard locked_partition;
            wmi_BIOS := wmi_BIOS locked_partition;
            wmi_Processor := wmi_Processor locked_partition |} init)
  = Ok [("erro", VStr "Erro ao obter informações da memória: sensor failure")].
Proof.
  refine (proj1 (proj2 (proj2 (proj2 (proj2 (proj2 (getters_never_raise _ init))))))
            (mkExn OtherError "sensor failure") _ _);
    reflexivity.
Defined.

(** ** The RAM alert of one call of [get_memory_info] *)

(** The alerts that the usage check appends, by reading. *)
Lemma memory_usage_check_run mem :
  exists l,
    (forall f : Frame dict,
        memory_usage_check mem f
        = (Ok tt, mkFrame (add_alerts l (self f)) (local f))) /\
    Forall (fun a => componente a = "RAM") l /\
    ((90 < vm_percent mem)%Q ->
       exists a, l = [a] /\ tipo a = "CRÍTICO") /\
    ((80 < vm_percent mem)%Q -> (vm_percent mem <= 90)%Q ->
       exists a, l = [a] /\ tipo a = "AVISO") /\
    ((vm_percent mem <= 80)%Q -> l = []).
Proof.
  unfold memory_usage_check, alerts_append, modify, ret.
  destruct (Py.gt (vm_percent mem) 90) eqn:E90;
    [|destruct (Py.gt (vm_percent mem) 80) eqn:E80];
    rewrite ?gt_true, ?gt_false in *;
    eexists; (split; [intros [e loc]; simpl; try reflexivity|]).
  - repeat split; intros; try (exfalso; lra); eauto.
  - repeat split; intros; try (exfalso; lra); eauto.
  - now rewrite add_alerts_nil.
  - repeat split; intros; try (exfalso; lra); eauto.
Qed.

(** With psutil present and the memory read in order, [get_memory_info]
    returns the usage as [f"{mem.percent:.1f}%"], and what it appends to
    the alerts is the outcome of the usage check followed by swap alerts. *)
Lemma get_memory_info_run p mem lim :
  lib_psutil p = true ->
  virtual_memory p = Ok mem ->
  exists d l',
    Dict.get "porcentagem_uso" d = Some (fmt 1 (vm_percent mem) "%") /\
    Forall (fun a => componente a = "SWAP") l' /\
    forall e, reads lim e ->
      get_memory_info p e =
      (Ok d,
       add_alerts l' (self (snd (memory_usage_check mem (mkFrame e []))))).
Proof.
  intros Hps Hvm.
  set (Inv := fun loc : dict =>
                Dict.get "porcentagem_uso" loc = Some (fmt 1 (vm_percent mem) "%")).
  assert (HR : fhoare lim (fun a => componente a = "SWAP") Inv top
                      (memory_swap_block p ;; memory_wmi_block p)).
  { track; try reflexivity; subst Inv; cbv beta in *; dict_simpl. }
  destruct (fhoare_run _ _ _ _ _ HR (memory_snapshot mem) eq_refl)
    as (r & l' & loc' & _ & Hl' & HI' & Heq).
  destruct (memory_usage_check_run mem) as (l & Hl & _).
  unfold get_memory_info, method, try_except, when. rewrite Hps, Hvm.
  unfold bind at 1. unfold call at 1.
  unfold bind at 1. unfold set_local at 1. unfold modify at 1.
  destruct r as [[]|x].
  - exists loc', l'. repeat split; auto. intros e He.
    unfold bind at 1. cbn [self local].
    rewrite !Hl. rewrite Heq by exact He. reflexivity.
  - exists (Dict.set "erro"
              (VStr ("Erro ao obter informações da memória: " ++ exn_msg x)) loc'),
           l'.
    repeat split; auto.
    + rewrite get_set. simpl. exact HI'.
    + intros e He.
      unfold bind at 1. cbn [self local].
      rewrite !Hl. rewrite Heq by exact He. reflexivity.
Qed.

(** ** Strict thresholds (claim C10) *)

Lemma add_alerts_inj l l' e : add_alerts l e = add_alerts l' e -> l = l'.
Proof.
  intros H. apply (f_equal alerts) in H. unfold add_alerts in H. simpl in H.
  now apply app_inv_head in H.
Qed.







(** ** Reading back a formatted percentage *)

Lemma append_assoc (a b c : string) : (a ++ b) ++ c = a ++ (b ++ c).
Proof. induction a; simpl; congruence. Qed.

Lemma append_nil_r (a : string) : a ++ "" = a.
Proof. induction a; simpl; congruence. Qed.

(** Decimal digits hold neither a dot nor a percent sign. *)
Lemma split_dot_digits u r :
  Py.split_dot (NilEmpty.string_of_uint u ++ String "." r)
  = (NilEmpty.string_of_uint u, Some r).
Proof.
  induction u; simpl; try rewrite IHu; reflexivity.
Qed.

Lemma remove_percent_digits u r :
  Py.remove_char "%" (NilEmpty.string_of_uint u ++ r)
  = NilEmpty.string_of_uint u ++ Py.remove_char "%" r.
Proof.
  induction u; simpl; try rewrite IHu; reflexivity.
Qed.

Lemma remove_percent_fixed u v :
  Py.remove_char "%"
    ((NilEmpty.string_of_uint u ++ String "." (NilEmpty.string_of_uint v)) ++ "%")
  = NilEmpty.string_of_uint u ++ String "." (NilEmpty.string_of_uint v).
Proof.
  rewrite append_assoc, remove_percent_digits. f_equal.
  simpl. f_equal. rewrite remove_percent_digits. simpl. apply append_nil_r.
Qed.

Lemma to_uint_nonnil n : N.to_uint n <> Decimal.Nil.
Proof.
  destruct n; simpl.
  - discriminate.
  - apply DecimalPos.Unsigned.to_uint_nonnil.
Qed.

Lemma string_of_uint_nonnil u :
  u <> Decimal.Nil -> NilZero.string_of_uint u = NilEmpty.string_of_uint u.
Proof. destruct u; auto. congruence. Qed.

Lemma one_digit m :
  (m < 10)%N ->
  Py.pad_uint 1 (N.to_uint m) = N.to_uint m /\
  String.length (NilEmpty.string_of_uint (N.to_uint m)) = 1%nat.
Proof.
  intros H.
  assert (Hm : (m = 0 \/ m = 1 \/ m = 2 \/ m = 3 \/ m = 4 \/ m = 5 \/ m = 6
                \/ m = 7 \/ m = 8 \/ m = 9)%N) by lia.
  repeat (destruct Hm as [->|Hm]; [split; reflexivity|]).
  subst m. split; reflexivity.
Qed.

(** The value that [float] reads back from [f"{q:.1f}"]. *)
Definition tenths (q : Q) : Q :=
  let v := Qmake (Z.of_N (Py.scaled 1 q)) 10 in
  if Py.gt 0 q then Qopp v else v.

Lemma parse_unsigned_fixed1 u v :
  u <> Decimal.Nil ->
  String.length (NilEmpty.string_of_uint v) = 1%nat ->
  Py.parse_unsigned
    (NilEmpty.string_of_uint u ++ String "." (NilEmpty.string_of_uint v))
  = Some (Qmake (Z.of_N (N.of_uint u) * 10 + Z.of_N (N.of_uint v)) 10).
Proof.
  intros Hu Hlen. unfold Py.parse_unsigned.
  rewrite split_dot_digits.
  destruct (NilEmpty.string_of_uint u) eqn:Eip.
  - exfalso. apply Hu. destruct u; try discriminate; reflexivity.
  - rewrite <- Eip, !NilEmpty.usu, Hlen. reflexivity.
Qed.

Lemma first_digit_not_minus u r :
  u <> Decimal.Nil ->
  Py.parse_float (NilEmpty.string_of_uint u ++ r)
  = Py.parse_unsigned (NilEmpty.string_of_uint u ++ r).
Proof. destruct u; try reflexivity. congruence. Qed.

Lemma parse_float_fixed1 q :
  Py.parse_float (Py.remove_char "%" (Py.format_fixed 1 q ++ "%"))
  = Some (tenths q).
Proof.
  unfold Py.format_fixed, tenths.
  set (t := Py.scaled 1 q). change (10 ^ N.of_nat 1)%N with 10%N.
  assert (Hlt : (t mod 10 < 10)%N) by (apply N.mod_lt; discriminate).
  destruct (one_digit _ Hlt) as (Hpad & Hlen).
  rewrite Hpad, (string_of_uint_nonnil _ (to_uint_nonnil _)).
  assert (Hval : Qmake (Z.of_N (N.of_uint (N.to_uint (t / 10))) * 10
                        + Z.of_N (N.of_uint (N.to_uint (t mod 10)))) 10
                 = Qmake (Z.of_N t) 10).
  { rewrite !DecimalN.Unsigned.of_to. f_equal.
    rewrite N2Z.inj_div, N2Z.inj_mod. change (Z.of_N 10) with 10.
    pose proof (Z.div_mod (Z.of_N t) 10). lia. }
  destruct (Py.gt 0 q); cbn [String.append].
  - cbn [Py.remove_char Ascii.eqb Bool.eqb]. cbv iota.
    rewrite remove_percent_fixed. unfold Py.parse_float.
    rewrite (parse_unsigned_fixed1 _ _ (to_uint_nonnil _) Hlen), Hval.
    reflexivity.
  - rewrite remove_percent_fixed.
    rewrite (first_digit_not_minus _ _ (to_uint_nonnil _)).
    rewrite (parse_unsigned_fixed1 _ _ (to_uint_nonnil _) Hlen), Hval.
    reflexivity.
Qed.

(** [float(f"{q:.1f}%".replace("%", ""))] never raises. *)
Lemma percent_of_fmt1 {S} q : @percent_of S (fmt 1 q "%") = ret (tenths q).
Proof. unfold percent_of, fmt. now rewrite parse_float_fixed1. Qed.

(** ** Memory usage: alerts and recommendation (claim C7) *)

(** On a machine that reads its memory, what one call of
    [get_memory_info] appends is the outcome [lr] of the usage check
    followed by swap alerts, and the dictionary shows the usage. *)
Lemma get_memory_info_reading p mem lim :
  lib_psutil p = true ->
  virtual_memory p = Ok mem ->
  exists lr,
    ((90 < vm_percent mem)%Q ->
       exists a, lr = [a] /\ tipo a = "CRÍTICO" /\ componente a = "RAM") /\
    ((80 < vm_percent mem)%Q -> (vm_percent mem <= 90)%Q ->
       exists a, lr = [a] /\ tipo a = "AVISO" /\ componente a = "RAM") /\
    ((vm_percent mem <= 80)%Q -> lr = []) /\
    (exists l', forall e, reads lim e ->
                  snd (get_memory_info p e) = add_alerts (lr ++ l') e) /\
    getter_spec lim
      (fun a => In a lr \/ componente a = "SWAP")
      (fun d => Dict.get "porcentagem_uso" d = Some (fmt 1 (vm_percent mem) "%"))
      (get_memory_info p).
Proof.
  intros Hps Hvm.
  destruct (get_memory_info_run p mem lim Hps Hvm) as (d & l' & Hd & Hl' & Heq).
  destruct (memory_usage_check_run mem) as (lr & Hrun & Hram & Hhot & Hwarm & Hcool).
  exists lr. repeat apply conj.
  - intros H. destruct (Hhot H) as (a & -> & Ha). exists a.
    inversion Hram; subst. auto.
  - intros H1 H2. destruct (Hwarm H1 H2) as (a & -> & Ha). exists a.
    inversion Hram; subst. auto.
  - exact Hcool.
  - exists l'. intros e He. rewrite (Heq e He), Hrun. simpl.
    destruct e; unfold add_alerts, set_alerts; simpl.
    now rewrite List.app_assoc.
  - exists d, (lr ++ l')%list. repeat split; auto.
    + apply Forall_app. split.
      * apply Forall_forall. auto.
      * eapply Forall_impl; [|exact Hl']. cbv beta. auto.
    + intros e He. rewrite (Heq e He), Hrun. simpl. f_equal.
      destruct e; unfold add_alerts, set_alerts; simpl.
      now rewrite List.app_assoc.
Qed.

Lemma set_recommendations_same s :
  set_recommendations (recommendations s ++ [])%list s = s.
Proof. destruct s; unfold set_recommendations; simpl. now rewrite List.app_nil_r. Qed.

(** A usage step of the health analysis on a dictionary whose entry is a
    formatted percentage: it never raises and at most appends one
    recommendation. *)
Lemma percent_step_run k d thr (mk : Q -> Recommendation) :
  pct_ok k d ->
  forall s : Engine,
    exists l,
      (match Dict.get k d with
       | Some v =>
           u <- percent_of v ;;
           when (Py.gt u thr) (recommendations_append (mk u))
       | None => ret tt
       end) s
      = (Ok tt, set_recommendations (recommendations s ++ l)%list s).
Proof.
  unfold pct_ok. intros H s.
  destruct (Dict.get k d) as [v|].
  - destruct H as (q & ->). rewrite percent_of_fmt1.
    unfold bind, ret, when. destruct (Py.gt (tenths q) thr).
    + exists [mk (tenths q)]. reflexivity.
    + exists []. unfold ret. now rewrite set_recommendations_same.
  - exists []. unfold ret. now rewrite set_recommendations_same.
Qed.

(** Whenever the usage shown for the memory is above 85%, the health
    analysis recommends more RAM. *)
Lemma analyze_recommends_memory p mem e :
  lib_psutil p = true ->
  virtual_memory p = Ok mem ->
  Py.gt (tenths (vm_percent mem)) 85 = true ->
  In (memory_recommendation (tenths (vm_percent mem)))
     (recommendations (snd (analyze_health_and_recommendations p e))).
Proof.
  intros Hps Hvm Hgt.
  set (lim := temp_limits e).
  destruct (get_cpu_info_spec p lim) as (dc & lc & Hdc & _ & Hcpu).
  destruct (get_gpu_info_spec p lim) as (dg & lg & Hdg & _ & Hgpu).
  destruct (get_memory_info_reading p mem lim Hps Hvm)
    as (lr & _ & _ & _ & _ & dm & lm & Hdm & _ & Hmem).
  unfold analyze_health_and_recommendations.
  match goal with
  | |- context [bind (get_storage_info p) ?k] =>
      assert (HK : ehoare lim (fun _ => True) (fun _ => True) false top
                          (bind (get_storage_info p) k))
        by (etrack; auto)
  end.
  destruct (ehoare_run _ _ _ _ _ _ HK) as (r & eff & _ & _ & _ & Hrs & Heq).
  unfold bind at 1. unfold modify at 1. unfold try_except.
  step_with Hcpu.
  match goal with
  | |- context [bind ?m ?k ?s] =>
      let l := fresh "l1" in let H := fresh "H1" in
      destruct (percent_step_run "uso_atual" dc 80 cpu_recommendation Hdc s)
        as (l & H);
      rewrite (bind_run m k s _ _ H)
  end.
  step_with Hgpu.
  match goal with
  | |- context [bind ?m ?k ?s] =>
      let l := fresh "l2" in let H := fresh "H2" in
      destruct (percent_step_run "uso_gpu" dg 90 gpu_recommendation Hdg s)
        as (l & H);
      rewrite (bind_run m k s _ _ H)
  end.
  step_with Hmem.
  rewrite Hdm. rewrite percent_of_fmt1.
  unfold bind at 1. unfold bind at 1. unfold ret at 1. unfold when at 1.
  rewrite Hgt. unfold recommendations_append at 1. unfold modify at 1.
  rewrite Heq by exact (reads_refl e).
  destruct (reset_recs eff) eqn:Er; [now discriminate (Hrs eq_refl)|].
  destruct r; simpl; rewrite Er; rewrite !in_app_iff; simpl; tauto.
Qed.

Lemma tracks_bind_ret {S R} (mk : Engine -> R -> S) lim PA PR ar Inv
      {A B} (a : A) (k : A -> M S B) :
  hoare mk lim PA PR ar Inv top (k a) ->
  hoare mk lim PA PR ar Inv top (bind (ret a) k).
Proof.
  intros Hk rest HI.
  destruct (Hk rest HI) as (r & eff & rest' & Hr & Ha & Hc & Hrs & HI' & Heq).
  exists r, eff, rest'. repeat split; auto.
Qed.

(** Stepping through the diagnostic with a sharper description [memspec]
    of [get_memory_info], whose dictionary shows the usage. *)
Ltac etrack_step_with memspec :=
  lazymatch goal with
  | |- hoare _ _ _ _ _ _ _ ?m =>
      lazymatch m with
      | bind (get_memory_info _) _ =>
          eapply tracks_bind_getter;
          [ eapply getter_spec_weaken; [apply memspec | cbv beta; intros ? ?]
          | cbv beta;
            let d := fresh "d" in
            let Hd := fresh "Hd" in
            intros d Hd; try (rewrite Hd; cbv beta iota;
                              rewrite percent_of_fmt1) ]
      | bind (ret _) _ => apply tracks_bind_ret
      | _ => etrack_step
      end
  | _ => etrack_step
  end.

Ltac etrack_with memspec := repeat (etrack_step_with memspec; cbv beta).

(** What holds of every new alert and recommendation of the diagnostic
    body holds of the two lists after a full diagnostic. *)
Lemma run_complete_diagnosis_tracks p lim PA PR :
  ehoare lim PA PR true top (diagnosis_body p) ->
  forall e, reads lim e ->
    Forall PA (alerts (run_complete_diagnosis p e)) /\
    Forall PR (recommendations (run_complete_diagnosis p e)).
Proof.
  intros H e He.
  destruct (ehoare_run _ _ _ _ _ _ H) as (r & eff & _ & Ha & Hr & _ & Heq).
  unfold run_complete_diagnosis, diagnosis_thread, try_except, bind, modify.
  rewrite Heq by exact He.
  destruct e, r; unfold apply_effect, add_alerts, set_recommendations,
    set_alerts, ret; simpl; destruct (reset_recs eff); auto.
Qed.

(** A full diagnostic whose header reads the platform ends with the
    health analysis. *)
Lemma run_reaches_analysis p e :
  is_ok (platform_system p) = true ->
  is_ok (platform_release p) = true ->
  exists e', run_complete_diagnosis p e
             = snd (analyze_health_and_recommendations p e').
Proof.
  intros Hps Hpr.
  set (lim := temp_limits e).
  destruct (get_cpu_info_spec p lim) as (dc & lc & _ & _ & Hcpu).
  destruct (get_gpu_info_spec p lim) as (dg & lg & _ & Hlg & Hgpu).
  destruct (get_memory_info_spec p lim) as (dm & lm & _ & Hlm & Hmem).
  destruct (get_storage_info_spec p lim) as (ds & ls & _ & Hls & Hsto).
  destruct (get_motherboard_info_spec p lim) as (db & lb & _ & Hlb & Hmb).
  destruct (get_system_info_spec p lim) as (dy & ly & _ & Hly & Hsys).
  destruct (get_network_info_spec p lim) as (dn & ln & _ & Hln & Hnet).
  unfold run_complete_diagnosis, diagnosis_thread, try_except.
  unfold bind at 1. unfold modify at 1.
  unfold bind at 1. unfold modify at 1.
  unfold diagnosis_body.
  destruct (platform_system p); [|discriminate].
  destruct (platform_release p); [|discriminate].
  unfold bind at 1. unfold bind at 1. unfold call at 1.
  unfold bind at 1. unfold call at 1.
  step_with Hcpu. step_with Hgpu. step_with Hmem. step_with Hsto.
  step_with Hmb. step_with Hsys. step_with Hnet.
  unfold bind.
  match goal with
  | |- context [analyze_health_and_recommendations p ?e0] =>
      exists e0; destruct (analyze_health_and_recommendations p e0) as [r e1]
  end.
  destruct r; reflexivity.
Qed.

(** The recommendation to add RAM. *)
Definition add_more_ram : string :=
  "Considere adicionar mais RAM, feche aplicações não utilizadas, verifique vazamentos de memória".

(** C7, as stated, fails: with a memory usage of 81% the full diagnostic
    produces no memory recommendation; the recommendation has its own
    threshold, 85%. *)
Lemma no_memory_recommendation_at_81 :
  filter (fun r => String.eqb (rec_componente r) "RAM")
         (recommendations (run_complete_diagnosis (desktop 60 81) init)) = [].
Proof. vm_compute. reflexivity. Qed.

(** C7, amended: after a full diagnostic on a machine whose memory usage
    reads 91%, the alert list holds a critical RAM alert and the
    recommendation list holds the recommendation to add RAM; when it reads
    81%, the alert list holds a RAM warning, every RAM alert is a warning,
    and there is no RAM recommendation. *)
Theorem memory_usage_tiers (p : Provider) (e : Engine) (mem : svmem) :
  is_ok (platform_system p) = true ->
  is_ok (platform_release p) = true ->
  lib_psutil p = true ->
  virtual_memory p = Ok mem ->
  let after := run_complete_diagnosis p e in
  (vm_percent mem = 91%Q ->
     (exists a, In a (alerts after) /\
                tipo a = "CRÍTICO" /\ componente a = "RAM") /\
     (exists r, In r (recommendations after) /\
                rec_componente r = "RAM" /\ recomendacao r = add_more_ram)) /\
  (vm_percent mem = 81%Q ->
     (exists a, In a (alerts after) /\
                tipo a = "AVISO" /\ componente a = "RAM") /\
     (forall a, In a (alerts after) -> componente a = "RAM" -> tipo a = "AVISO") /\
     (forall r, In r (recommendations after) -> rec_componente r <> "RAM")).
Proof.
  intros Hps Hpr Hlib Hvm. cbv zeta.
  destruct (run_alerts_decomposition p e Hps Hpr)
    as (lc & lg & lm & ls & l2 & _ & _ & Hmem & _ & _ & _ & _ & _ & Halerts).
  destruct (get_memory_info_reading p mem (temp_limits e) Hlib Hvm)
    as (lr & Hhot & Hwarm & _ & (l' & Hlr) & Hspec).
  assert (Hlm : lm = (lr ++ l')%list).
  { apply (add_alerts_inj _ _ e). rewrite <- (Hmem e (reads_refl e)). apply Hlr, reads_refl. }
  split; intros Hpct.
  - split.
    + destruct Hhot as (a & -> & Ha); [rewrite Hpct; reflexivity|].
      exists a. split; [|exact Ha].
      rewrite Halerts, Hlm, !in_app_iff. simpl. tauto.
    + destruct (run_reaches_analysis p e Hps Hpr) as (e' & ->).
      exists (memory_recommendation (tenths (vm_percent mem))).
      split; [|split; reflexivity].
      apply analyze_recommends_memory; auto.
      rewrite Hpct. reflexivity.
  - destruct Hwarm as (a & Ha & Hta & Hca);
      [rewrite Hpct; reflexivity|rewrite Hpct; discriminate|].
    split; [|].
    + exists a. split; [|auto].
      rewrite Halerts, Hlm, Ha, !in_app_iff. simpl. tauto.
    + assert (H : ehoare (temp_limits e)
                    (fun a => componente a = "RAM" -> tipo a = "AVISO")
                    (fun r => rec_componente r <> "RAM") true top
                    (diagnosis_body p)).
      { etrack_with Hspec; auto; try (simpl; discriminate);
          match goal with
          | H : False |- _ => destruct H
          | H : componente ?x = _ |- componente ?x = _ -> _ =>
              let Hx := fresh in intros Hx; rewrite H in Hx; discriminate Hx
          | H : In ?x _ \/ componente ?x = _ |- _ =>
              destruct H as [H|H];
              [ rewrite Ha in H; destruct H as [<-|[]]; auto
              | let Hx := fresh in intros Hx; rewrite H in Hx; discriminate Hx ]
          | E : Py.gt _ _ = true |- rec_componente _ <> _ =>
              exfalso; rewrite Hpct in E; vm_compute in E; discriminate E
          end. }
      destruct (run_complete_diagnosis_tracks p _ _ _ H e (reads_refl e)) as (HA & HR).
      rewrite Forall_forall in HA, HR. auto.
Qed.

Lemma memory_usage_tiers_witness :
  exists r, In r (recommendations (run_complete_diagnosis (desktop 60 91) init)) /\
            rec_componente r = "RAM" /\ recomendacao r = add_more_ram.
Proof.
  refine (proj2 (proj1 (memory_usage_tiers (desktop 60 91) init _
                          eq_refl eq_refl eq_refl eq_refl) eq_refl)).
Defined.

(** ** Disk temperature (claim C6) *)

(** C6, as stated, fails: with a disk temperature reading of 70°C, above
    the critical limit of 60°C, the full diagnostic raises no alert. *)
Lemma hot_disk_raises_no_alert :
  alerts (run_complete_diagnosis hot_disk init) = [].
Proof. vm_compute. reflexivity. Qed.

(** Computations that agree on every state. *)
Definition same_run {S A} (m m' : M S A) : Prop := forall s, m s = m' s.

Lemma same_run_refl {S A} (m : M S A) : same_run m m.
Proof. intros s. reflexivity. Qed.

Lemma same_run_bind {S A B} (m m' : M S A) (k k' : A -> M S B) :
  same_run m m' -> (forall a, same_run (k a) (k' a)) ->
  same_run (bind m k) (bind m' k').
Proof.
  intros Hm Hk s. unfold bind. rewrite Hm.
  destruct (m' s) as [[a|x] s']; [apply Hk|reflexivity].
Qed.

Lemma same_run_try_except {S A} (m m' : M S A) (h h' : exn -> M S A) :
  same_run m m' -> (forall x, same_run (h x) (h' x)) ->
  same_run (try_except m h) (try_except m' h').
Proof.
  intros Hm Hh s. unfold try_except. rewrite Hm.
  destruct (m' s) as [[a|x] s']; [reflexivity|apply Hh].
Qed.

Lemma same_run_method {L} (l0 : L) (m m' : M (Frame L) unit) :
  same_run m m' -> same_run (method l0 m) (method l0 m').
Proof. intros Hm e. unfold method. now rewrite Hm. Qed.

Lemma for_each_cpu_sensor_all s :
  same_run (match s with
            | [] => ret tt
            | _ => for_each s cpu_sensor_step
            end)
           (for_each s cpu_sensor_step).
Proof. destruct s; apply same_run_refl. Qed.

(** [get_cpu_info] looks at the temperature sensors through
    [first_cpu_reading] only. *)
Lemma get_cpu_info_sensors p s s' :
  sensors_temperatures p = Ok s ->
  first_cpu_reading s' = first_cpu_reading s ->
  same_run (get_cpu_info (with_sensors (Ok s') p)) (get_cpu_info p).
Proof.
  intros Hs Hr. unfold get_cpu_info.
  apply same_run_method, same_run_try_except; [|intros; apply same_run_refl].
  apply same_run_bind; [apply same_run_refl|intros _].
  apply same_run_bind; [apply same_run_refl|intros _].
  unfold cpu_temperature_block.
  apply same_run_try_except; [|intros; apply same_run_refl].
  change (lib_psutil (with_sensors (Ok s') p)) with (lib_psutil p).
  change (sensors_temperatures (with_sensors (Ok s') p)) with (Ok (A:=list (string * list Q)) s').
  rewrite Hs. unfold when. destruct (lib_psutil p); [|apply same_run_refl].
  intros f. unfold bind, call.
  rewrite (for_each_cpu_sensor_all s' f), (for_each_cpu_sensor_all s f).
  rewrite !for_each_cpu_sensor, Hr. reflexivity.
Qed.

Lemma run_sensors p s s' e :
  sensors_temperatures p = Ok s ->
  first_cpu_reading s' = first_cpu_reading s ->
  run_complete_diagnosis (with_sensors (Ok s') p) e = run_complete_diagnosis p e.
Proof.
  intros Hs Hr.
  assert (Hcpu := get_cpu_info_sensors p s s' Hs Hr).
  assert (Han : same_run (analyze_health_and_recommendations (with_sensors (Ok s') p))
                         (analyze_health_and_recommendations p)).
  { unfold analyze_health_and_recommendations.
    apply same_run_bind; [apply same_run_refl|intros _].
    apply same_run_try_except; [|intros; apply same_run_refl].
    apply same_run_bind; [exact Hcpu|intros cpu_info].
    apply same_run_refl. }
  unfold run_complete_diagnosis. f_equal.
  unfold diagnosis_thread.
  apply same_run_try_except; [|intros; apply same_run_refl].
  apply same_run_bind; [apply same_run_refl|intros _].
  apply same_run_bind; [apply same_run_refl|intros _].
  apply same_run_bind; [|intros; apply same_run_refl].
  unfold diagnosis_body.
  apply same_run_bind; [apply same_run_refl|intros _].
  apply same_run_bind; [apply same_run_refl|intros _].
  apply same_run_bind; [exact Hcpu|intros cpu_info].
  apply same_run_bind; [apply same_run_refl|intros gpu_info].
  apply same_run_bind; [apply same_run_refl|intros memory_info].
  apply same_run_bind; [apply same_run_refl|intros storage_info].
  apply same_run_bind; [apply same_run_refl|intros mb_info].
  apply same_run_bind; [apply same_run_refl|intros sys_info].
  apply same_run_bind; [apply same_run_refl|intros network_info].
  apply same_run_bind; [exact Han|intros _].
  apply same_run_refl.
Qed.

(** A disk alert that is about the space of a partition. *)
Definition space_alert (a : Alert) : Prop :=
  String.prefix "Espaço" (mensagem a) = true.

Lemma get_storage_info_space p lim :
  getter_spec lim (fun a => componente a = "DISCO" /\ space_alert a)
              (fun _ => True) (get_storage_info p).
Proof.
  unfold get_storage_info. apply getter_shape; auto.
  track; auto; split; reflexivity.
Qed.

Ltac etrack_step_sto stospec :=
  lazymatch goal with
  | |- hoare _ _ _ _ _ _ _ ?m =>
      lazymatch m with
      | bind (get_storage_info _) _ => track_getter stospec
      | _ => etrack_step
      end
  | _ => etrack_step
  end.

Ltac etrack_sto stospec := repeat (etrack_step_sto stospec; cbv beta).

(** C6, amended: the full diagnostic does not evaluate disk temperature.
    The limits [disk_warning] and [disk_critical] have no influence on
    what it does; of the temperature sensors it looks at nothing but the
    first CPU reading; and every disk alert it raises is about the space
    of a partition. *)
Theorem disk_temperature_is_not_evaluated (p : Provider) (e : Engine) :
  (forall dw dc,
      run_complete_diagnosis p (set_disk_limits dw dc e)
      = set_disk_limits dw dc (run_complete_diagnosis p e)) /\
  (forall s s',
      sensors_temperatures p = Ok s ->
      first_cpu_reading s' = first_cpu_reading s ->
      run_complete_diagnosis (with_sensors (Ok s') p) e
      = run_complete_diagnosis p e) /\
  (forall a, In a (alerts (run_complete_diagnosis p e)) ->
             componente a = "DISCO" -> space_alert a).
Proof.
  repeat apply conj.
  - intros dw dc.
    destruct (run_complete_diagnosis_lists p (temp_limits e)) as (la & lr & H).
    rewrite (H e (reads_refl e)).
    rewrite (H (set_disk_limits dw dc e)) by (repeat split).
    reflexivity.
  - intros s s'. apply run_sensors.
  - assert (H : ehoare (temp_limits e)
                  (fun a => componente a = "DISCO" -> space_alert a)
                  (fun _ => True) true top (diagnosis_body p)).
    { etrack_sto get_storage_info_space; auto;
        match goal with
        | H : False |- _ => destruct H
        | H : _ /\ _ |- _ => destruct H; auto
        | H : componente ?x = _ \/ componente ?x = _ |- _ =>
            let Hx := fresh in
            destruct H as [H|H]; intros Hx; rewrite H in Hx; discriminate Hx
        | H : componente ?x = _ |- _ =>
            let Hx := fresh in intros Hx; rewrite H in Hx; discriminate Hx
        end. }
    destruct (run_complete_diagnosis_tracks p _ _ _ H e (reads_refl e)) as (HA & _).
    rewrite Forall_forall in HA. exact HA.
Qed.

Lemma disk_temperature_is_not_evaluated_witness :
  run_complete_diagnosis hot_disk init
  = run_complete_diagnosis (desktop 45 50) init.
Proof.
  refine (proj1 (proj2 (disk_temperature_is_not_evaluated (desktop 45 50) init))
            [("acpitz", [40%Q]); ("coretemp", [45%Q; 50%Q])]
            [("nvme", [70%Q]); ("coretemp", [45%Q])] eq_refl eq_refl).
Defined.

(** ** Monitoring: what a pass of the loop keeps *)

Section Keeps.
Context {L : Type}.
Variable I : Engine -> Prop.

(** [m] keeps the property [I] of the engine. *)
Definition keeps {A} (m : M (Frame L) A) : Prop :=
  forall f, I (self f) -> I (self (snd (m f))).

Lemma keeps_pure {A} (r : result A) : keeps (fun f => (r, f)).
Proof. intros f Hf. exact Hf. Qed.

Lemma keeps_bind {A B} (m : M (Frame L) A) (k : A -> M (Frame L) B) :
  keeps m -> (forall a, keeps (k a)) -> keeps (bind m k).
Proof.
  intros Hm Hk f Hf. unfold bind. specialize (Hm f Hf).
  destruct (m f) as [[a|x] f']; simpl in *; auto. now apply Hk.
Qed.

Lemma keeps_try_except {A} (m : M (Frame L) A) (h : exn -> M (Frame L) A) :
  keeps m -> (forall x, keeps (h x)) -> keeps (try_except m h).
Proof.
  intros Hm Hh f Hf. unfold try_except. specialize (Hm f Hf).
  destruct (m f) as [[a|x] f']; simpl in *; auto. now apply Hh.
Qed.

Lemma keeps_get_local : keeps get_local.
Proof. intros f Hf. exact Hf. Qed.

Lemma keeps_set_local l : keeps (set_local l).
Proof. intros f Hf. exact Hf. Qed.

Lemma keeps_modify_data g :
  (forall e, I e -> I (set_monitoring_data (g (monitoring_data e)) e)) ->
  keeps (modify_data g).
Proof. intros Hg f Hf. simpl. now apply Hg. Qed.

Lemma keeps_log_insert msg :
  (forall e l, I e -> I (set_monitoring_log l e)) -> keeps (log_insert msg).
Proof. intros Hg f Hf. simpl. now apply Hg. Qed.

Lemma keeps_get_cpu_temperature p : keeps (get_cpu_temperature p).
Proof.
  unfold get_cpu_temperature. apply keeps_try_except.
  - destruct (lib_psutil p); [|apply keeps_pure].
    apply keeps_bind; [apply keeps_pure|intros; apply keeps_pure].
  - intros; apply keeps_pure.
Qed.

End Keeps.

Ltac keep_step :=
  lazymatch goal with
  | |- keeps _ ?m =>
      lazymatch m with
      | ret _ => apply keeps_pure
      | raise _ => apply keeps_pure
      | call _ => apply keeps_pure
      | get_local => apply keeps_get_local
      | get_cpu_temperature _ => apply keeps_get_cpu_temperature
      | bind _ _ => apply keeps_bind; [|intros ?]
      | try_except _ _ => apply keeps_try_except; [|intros ?]
      | when _ _ => unfold when at 1
      | set_local _ => apply keeps_set_local
      | modify_data _ => apply keeps_modify_data; intros ? ?
      | log_insert _ => apply keeps_log_insert; intros ? ? ?
      | match ?x with _ => _ end => destruct x
      end
  end.

Ltac keep := repeat (keep_step; cbv beta).

(** One pass appends one timestamp, the one read at its top, and leaves
    the flag, the lists of the diagnostic and the limits as they are. *)
Lemma monitoring_tick_timestamps env (f : Frame (option Q)) :
  let e' := self (snd (monitoring_tick env f)) in
  timestamps (monitoring_data e')
  = (timestamps (monitoring_data (self f)) ++ [tick_now env])%list /\
  monitoring e' = monitoring (self f) /\
  alerts e' = alerts (self f) /\
  recommendations e' = recommendations (self f) /\
  temp_limits e' = temp_limits (self f).
Proof.
  cbv zeta.
  set (I := fun e : Engine =>
              timestamps (monitoring_data e)
              = (timestamps (monitoring_data (self f)) ++ [tick_now env])%list /\
              monitoring e = monitoring (self f) /\
              alerts e = alerts (self f) /\
              recommendations e = recommendations (self f) /\
              temp_limits e = temp_limits (self f)).
  change (I (self (snd (monitoring_tick env f)))).
  unfold monitoring_tick.
  match goal with
  | |- I (self (snd (try_except (bind (modify_data ?g) ?k) ?h f))) =>
      change (try_except (bind (modify_data g) k) h f)
        with (try_except (k tt) h
                (mkFrame (set_monitoring_data (g (monitoring_data (self f)))
                                              (self f))
                         (local f)));
      apply (keeps_try_except I (k tt) h)
  end.
  - keep; subst I; cbv beta in *; simpl; assumption.
  - intros x. keep; subst I; cbv beta in *; simpl; assumption.
  - subst I. simpl. tauto.
Qed.

(** ** Stopping a session (claim C9) *)





(** ** One entry per pass? (claim C2) *)

(** C2: every pass appends its timestamp, so after N passes there are N
    timestamps; but a CPU temperature that is unavailable in a pass is
    skipped, not recorded as missing.  In a session of two passes of which
    only the second has a reading, the temperature buffer holds one entry,
    the reading of the second pass at index 0, and [save_monitoring_csv],
    which looks the buffers up by the index of the timestamp, writes it into
    the row of the first pass and leaves the row of the second pass empty. *)
Theorem unavailable_temperature_is_skipped :
  (forall env (f : Frame (option Q)),
      timestamps (monitoring_data (self (snd (monitoring_tick env f))))
      = (timestamps (monitoring_data (self f)) ++ [tick_now env])%list) /\
  first_cpu_reading [("acpitz", [40%Q])] = None /\
  exists e,
    monitoring_session 1 0 0 [pass_without_reading; pass_with_reading]
                       7000000 init = Some e /\
    timestamps (monitoring_data e) = [1000000; 4000000] /\
    cpu_usage (monitoring_data e) = [12.5%Q; 12.5%Q] /\
    memory_usage (monitoring_data e) = [50%Q; 50%Q] /\
    cpu_temp (monitoring_data e) = [55%Q] /\
    save_monitoring_csv (monitoring_data e)
    = Some (["Timestamp"; "CPU_Usage_%"; "Memory_Usage_%"; "CPU_Temp_C"],
            [[CTime 1000000; CNum 12.5; CNum 50; CNum 55];
             [CTime 4000000; CNum 12.5; CNum 50; CEmpty]]).
Proof.
  split; [|split].
  - intros env f. exact (proj1 (monitoring_tick_timestamps env f)).
  - reflexivity.
  - eexists. split; [vm_compute; reflexivity|].
    repeat split.
Qed.

(** ** The end of a session (claim C8) *)






(** * Further properties: the monitor, the exports, the diagnostic *)

(** ** What one pass of the monitoring loop adds *)

Ltac tick_cases env loc :=
  destruct (lib_psutil (tick_provider env));
    [destruct (cpu_percent (tick_provider env)) as [?c|?x];
     [destruct (sensors_temperatures (tick_provider env)) as [?s|?x];
      destruct (virtual_memory (tick_provider env)) as [?mem|?x]|]|];
    (destruct (lib_GPUtil (tick_provider env));
     [destruct (getGPUs (tick_provider env)) as [[|?gpu ?gl]|?x]|]);
    destruct loc as [?c|].

Ltac tick_run :=
  cbv beta iota zeta delta
    [try_except bind when call modify_data log_insert modify set_local
     get_local gets ret raise self local fst snd set_monitoring_data
     set_monitoring_log append_timestamp append_cpu_usage append_gpu_usage
     append_memory_usage append_cpu_temp append_gpu_temp
     monitoring monitoring_data alerts recommendations temp_limits
     monitoring_log cpu_usage gpu_usage memory_usage cpu_temp gpu_temp
     timestamps];
  repeat match goal with
         | |- context [match first_cpu_reading ?s with _ => _ end] =>
             destruct (first_cpu_reading s)
         | |- context [negb (Qeq_bool ?t 0)] =>
             destruct (Qeq_bool t 0) eqn:?; cbv beta iota delta [negb]
         | |- context [if ?x then _ else _] => destruct x
         end;
  cbv beta iota zeta delta
    [self local fst snd
     monitoring monitoring_data alerts recommendations temp_limits
     monitoring_log cpu_usage gpu_usage memory_usage cpu_temp gpu_temp
     timestamps].

(** A pass never raises.  It adds at most one CPU sample, a memory sample
    and a CPU temperature only together with a CPU sample, a GPU load and
    a GPU temperature only together, and at most two lines to the log; a
    CPU temperature that it stores is not zero. *)
Lemma monitoring_tick_effect env (f : Frame (option Q)) :
  let d := monitoring_data (self f) in
  let e' := self (snd (monitoring_tick env f)) in
  let d' := monitoring_data e' in
  exists c m t g gt lg,
    fst (monitoring_tick env f) = Ok tt /\
    cpu_usage d' = (cpu_usage d ++ c)%list /\
    memory_usage d' = (memory_usage d ++ m)%list /\
    cpu_temp d' = (cpu_temp d ++ t)%list /\
    gpu_usage d' = (gpu_usage d ++ g)%list /\
    gpu_temp d' = (gpu_temp d ++ gt)%list /\
    monitoring_log e' = (monitoring_log (self f) ++ lg)%list /\
    (List.length m <= List.length c <= 1)%nat /\
    (List.length t <= List.length c)%nat /\
    (List.length g <= 1)%nat /\
    List.length gt = List.length g /\
    (List.length lg <= 2)%nat /\
    Forall (fun x => Qeq_bool x 0 = false) t.
Proof.
  destruct f as [[mon [cu gu mu ct gtt ts] al rc tl lg0] loc].
  cbv zeta.
  unfold monitoring_tick, get_cpu_temperature.
  tick_cases env loc.
  all: tick_run.
  all: do 6 eexists; repeat apply conj.
  all: try (lazymatch goal with |- _ = _ => reflexivity end).
  all: try (symmetry; apply List.app_nil_r).
  all: try (rewrite <- ?List.app_assoc; reflexivity).
  all: try (simpl; lia).
  all: repeat constructor; assumption.
Qed.

(** The CPU temperature a pass stores. *)
Definition temperature_sample (p : Provider) : list Q :=
  match sensors_temperatures p with
  | Ok s =>
      match first_cpu_reading s with
      | Some t => if Qeq_bool t 0 then [] else [t]
      | None => []
      end
  | Raise _ => []
  end.

(** The GPU a pass samples. *)
Definition gpu_sample (p : Provider) : list GPU :=
  if lib_GPUtil p then
    match getGPUs p with
    | Ok (gpu :: _) => [gpu]
    | _ => []
    end
  else [].

(** The lines a pass adds to the log for a high reading. *)
Definition cpu_high_line (now : datetime) (c : Q) : string :=
  "[" ++ strftime_HMS now ++ "] ⚠️  CPU alta: " ++ Py.format_fixed 1 c ++ "%"
  ++ newline.

Definition ram_high_line (now : datetime) (m : Q) : string :=
  "[" ++ strftime_HMS now ++ "] ⚠️  RAM alta: " ++ Py.format_fixed 1 m ++ "%"
  ++ newline.

Definition high_usage_lines (now : datetime) (c m : Q) : list string :=
  ((if Py.gt c 80 then [cpu_high_line now c] else [])
   ++ (if Py.gt m 85 then [ram_high_line now m] else []))%list.

(** A pass on a machine whose psutil answers. *)
Lemma monitoring_tick_healthy env (f : Frame (option Q)) c mem :
  let p := tick_provider env in
  let d := monitoring_data (self f) in
  lib_psutil p = true ->
  cpu_percent p = Ok c ->
  virtual_memory p = Ok mem ->
  monitoring_tick env f
  = (Ok tt,
     mkFrame
       {| monitoring := monitoring (self f);
          monitoring_data :=
            {| cpu_usage := (cpu_usage d ++ [c])%list;
               gpu_usage :=
                 (gpu_usage d
                  ++ List.map (fun g => (gpu_load g * 100)%Q) (gpu_sample p))%list;
               memory_usage := (memory_usage d ++ [vm_percent mem])%list;
               cpu_temp := (cpu_temp d ++ temperature_sample p)%list;
               gpu_temp :=
                 (gpu_temp d ++ List.map gpu_temperature (gpu_sample p))%list;
               timestamps := (timestamps d ++ [tick_now env])%list |};
          alerts := alerts (self f);
          recommendations := recommendations (self f);
          temp_limits := temp_limits (self f);
          monitoring_log :=
            (monitoring_log (self f)
             ++ high_usage_lines (tick_now env) c (vm_percent mem))%list |}
       (Some c)).
Proof.
  destruct f as [[mon [cu gu mu ct gtt ts] al rc tl lg0] loc].
  cbv zeta. intros Hps Hc Hm.
  unfold monitoring_tick, get_cpu_temperature, temperature_sample, gpu_sample,
    high_usage_lines, cpu_high_line, ram_high_line.
  rewrite Hps, Hc, Hm.
  destruct (sensors_temperatures (tick_provider env)) as [s|x];
    (destruct (lib_GPUtil (tick_provider env));
     [destruct (getGPUs (tick_provider env)) as [[|gpu gl]|x4]|]).
  all: tick_run.
  all: cbn [List.map]; rewrite ?List.app_nil_r, <- ?List.app_assoc.
  all: try reflexivity.
  all: try congruence.
Qed.

(** The line the handler of a pass adds to the log. *)
Definition error_line (now : datetime) (msg : string) : string :=
  "[" ++ strftime_HMS now ++ "] ❌ Erro: " ++ msg ++ newline.

(** A pass on a machine without psutil, when no earlier pass has read the
    CPU: the comparison of [cpu_percent] fails on the unassigned variable
    and the handler logs the error; no reading of psutil is stored. *)
Lemma monitoring_tick_without_psutil env (f : Frame (option Q)) :
  let p := tick_provider env in
  let d := monitoring_data (self f) in
  lib_psutil p = false ->
  local f = None ->
  exists msg,
  monitoring_tick env f
  = (Ok tt,
     mkFrame
       {| monitoring := monitoring (self f);
          monitoring_data :=
            {| cpu_usage := cpu_usage d;
               gpu_usage :=
                 (gpu_usage d
                  ++ List.map (fun g => (gpu_load g * 100)%Q) (gpu_sample p))%list;
               memory_usage := memory_usage d;
               cpu_temp := cpu_temp d;
               gpu_temp :=
                 (gpu_temp d ++ List.map gpu_temperature (gpu_sample p))%list;
               timestamps := (timestamps d ++ [tick_now env])%list |};
          alerts := alerts (self f);
          recommendations := recommendations (self f);
          temp_limits := temp_limits (self f);
          monitoring_log :=
            (monitoring_log (self f)
             ++ [error_line (tick_now_except env) msg])%list |}
       None).
Proof.
  destruct f as [[mon [cu gu mu ct gtt ts] al rc tl lg0] loc].
  cbv zeta. cbn [local self monitoring_data]. intros Hps ->.
  unfold monitoring_tick, get_cpu_temperature, gpu_sample, error_line.
  rewrite Hps. eexists.
  (destruct (lib_GPUtil (tick_provider env));
     [destruct (getGPUs (tick_provider env)) as [[|gpu gl]|x4]|]).
  all: tick_run.
  all: cbn [List.map]; rewrite ?List.app_nil_r, <- ?List.app_assoc.
  all: reflexivity.
Qed.

(** ** Sessions *)

(** An induction principle for the loop: a property of the frame in terms
    of the passes done so far, kept by every pass of the schedule and by a
    stop request, holds at the end for the passes that ran, a prefix of
    the schedule. *)
Lemma monitoring_loop_trace (Good : TickEnv -> Prop)
      (P : list TickEnv -> Frame (option Q) -> Prop) end_time :
  (forall done env f, Good env -> P done f ->
                      P (done ++ [env])%list (snd (monitoring_tick env f))) ->
  (forall done f, P done f ->
                  P done (mkFrame (stop_monitoring (self f)) (local f))) ->
  forall schedule done f,
    Forall Good schedule ->
    P done f ->
    exists n,
      (n <= List.length schedule)%nat /\
      P (done ++ firstn n schedule)%list
        (snd (monitoring_loop end_time schedule f)).
Proof.
  intros Htick Hstop.
  induction schedule as [|env rest IH]; intros done f HQ HP.
  - exists 0%nat. simpl. rewrite List.app_nil_r.
    split; [lia|]. now destruct (monitoring (self f)).
  - inversion HQ as [|? ? HQenv HQrest]; subst.
    simpl. destruct (monitoring (self f));
      [|exists 0%nat; simpl; rewrite List.app_nil_r; split; [lia|exact HP]].
    destruct (Py.gt end_time (tick_time env));
      [|exists 0%nat; simpl; rewrite List.app_nil_r; split; [lia|exact HP]].
    assert (HP' : P (done ++ [env])%list
                    (if stop_requested env
                     then mkFrame (stop_monitoring
                                     (self (snd (monitoring_tick env f))))
                                  (local (snd (monitoring_tick env f)))
                     else snd (monitoring_tick env f))).
    { destruct (stop_requested env); auto. }
    destruct (IH _ _ HQrest HP') as (n & Hn & HPn).
    exists (S n). split; [lia|].
    simpl. rewrite <- List.app_assoc in HPn. exact HPn.
Qed.

(** The shape of the buffers that every session keeps. *)
Definition buffers_bounded (d : MonitoringData) : Prop :=
  (List.length (memory_usage d) <= List.length (cpu_usage d)
   <= List.length (timestamps d))%nat /\
  (List.length (cpu_temp d) <= List.length (cpu_usage d))%nat /\
  List.length (gpu_temp d) = List.length (gpu_usage d) /\
  (List.length (gpu_usage d) <= List.length (timestamps d))%nat /\
  Forall (fun t => Qeq_bool t 0 = false) (cpu_temp d).

Lemma monitoring_tick_bounded env (f : Frame (option Q)) :
  buffers_bounded (monitoring_data (self f)) ->
  buffers_bounded (monitoring_data (self (snd (monitoring_tick env f)))).
Proof.
  intros (H1 & H2 & H3 & H4 & H5).
  destruct (monitoring_tick_effect env f)
    as (c & m & t & g & gt & lg & _ & Ec & Em & Et & Eg & Egt & _
        & Hm & Ht & Hg & Hgt & _ & Hnz).
  destruct (monitoring_tick_timestamps env f) as (Ets & _).
  unfold buffers_bounded. rewrite Ec, Em, Et, Eg, Egt, Ets.
  rewrite !length_app. simpl.
  repeat apply conj; try lia.
  apply Forall_app. now split.
Qed.

Lemma monitoring_session_bounded duration_minutes now start_time schedule
      finish_now e0 e :
  monitoring_session duration_minutes now start_time schedule finish_now e0
  = Some e ->
  buffers_bounded (monitoring_data e).
Proof.
  unfold monitoring_session, monitoring_thread.
  set (end_time := (start_time + inject_Z (duration_minutes * 60))%Q).
  destruct (monitoring_loop_trace (fun _ => True)
              (fun _ f => buffers_bounded (monitoring_data (self f))) end_time
              (fun _ env f _ H => monitoring_tick_bounded env f H)
              (fun _ f H => H)
              schedule []
              (mkFrame (start_monitoring duration_minutes now e0) None))
    as (n & _ & H).
  { apply Forall_forall. auto. }
  { simpl. unfold buffers_bounded. simpl. repeat split; auto. }
  destruct (monitoring_loop end_time schedule _) as [[|] f]; [|discriminate].
  intros [= <-]. exact H.
Qed.

(** X1: whatever the machines answer during a session, the buffers it
    leaves are never longer than the list of timestamps: there are at most
    as many memory samples as CPU samples and at most as many CPU samples
    as timestamps, at most as many CPU temperatures as CPU samples, as many
    GPU temperatures as GPU loads, at most as many of them as timestamps,
    and no stored CPU temperature is zero. *)
Theorem session_buffers_stay_bounded (duration_minutes : Z) (now : datetime)
        (start_time : Q) (schedule : list TickEnv) (finish_now : datetime)
        (e0 e : Engine) :
  monitoring_session duration_minutes now start_time schedule finish_now e0
  = Some e ->
  let d := monitoring_data e in
  (List.length (memory_usage d) <= List.length (cpu_usage d)
   <= List.length (timestamps d))%nat /\
  (List.length (cpu_temp d) <= List.length (cpu_usage d))%nat /\
  List.length (gpu_temp d) = List.length (gpu_usage d) /\
  (List.length (gpu_usage d) <= List.length (timestamps d))%nat /\
  Forall (fun t => Qeq_bool t 0 = false) (cpu_temp d).
Proof.
  unfold monitoring_session, monitoring_thread.
  set (end_time := (start_time + inject_Z (duration_minutes * 60))%Q).
  destruct (monitoring_loop_trace (fun _ => True)
              (fun _ f => buffers_bounded (monitoring_data (self f))) end_time
              (fun _ env f _ H => monitoring_tick_bounded env f H)
              (fun _ f H => H)
              schedule []
              (mkFrame (start_monitoring duration_minutes now e0) None))
    as (n & _ & H).
  - apply Forall_forall. auto.
  - simpl. unfold buffers_bounded. simpl. repeat split; auto.
  - destruct (monitoring_loop end_time schedule _) as [[|] f]; [|discriminate].
    intros [= <-]. exact H.
Qed.

Lemma session_buffers_stay_bounded_witness :
  exists e,
    monitoring_session 1 0 0 [pass_without_reading; pass_with_reading]
                       7000000 init = Some e /\
    (List.length (cpu_temp (monitoring_data e))
     <= List.length (cpu_usage (monitoring_data e)))%nat.
Proof.
  eexists. split; [vm_compute; reflexivity|].
  exact (proj1 (proj2 (session_buffers_stay_bounded
                         1 0 0 [pass_without_reading; pass_with_reading]
                         7000000 init _ eq_refl))).
Defined.

(** ** The CSV export *)

Lemma nth_error_combine_seq {A} (l : list A) : forall a i,
  nth_error (combine (seq a (List.length l)) l) i
  = option_map (fun x => ((a + i)%nat, x)) (nth_error l i).
Proof.
  induction l as [|x l IH]; intros a i; simpl.
  - now destruct i.
  - destruct i as [|i]; simpl.
    + now rewrite Nat.add_0_r.
    + rewrite IH. now rewrite Nat.add_succ_r.
Qed.

(** The rows of the export, by index. *)
Lemma save_monitoring_csv_rows d :
  timestamps d <> [] ->
  exists rows,
    save_monitoring_csv d = Some (csv_headers d, rows) /\
    List.length rows = List.length (timestamps d) /\
    forall i, nth_error rows i
              = option_map (csv_row d i) (nth_error (timestamps d) i).
Proof.
  intros Hts. unfold save_monitoring_csv.
  destruct (timestamps d) as [|t ts] eqn:E; [congruence|].
  eexists. split; [reflexivity|]. split.
  - rewrite length_map, length_combine, length_seq. lia.
  - intros i. rewrite nth_error_map, nth_error_combine_seq.
    destruct (nth_error (t :: ts) i); reflexivity.
Qed.

Lemma csv_row_length d i t :
  List.length (csv_row d i t) = List.length (csv_headers d).
Proof.
  unfold csv_row, csv_headers.
  destruct (nonempty (gpu_usage d)), (any_reading (cpu_temp d)),
    (nonempty (gpu_temp d)); reflexivity.
Qed.

Lemma nonempty_true {A} (l : list A) : nonempty l = true <-> l <> [].
Proof. destruct l; simpl; split; congruence. Qed.

(** X2: the export is refused exactly when there is no timestamp.
    Otherwise it has one row per timestamp, in order; every row has as
    many cells as the header has columns; a row starts with its timestamp,
    the CPU sample and the memory sample of the same index (an empty cell
    where the buffer is shorter); the GPU columns are present exactly when
    their buffers are not empty and the CPU temperature column exactly
    when some stored CPU temperature is not zero. *)
Theorem csv_rows_fit_header (d : MonitoringData) :
  match save_monitoring_csv d with
  | None => timestamps d = []
  | Some (headers, rows) =>
      timestamps d <> [] /\
      List.length rows = List.length (timestamps d) /\
      Forall (fun row => List.length row = List.length headers) rows /\
      (forall i row,
          nth_error rows i = Some row ->
          exists t, nth_error (timestamps d) i = Some t /\
                    nth_error row 0 = Some (CTime t) /\
                    nth_error row 1 = Some (cell_at (cpu_usage d) i) /\
                    nth_error row 2 = Some (cell_at (memory_usage d) i)) /\
      firstn 3 headers = ["Timestamp"; "CPU_Usage_%"; "Memory_Usage_%"] /\
      (In "GPU_Usage_%" headers <-> gpu_usage d <> []) /\
      (In "GPU_Temp_C" headers <-> gpu_temp d <> []) /\
      (In "CPU_Temp_C" headers <->
       exists t, In t (cpu_temp d) /\ Qeq_bool t 0 = false)
  end.
Proof.
  destruct (timestamps d) as [|t0 ts] eqn:E.
  - unfold save_monitoring_csv. now rewrite E.
  - destruct (save_monitoring_csv_rows d) as (rows & Hs & Hlen & Hnth);
      [congruence|].
    rewrite Hs. rewrite E in *.
    split; [discriminate|]. split; [exact Hlen|]. split; [|split].
    + apply Forall_forall. intros row Hin.
      apply In_nth_error in Hin. destruct Hin as (i & Hi).
      rewrite Hnth in Hi. destruct (nth_error (t0 :: ts) i); [|discriminate].
      injection Hi as <-. apply csv_row_length.
    + intros i row Hi. rewrite Hnth in Hi.
      destruct (nth_error (t0 :: ts) i) as [t|]; [|discriminate].
      injection Hi as <-. exists t. repeat split.
    + unfold csv_headers.
      rewrite <- !nonempty_true.
      assert (Hany : any_reading (cpu_temp d) = true <->
                     exists t, In t (cpu_temp d) /\ Qeq_bool t 0 = false).
      { unfold any_reading. rewrite existsb_exists.
        split; intros (t & Hin & Ht); exists t; split; auto.
        - now destruct (Qeq_bool t 0).
        - now rewrite Ht. }
      rewrite <- Hany.
      destruct (nonempty (gpu_usage d)), (any_reading (cpu_temp d)),
        (nonempty (gpu_temp d)); simpl;
        repeat split; try tauto; try discriminate;
        intros H; repeat destruct H as [H|H]; try discriminate; auto.
Qed.

Lemma csv_rows_fit_header_witness :
  nth_error [CTime 1000000; CNum 12.5; CNum 50; CNum 55] 1
  = Some (cell_at [12.5%Q; 12.5%Q] 0).
Proof.
  pose proof (csv_rows_fit_header
                {| cpu_usage := [12.5%Q; 12.5%Q]; gpu_usage := [];
                   memory_usage := [50%Q; 50%Q]; cpu_temp := [55%Q];
                   gpu_temp := []; timestamps := [1000000; 4000000] |}) as H.
  cbv beta iota delta [save_monitoring_csv timestamps] in H.
  destruct H as (_ & _ & _ & H & _).
  destruct (H 0%nat [CTime 1000000; CNum 12.5; CNum 50; CNum 55] eq_refl)
    as (t & _ & _ & H1 & _).
  exact H1.
Defined.

(** The buffers and the columns they are exported to. *)
Definition csv_columns (d : MonitoringData) : list (string * list Q) :=
  [("CPU_Usage_%", cpu_usage d); ("Memory_Usage_%", memory_usage d);
   ("GPU_Usage_%", gpu_usage d); ("CPU_Temp_C", cpu_temp d);
   ("GPU_Temp_C", gpu_temp d)].

Lemma any_reading_nonzero l :
  Forall (fun t => Qeq_bool t 0 = false) l -> l <> [] -> any_reading l = true.
Proof.
  destruct l as [|t l]; [congruence|]. intros H _. inversion H; subst.
  unfold any_reading. simpl. now rewrite H2.
Qed.

(** X3: the export of a session loses no sample: whatever the machines
    answered, the sample at index [i] of any buffer is written into row
    [i], under the header of its buffer. *)
Theorem session_csv_keeps_every_sample (duration_minutes : Z) (now : datetime)
        (start_time : Q) (schedule : list TickEnv) (finish_now : datetime)
        (e0 e : Engine) (name : string) (buffer : list Q) (i : nat) (x : Q) :
  monitoring_session duration_minutes now start_time schedule finish_now e0
  = Some e ->
  In (name, buffer) (csv_columns (monitoring_data e)) ->
  nth_error buffer i = Some x ->
  exists headers rows row j,
    save_monitoring_csv (monitoring_data e) = Some (headers, rows) /\
    nth_error rows i = Some row /\
    nth_error headers j = Some name /\
    nth_error row j = Some (CNum x).
Proof.
  intros Hs Hin Hx.
  destruct (monitoring_session_bounded _ _ _ _ _ _ _ Hs)
    as ((Hm & Hc) & Ht & Hgt & Hg & Hnz).
  set (d := monitoring_data e) in *.
  assert (Hi : (i < List.length buffer)%nat)
    by (apply nth_error_Some; congruence).
  assert (Hlen : (List.length buffer <= List.length (timestamps d))%nat).
  { simpl in Hin.
    repeat destruct Hin as [Hin|Hin]; try contradiction;
      injection Hin as <- <-; lia. }
  assert (Hts : timestamps d <> []).
  { intros E. rewrite E in Hlen. simpl in Hlen. lia. }
  destruct (save_monitoring_csv_rows d Hts) as (rows & Hsave & _ & Hnth).
  destruct (nth_error (timestamps d) i) as [t|] eqn:Et;
    [|apply nth_error_None in Et; lia].
  exists (csv_headers d), rows, (csv_row d i t).
  assert (Hrow : nth_error rows i = Some (csv_row d i t))
    by (rewrite Hnth, Et; reflexivity).
  assert (Hne : buffer <> []) by (intros E; rewrite E in Hi; simpl in Hi; lia).
  cut (exists j, nth_error (csv_headers d) j = Some name /\
                 nth_error (csv_row d i t) j = Some (CNum x)).
  { intros (j & Hj1 & Hj2). exists j. auto. }
  unfold csv_row, csv_headers, cell_at.
  simpl in Hin.
  destruct Hin as [Hin|[Hin|[Hin|[Hin|[Hin|[]]]]]]; injection Hin as <- <-.
  - exists 1%nat. rewrite Hx. repeat split; auto.
  - exists 2%nat. rewrite Hx. repeat split; auto.
  - apply nonempty_true in Hne. rewrite Hne.
    exists 3%nat. simpl. rewrite Hx. repeat split; auto.
  - rewrite (any_reading_nonzero _ Hnz Hne).
    destruct (nonempty (gpu_usage d));
      [exists 4%nat|exists 3%nat]; simpl; rewrite Hx; repeat split; auto.
  - apply nonempty_true in Hne. rewrite Hne.
    destruct (nonempty (gpu_usage d)), (any_reading (cpu_temp d));
      [exists 5%nat|exists 4%nat|exists 4%nat|exists 3%nat];
      simpl; rewrite Hx; repeat split; auto.
Qed.

Lemma session_csv_keeps_every_sample_witness :
  exists headers rows row j,
    save_monitoring_csv
      {| cpu_usage := [12.5%Q; 12.5%Q]; gpu_usage := [];
         memory_usage := [50%Q; 50%Q]; cpu_temp := [55%Q];
         gpu_temp := []; timestamps := [1000000; 4000000] |}
    = Some (headers, rows) /\
    nth_error rows 0 = Some row /\
    nth_error headers j = Some "CPU_Temp_C" /\
    nth_error row j = Some (CNum 55).
Proof.
  refine (session_csv_keeps_every_sample
            1 0 0 [pass_without_reading; pass_with_reading] 7000000 init
            _ "CPU_Temp_C" [55%Q] 0 55 eq_refl _ eq_refl).
  simpl. tauto.
Defined.

(** ** Sessions on a machine whose psutil answers *)

Definition psutil_answers (env : TickEnv) : Prop :=
  lib_psutil (tick_provider env) = true /\
  is_ok (cpu_percent (tick_provider env)) = true /\
  is_ok (virtual_memory (tick_provider env)) = true.

(** [x] is the CPU load read in the pass [env]. *)
Definition cpu_reading_of (env : TickEnv) (x : Q) : Prop :=
  cpu_percent (tick_provider env) = Ok x.

(** [m] is the memory use read in the pass [env]. *)
Definition memory_reading_of (env : TickEnv) (m : Q) : Prop :=
  exists mem, virtual_memory (tick_provider env) = Ok mem /\ vm_percent mem = m.

(** X4: when psutil answers the CPU and the memory query in every pass,
    the session records one CPU sample and one memory sample per
    timestamp, and the entries at the same index come from the same pass. *)
Theorem healthy_session_is_aligned (duration_minutes : Z) (now : datetime)
        (start_time : Q) (schedule : list TickEnv) (finish_now : datetime)
        (e0 e : Engine) :
  Forall psutil_answers schedule ->
  monitoring_session duration_minutes now start_time schedule finish_now e0
  = Some e ->
  let d := monitoring_data e in
  exists n,
    (n <= List.length schedule)%nat /\
    timestamps d = List.map tick_now (firstn n schedule) /\
    Forall2 cpu_reading_of (firstn n schedule) (cpu_usage d) /\
    Forall2 memory_reading_of (firstn n schedule) (memory_usage d).
Proof.
  intros Hgood. unfold monitoring_session, monitoring_thread.
  set (end_time := (start_time + inject_Z (duration_minutes * 60))%Q).
  set (P := fun done (f : Frame (option Q)) =>
              timestamps (monitoring_data (self f)) = List.map tick_now done /\
              Forall2 cpu_reading_of done (cpu_usage (monitoring_data (self f))) /\
              Forall2 memory_reading_of done
                      (memory_usage (monitoring_data (self f)))).
  assert (Htick : forall done env f, psutil_answers env -> P done f ->
                    P (done ++ [env])%list (snd (monitoring_tick env f))).
  { intros done env f (Hps & Hc & Hm) (Hts & Hcu & Hmu).
    destruct (cpu_percent (tick_provider env)) as [c|] eqn:Ec; [|discriminate].
    destruct (virtual_memory (tick_provider env)) as [mem|] eqn:Em;
      [|discriminate].
    rewrite (monitoring_tick_healthy env f c mem Hps Ec Em).
    unfold P.
    cbn [snd self monitoring_data timestamps cpu_usage memory_usage].
    rewrite Hts, map_app. split; [reflexivity|].
    split; apply Forall2_app; auto; repeat constructor.
    exists mem. auto. }
  assert (Hstop : forall done f, P done f ->
                    P done (mkFrame (stop_monitoring (self f)) (local f))).
  { intros done f H. exact H. }
  assert (H0 : P [] (mkFrame (start_monitoring duration_minutes now e0) None)).
  { unfold P. simpl. repeat split; constructor. }
  destruct (monitoring_loop_trace psutil_answers P end_time Htick Hstop
              schedule [] _ Hgood H0) as (n & Hn & H).
  destruct (monitoring_loop end_time schedule _) as [[|] f]; [|discriminate].
  intros [= <-]. exists n. unfold P in H. simpl in H. simpl. tauto.
Qed.

Lemma healthy_session_is_aligned_witness :
  exists e n,
    monitoring_session 1 0 0 [pass_without_reading; pass_with_reading]
                       7000000 init = Some e /\
    timestamps (monitoring_data e)
    = List.map tick_now (firstn n [pass_without_reading; pass_with_reading]).
Proof.
  assert (Hgood : Forall psutil_answers [pass_without_reading; pass_with_reading])
    by (repeat constructor).
  destruct (healthy_session_is_aligned
              1 0 0 [pass_without_reading; pass_with_reading] 7000000 init _
              Hgood eq_refl) as (n & _ & Hts & _).
  eexists. exists n. split; [reflexivity|exact Hts].
Defined.

(** X5: a pass on a machine whose psutil answers adds a line to the log
    for a CPU load above 80 and then a line for a memory use above 85, and
    nothing else; a reading of exactly 80 or 85 adds no line. *)
Theorem pass_logs_high_usage (env : TickEnv) (f : Frame (option Q))
        (c : Q) (mem : svmem) :
  lib_psutil (tick_provider env) = true ->
  cpu_percent (tick_provider env) = Ok c ->
  virtual_memory (tick_provider env) = Ok mem ->
  let log := monitoring_log (self f) in
  let log' := monitoring_log (self (snd (monitoring_tick env f))) in
  let m := vm_percent mem in
  ((c <= 80)%Q -> (m <= 85)%Q -> log' = log) /\
  ((80 < c)%Q -> (m <= 85)%Q ->
   log' = (log ++ [cpu_high_line (tick_now env) c])%list) /\
  ((c <= 80)%Q -> (85 < m)%Q ->
   log' = (log ++ [ram_high_line (tick_now env) m])%list) /\
  ((80 < c)%Q -> (85 < m)%Q ->
   log' = (log ++ [cpu_high_line (tick_now env) c;
                   ram_high_line (tick_now env) m])%list).
Proof.
  intros Hps Hc Hm. cbv zeta.
  rewrite (monitoring_tick_healthy env f c mem Hps Hc Hm).
  cbn [snd self monitoring_log]. unfold high_usage_lines.
  repeat split; intros H1 H2.
  - apply gt_false in H1, H2. rewrite H1, H2. apply List.app_nil_r.
  - apply gt_true in H1. apply gt_false in H2. now rewrite H1, H2.
  - apply gt_false in H1. apply gt_true in H2. now rewrite H1, H2.
  - apply gt_true in H1, H2. now rewrite H1, H2.
Qed.

Lemma pass_logs_high_usage_witness :
  monitoring_log
    (self (snd (monitoring_tick pass_with_reading
                  (mkFrame (start_monitoring 1 0 init) None))))
  = monitoring_log (start_monitoring 1 0 init).
Proof.
  refine (proj1 (pass_logs_high_usage pass_with_reading
                   (mkFrame (start_monitoring 1 0 init) None) 12.5
                   {| vm_total := 17179869184; vm_available := 8589934592;
                      vm_used := 8589934592; vm_free := 4294967296;
                      vm_percent := 50;
                      vm_cached := Some 1073741824; vm_buffers := None |}
                   eq_refl eq_refl eq_refl) _ _); simpl; lra.
Defined.

(** ** Sessions on a machine without psutil *)

(** X6: on a machine without psutil every pass still appends its timestamp,
    but no CPU sample, memory sample or CPU temperature is ever recorded,
    and every pass puts one error line into the log: the comparison
    [cpu_percent > 80] fails on the variable that was never assigned.  The
    text at the end of the session then has no statistics. *)
Theorem session_without_psutil (duration_minutes : Z) (now : datetime)
        (start_time : Q) (schedule : list TickEnv) (finish_now : datetime)
        (e0 e : Engine) :
  Forall (fun env => lib_psutil (tick_provider env) = false) schedule ->
  monitoring_session duration_minutes now start_time schedule finish_now e0
  = Some e ->
  let d := monitoring_data e in
  cpu_usage d = [] /\ memory_usage d = [] /\ cpu_temp d = [] /\
  exists lines,
    monitoring_log e
    = (monitoring_log (start_monitoring duration_minutes now e0)
       ++ lines ++ [end_msg finish_now d])%list /\
    List.length lines = List.length (timestamps d) /\
    Forall (fun line => exists t msg, line = error_line t msg) lines /\
    summary_line "CPU" (cpu_usage d) = "" /\
    summary_line "RAM" (memory_usage d) = "".
Proof.
  intros Hbad. unfold monitoring_session, monitoring_thread.
  set (end_time := (start_time + inject_Z (duration_minutes * 60))%Q).
  set (e1 := start_monitoring duration_minutes now e0).
  set (P := fun (done : list TickEnv) (f : Frame (option Q)) =>
              local f = None /\
              cpu_usage (monitoring_data (self f)) = [] /\
              memory_usage (monitoring_data (self f)) = [] /\
              cpu_temp (monitoring_data (self f)) = [] /\
              exists lines,
                monitoring_log (self f) = (monitoring_log e1 ++ lines)%list /\
                List.length lines
                = List.length (timestamps (monitoring_data (self f))) /\
                Forall (fun line => exists t msg, line = error_line t msg)
                       lines).
  assert (Htick : forall done env f,
                    lib_psutil (tick_provider env) = false -> P done f ->
                    P (done ++ [env])%list (snd (monitoring_tick env f))).
  { intros done env f Hps (Hloc & Hc & Hm & Ht & lines & Hlog & Hlen & Hall).
    destruct (monitoring_tick_without_psutil env f Hps Hloc) as (msg & ->).
    unfold P.
    cbn [snd self local monitoring_data monitoring_log timestamps cpu_usage
         memory_usage cpu_temp].
    repeat split; auto.
    exists (lines ++ [error_line (tick_now_except env) msg])%list.
    split; [rewrite Hlog; now rewrite <- List.app_assoc|].
    split; [rewrite !length_app, Hlen; reflexivity|].
    apply Forall_app. split; [exact Hall|]. repeat constructor. eauto. }
  assert (Hstop : forall done f, P done f ->
                    P done (mkFrame (stop_monitoring (self f)) (local f))).
  { intros done f H. exact H. }
  assert (H0 : P [] (mkFrame e1 None)).
  { unfold P. cbn [self local]. repeat split; auto. exists [].
    split; [symmetry; apply List.app_nil_r|].
    split; [reflexivity|constructor]. }
  destruct (monitoring_loop_trace _ P end_time Htick Hstop
              schedule [] _ Hbad H0) as (n & Hn & H).
  destruct (monitoring_loop end_time schedule _) as [[|] f]; [|discriminate].
  intros [= <-]. cbv zeta.
  destruct H as (_ & Hc & Hm & Ht & lines & Hlog & Hlen & Hall).
  cbn [snd List.app firstn] in Hc, Hm, Ht, Hlog, Hlen.
  unfold finish_monitoring.
  cbn [monitoring_data set_monitoring set_monitoring_log monitoring_log].
  rewrite Hc, Hm, Ht. repeat split; auto.
  exists lines. rewrite Hlog, <- List.app_assoc. auto.
Qed.

Lemma session_without_psutil_witness :
  exists e,
    monitoring_session 1 0 0 [pass_without_psutil] 7000000 init = Some e /\
    cpu_usage (monitoring_data e) = [].
Proof.
  eexists. split; [vm_compute; reflexivity|].
  refine (proj1 (session_without_psutil 1 0 0 [pass_without_psutil] 7000000
                   init _ _ eq_refl)).
  repeat constructor.
Defined.

(** ** The end of a session by expiry *)

Lemma monitoring_loop_expires end_time late rest :
  (end_time <= tick_time late)%Q ->
  forall before (f : Frame (option Q)),
    monitoring (self f) = true ->
    Forall (fun env => stop_requested env = false /\
                       (tick_time env < end_time)%Q) before ->
    let run := monitoring_loop end_time (before ++ late :: rest) f in
    fst run = true /\
    monitoring (self (snd run)) = true /\
    timestamps (monitoring_data (self (snd run)))
    = (timestamps (monitoring_data (self f)) ++ List.map tick_now before)%list.
Proof.
  intros Hlate. apply gt_false in Hlate.
  induction before as [|env before IH]; intros f Hmon Hall; cbv zeta.
  - simpl. rewrite Hmon, Hlate. simpl. now rewrite List.app_nil_r.
  - inversion Hall as [|? ? (Hstop & Ht) Hrest]; subst.
    apply gt_true in Ht. simpl. rewrite Hmon, Ht, Hstop.
    destruct (monitoring_tick_timestamps env f) as (Hts & Hm & _).
    destruct (IH (snd (monitoring_tick env f))) as (H1 & H2 & H3); auto.
    { now rewrite Hm. }
    split; [exact H1|]. split; [exact H2|].
    rewrite H3, Hts. now rewrite <- List.app_assoc.
Qed.

(** X7: a session that nobody stops ends by expiry: the passes run while
    the clock reading at the top of the loop is before the end time, start
    time plus the duration in minutes; the first pass whose reading is at
    the end time or later does not begin, and no pass after it is
    looked at.  The session then ends with the flag cleared and one
    timestamp for each pass that ran. *)
Theorem session_expires_at_end_time (duration_minutes : Z) (now : datetime)
        (start_time : Q) (before rest : list TickEnv) (late : TickEnv)
        (finish_now : datetime) (e0 : Engine) :
  let end_time := (start_time + inject_Z (duration_minutes * 60))%Q in
  Forall (fun env => stop_requested env = false /\
                     (tick_time env < end_time)%Q) before ->
  (end_time <= tick_time late)%Q ->
  exists e,
    monitoring_session duration_minutes now start_time
                       (before ++ late :: rest) finish_now e0 = Some e /\
    monitoring e = false /\
    timestamps (monitoring_data e) = List.map tick_now before /\
    monitoring_session duration_minutes now start_time
                       (before ++ [late]) finish_now e0 = Some e.
Proof.
  cbv zeta. intros Hall Hlate.
  unfold monitoring_session, monitoring_thread.
  set (end_time := (start_time + inject_Z (duration_minutes * 60))%Q) in *.
  set (f0 := mkFrame (start_monitoring duration_minutes now e0) (@None Q)).
  destruct (monitoring_loop_expires end_time late rest Hlate before f0 eq_refl Hall)
    as (H1 & H2 & H3).
  destruct (monitoring_loop_expires end_time late [] Hlate before f0 eq_refl Hall)
    as (H1' & _ & _).
  assert (Hsame : snd (monitoring_loop end_time (before ++ [late]) f0)
                  = snd (monitoring_loop end_time (before ++ late :: rest) f0)).
  { clear H1 H2 H3 H1'. generalize f0. apply gt_false in Hlate.
    induction before as [|env before IH]; intros f; simpl.
    - destruct (monitoring (self f)); [|reflexivity]. now rewrite Hlate.
    - inversion Hall; subst.
      destruct (monitoring (self f)); [|reflexivity].
      destruct (Py.gt end_time (tick_time env)); [|reflexivity].
      now apply IH. }
  destruct (monitoring_loop end_time (before ++ late :: rest) f0) as [b f].
  destruct (monitoring_loop end_time (before ++ [late]) f0) as [b' f'].
  simpl in *. subst b b' f'.
  eexists. split; [reflexivity|]. split; [reflexivity|].
  split; [exact H3|reflexivity].
Qed.

Lemma session_expires_at_end_time_witness :
  exists e,
    monitoring_session 1 0 0
      [ {| tick_provider := desktop 55 50; tick_time := 0; tick_now := 1000000;
           tick_now_except := 1000000; stop_requested := false |};
        {| tick_provider := desktop 55 50; tick_time := 60;
           tick_now := 61000000; tick_now_except := 61000000;
           stop_requested := false |} ] 62000000 init = Some e /\
    timestamps (monitoring_data e) = [1000000].
Proof.
  destruct (session_expires_at_end_time 1 0 0
              [ {| tick_provider := desktop 55 50; tick_time := 0;
                   tick_now := 1000000; tick_now_except := 1000000;
                   stop_requested := false |} ] []
              {| tick_provider := desktop 55 50; tick_time := 60;
                 tick_now := 61000000; tick_now_except := 61000000;
                 stop_requested := false |} 62000000 init)
    as (e & He & _ & Hts & _).
  - repeat constructor.
  - unfold Qle. simpl. lia.
  - exists e. split; [exact He|exact Hts].
Defined.

(** ** The statistics of a buffer *)





(** ** The CPU temperature reading *)

(** A sensor that the loop over [sensors.items()] passes over: it is not a
    CPU sensor, or it has no entries. *)
Definition passed_over (sensor : string * list Q) : Prop :=
  is_cpu_sensor (fst sensor) = false \/ snd sensor = [].

Lemma first_cpu_reading_some sensors t :
  first_cpu_reading sensors = Some t <->
  exists pre name rest post,
    sensors = (pre ++ (name, t :: rest) :: post)%list /\
    is_cpu_sensor name = true /\
    Forall passed_over pre.
Proof.
  induction sensors as [|[name entries] sensors IH]; simpl.
  - split; [discriminate|]. intros (pre & n & r & post & H & _).
    destruct pre; discriminate.
  - split.
    + destruct (is_cpu_sensor name) eqn:En.
      * destruct entries as [|t0 rest].
        -- intros H. apply IH in H.
           destruct H as (pre & n & r & post & -> & Hn & Hpre).
           exists ((name, []) :: pre), n, r, post. repeat split; auto.
           constructor; auto. now right.
        -- intros [= <-]. exists [], name, rest, sensors.
           repeat split; auto.
      * intros H. apply IH in H.
        destruct H as (pre & n & r & post & -> & Hn & Hpre).
        exists ((name, entries) :: pre), n, r, post. repeat split; auto.
        constructor; auto. now left.
    + intros (pre & n & r & post & H & Hn & Hpre).
      destruct pre as [|x pre]; simpl in H.
      * injection H as -> -> ->. now rewrite Hn.
      * injection H as <- ->. inversion Hpre as [|? ? Hx Hpre']; subst.
        assert (Hrec : first_cpu_reading (pre ++ (n, t :: r) :: post) = Some t)
          by (apply IH; exists pre, n, r, post; auto).
        destruct Hx as [Hx|Hx]; simpl in Hx.
        -- now rewrite Hx.
        -- subst entries. now destruct (is_cpu_sensor name).
Qed.

Lemma first_cpu_reading_none sensors :
  first_cpu_reading sensors = None <-> Forall passed_over sensors.
Proof.
  induction sensors as [|[name entries] sensors IH]; simpl.
  - split; auto.
  - split.
    + destruct (is_cpu_sensor name) eqn:En.
      * destruct entries; [|discriminate].
        intros H. constructor; [now right|now apply IH].
      * intros H. constructor; [now left|now apply IH].
    + intros H. inversion H as [|? ? Hx Hrest]; subst.
      apply IH in Hrest. destruct Hx as [Hx|Hx]; simpl in Hx.
      * now rewrite Hx.
      * subst entries. now destruct (is_cpu_sensor name).
Qed.

(** X9: [get_cpu_temperature] never raises and changes nothing.  It
    returns the first entry of the first sensor, in the order psutil lists
    them, whose name contains "coretemp" or "cpu" (in any case) and that
    has entries; and it returns [None] when psutil is missing, when the
    sensor query raises, or when every sensor is passed over. *)
Theorem get_cpu_temperature_spec {S : Type} (p : Provider) (s : S) :
  snd (get_cpu_temperature p s) = s /\
  exists o,
    fst (get_cpu_temperature p s) = Ok o /\
    (forall t,
        o = Some t <->
        lib_psutil p = true /\
        exists pre name rest post,
          sensors_temperatures p
          = Ok (pre ++ (name, t :: rest) :: post)%list /\
          is_cpu_sensor name = true /\
          Forall passed_over pre) /\
    (o = None <->
     lib_psutil p = false \/
     (exists x, sensors_temperatures p = Raise x) \/
     (exists sensors, sensors_temperatures p = Ok sensors /\
                      Forall passed_over sensors)).
Proof.
  unfold get_cpu_temperature, try_except, bind, call, ret.
  destruct (lib_psutil p).
  - destruct (sensors_temperatures p) as [sensors|x]; simpl.
    + split; [reflexivity|]. eexists. split; [reflexivity|]. split.
      * intros t. rewrite first_cpu_reading_some. split.
        -- intros (pre & n & r & post & -> & H). split; [reflexivity|].
           exists pre, n, r, post. auto.
        -- intros (_ & pre & n & r & post & [= ->] & H).
           exists pre, n, r, post. auto.
      * rewrite first_cpu_reading_none. split.
        -- intros H. right. right. eauto.
        -- intros [H|[(x & H)|(s' & [= <-] & H)]]; try discriminate. exact H.
    + split; [reflexivity|]. exists None. split; [reflexivity|]. split.
      * intros t. split; [discriminate|].
        intros (_ & pre & n & r & post & H & _). discriminate.
      * split; auto. intros _. right. left. eauto.
  - simpl. split; [reflexivity|]. exists None. split; [reflexivity|]. split.
    + intros t. split; [discriminate|]. intros (H & _). discriminate.
    + split; auto.
Qed.

Lemma get_cpu_temperature_spec_witness :
  fst (get_cpu_temperature (desktop 55 50) tt) = Ok (Some 55%Q).
Proof.
  destruct (@get_cpu_temperature_spec unit (desktop 55 50) tt)
    as (_ & o & Ho & Hsome & _).
  rewrite Ho. f_equal. apply Hsome. split; [reflexivity|].
  exists [("acpitz", [40%Q])], "coretemp", [50%Q], [].
  split; [reflexivity|]. split; [reflexivity|].
  constructor; [left; reflexivity|constructor].
Defined.

(** The two blocks of [get_cpu_info] that come before the temperature,
    when all their reads succeed, leave no temperature in the dictionary. *)
Lemma cpu_basics_run_no_temperature p :
  cpu_basics_ok p ->
  forall (k : M (Frame dict) unit) e,
  exists loc',
    Dict.get "temperatura" loc' = None /\
    (when (lib_psutil p) (cpu_psutil_block p) ;;
     when (lib_cpuinfo p) (cpu_cpuinfo_block p) ;; k)
      (mkFrame e [("erro", VStr "Informações não disponíveis")])
    = k (mkFrame e loc').
Proof.
  intros (Hps & H1 & H2 & H3 & H4 & H5) k e.
  unfold cpu_psutil_block, cpu_cpuinfo_block, cpu_freq_field, when.
  rewrite Hps.
  destruct (cpu_percent p); try discriminate.
  destruct (cpu_count_physical p); try discriminate.
  destruct (cpu_count_logical p); try discriminate.
  destruct (cpu_freq p) as [[f|]|]; try discriminate;
    (destruct (lib_cpuinfo p);
     [ destruct (cpuinfo_get_cpu_info p);
       [|specialize (H5 eq_refl); discriminate] |]);
    unfold bind, call, ret, modify_local, modify; simpl;
    eexists; (split; [|reflexivity]); reflexivity.
Qed.

(** X10: the temperature that the diagnostic shows for the CPU is the
    reading that the monitor samples: on a machine whose basic CPU reads
    and sensor query succeed, the entry "temperatura" of [get_cpu_info] is
    the reading of [get_cpu_temperature] printed with one decimal, and it
    is absent exactly when the monitor has no reading. *)
Theorem diagnostic_shows_monitored_temperature {S : Type} (p : Provider)
        (e : Engine) (s : S) :
  cpu_basics_ok p ->
  is_ok (sensors_temperatures p) = true ->
  exists d o,
    fst (get_cpu_info p e) = Ok d /\
    fst (get_cpu_temperature p s) = Ok o /\
    Dict.get "temperatura" d = option_map (fun t => fmt 1 t "°C") o.
Proof.
  intros Hb Hs.
  destruct (sensors_temperatures p) as [sensors|] eqn:Es; [|discriminate].
  assert (Hps : lib_psutil p = true) by apply Hb.
  assert (Ht : get_cpu_temperature p s = (Ok (first_cpu_reading sensors), s)).
  { unfold get_cpu_temperature, try_except, bind, call, ret.
    now rewrite Hps, Es. }
  cut (exists d, fst (get_cpu_info p e) = Ok d /\
                 Dict.get "temperatura" d
                 = option_map (fun t => fmt 1 t "°C") (first_cpu_reading sensors)).
  { intros (d & Hd1 & Hd2). exists d, (first_cpu_reading sensors).
    rewrite Ht. auto. }
  unfold get_cpu_info, method, try_except.
  destruct (cpu_basics_run_no_temperature p Hb (cpu_temperature_block p) e)
    as (loc' & Hloc & ->).
  unfold cpu_temperature_block, try_except, when.
  rewrite Hps. unfold bind at 1. unfold call at 1. rewrite Es.
  assert (Hfe := for_each_cpu_sensor sensors (mkFrame e loc')).
  assert (Hrun : (match sensors with
                  | [] => ret tt
                  | _ => for_each sensors cpu_sensor_step
                  end) (mkFrame e loc')
                 = for_each sensors cpu_sensor_step (mkFrame e loc'))
    by (destruct sensors; reflexivity).
  rewrite Hrun, Hfe.
  destruct (first_cpu_reading sensors) as [t|]; simpl.
  - destruct (cpu_temperature_check_ok t
                (mkFrame e (Dict.set "temperatura" (fmt 1 t "°C") loc')))
      as (_ & Hl).
    destruct (cpu_temperature_check t _) as [r f']. simpl in *.
    eexists. split; [reflexivity|].
    rewrite Hl, get_set. reflexivity.
  - eexists. split; [reflexivity|]. exact Hloc.
Qed.

Lemma diagnostic_shows_monitored_temperature_witness :
  exists d o,
    fst (get_cpu_info (desktop 55 50) init) = Ok d /\
    fst (get_cpu_temperature (desktop 55 50) tt) = Ok o /\
    Dict.get "temperatura" d = option_map (fun t => fmt 1 t "°C") o.
Proof.
  apply (@diagnostic_shows_monitored_temperature unit (desktop 55 50) init tt).
  - repeat split. discriminate.
  - reflexivity.
Defined.

(** ** Divisions by zero in the getters *)











(** X12: a GPU that reports a total memory of zero makes [get_gpu_info]
    fail on the division for its memory use: the result carries the error
    only, and no alert is appended, whatever the temperature of the GPU. *)
Theorem gpu_without_memory_reports_error (p : Provider) (e : Engine)
        (gpu : GPU) (others : list GPU) :
  lib_GPUtil p = true ->
  getGPUs p = Ok (gpu :: others) ->
  (memoryTotal gpu == 0)%Q ->
  get_gpu_info p e
  = (Ok [("erro", VStr ("Erro ao obter informações da GPU: "
                        ++ float_div_msg))],
     e).
Proof.
  intros Hlib Hg Hz. apply Qeq_bool_iff in Hz.
  unfold get_gpu_info, method, try_except, gpu_snapshot, pydiv.
  rewrite Hlib. unfold bind at 1. unfold call at 1. rewrite Hg.
  unfold bind at 1. unfold bind at 1. rewrite Hz. reflexivity.
Qed.

Lemma gpu_without_memory_reports_error_witness :
  alerts (snd (get_gpu_info
                 (with_gpus (Ok [{| gpu_name := "GeForce"; memoryTotal := 0;
                                    memoryUsed := 0; memoryFree := 0;
                                    gpu_load := 0.5; gpu_temperature := 95;
                                    gpu_uuid := "GPU-0"; gpu_driver := None |}])
                            (desktop 55 50)) init)) = [].
Proof.
  rewrite (gpu_without_memory_reports_error
             (with_gpus (Ok [{| gpu_name := "GeForce"; memoryTotal := 0;
                                memoryUsed := 0; memoryFree := 0;
                                gpu_load := 0.5; gpu_temperature := 95;
                                gpu_uuid := "GPU-0"; gpu_driver := None |}])
                        (desktop 55 50))
             init _ [] eq_refl eq_refl); reflexivity.
Defined.

(** ** The percentages that the analysis reads back *)

Lemma round_half_even_close x :
  (Qabs (inject_Z (Py.round_half_even x) - x) <= 1 # 2)%Q.
Proof.
  destruct x as [n d]. unfold Py.round_half_even. cbn [Qnum Qden].
  pose proof (Z.div_mod n (Zpos d) ltac:(discriminate)) as Hdm.
  pose proof (Z.mod_pos_bound n (Zpos d) ltac:(reflexivity)) as Hm.
  set (f := n / Zpos d) in *. set (m := n mod Zpos d) in *.
  apply Qabs_Qle_condition.
  assert (Hcases : forall r, (r = f \/ r = f + 1) ->
                             (2 * m <= Zpos d -> r = f \/ 2 * m = Zpos d) ->
                             (Zpos d <= 2 * m -> r = f + 1 \/ 2 * m = Zpos d) ->
                             (- (1 # 2) <= inject_Z r - (n # d))%Q /\
                             (inject_Z r - (n # d) <= 1 # 2)%Q).
  { intros r Hr Hlo Hhi. unfold Qle, Qminus, Qplus, Qopp, inject_Z. simpl.
    split; nia. }
  destruct (Z.compare_spec (2 * m) (Zpos d)) as [E|E|E].
  - destruct (Z.even f); apply Hcases; auto; lia.
  - apply Hcases; auto; lia.
  - apply Hcases; auto; lia.
Qed.

Lemma tenths_close q : (Qabs (tenths q - q) <= 1 # 20)%Q.
Proof.
  unfold tenths, Py.scaled.
  change (inject_Z (10 ^ Z.of_nat 1)) with 10%Q.
  set (x := (Qabs q * 10)%Q).
  pose proof (round_half_even_close x) as H.
  apply Qabs_Qle_condition in H. destruct H as [H1 H2].
  set (r := Py.round_half_even x) in *.
  assert (Hx : (0 <= x)%Q).
  { unfold x. pose proof (Qabs_nonneg q). lra. }
  assert (Hr : (0 <= r)%Z).
  { assert (Hh : (- (1 # 2) <= inject_Z r)%Q) by lra.
    unfold Qle, inject_Z in Hh. simpl in Hh. lia. }
  rewrite Z2N.id by exact Hr.
  assert (Hv : (r # 10 == inject_Z r * (1 # 10))%Q).
  { unfold Qeq, Qmult, inject_Z. simpl. lia. }
  apply Qabs_Qle_condition.
  destruct (Py.gt 0 q) eqn:G.
  - apply gt_true in G.
    assert (Hq : (x == - q * 10)%Q).
    { unfold x. rewrite Qabs_neg by lra. reflexivity. }
    rewrite Hv. lra.
  - apply gt_false in G.
    assert (Hq : (x == q * 10)%Q).
    { unfold x. rewrite Qabs_pos by lra. reflexivity. }
    rewrite Hv. lra.
Qed.

(** X13: the usage that the health analysis reads back from the text of a
    getter, [float(f"{q:.1f}%".replace("%", ""))], is always a number (the
    conversion never raises), and it is the reading rounded to one
    decimal: it differs from the reading by at most 0.05. *)
Theorem percent_text_round_trip {S : Type} (q : Q) (s : S) :
  exists shown,
    percent_of (fmt 1 q "%") s = (Ok shown, s) /\
    (Qabs (shown - q) <= 1 # 20)%Q /\
    Py.parse_float (Py.remove_char "%" (Py.format_fixed 1 q ++ "%"))
    = Some shown.
Proof.
  exists (tenths q). rewrite percent_of_fmt1.
  split; [reflexivity|]. split; [apply tenths_close|apply parse_float_fixed1].
Qed.

(** X14: the recommendation to add RAM follows the memory use as the report
    prints it, not the reading itself: after a full diagnostic on a machine
    that reads its memory, the recommendation is made when the use rounded
    to one decimal is above 85, and no recommendation is made for the RAM
    when it is 85 or less; the rounded value is within 0.05 of the
    reading. *)
Theorem memory_recommendation_follows_printed_usage (p : Provider)
        (e : Engine) (mem : svmem) :
  is_ok (platform_system p) = true ->
  is_ok (platform_release p) = true ->
  lib_psutil p = true ->
  virtual_memory p = Ok mem ->
  let shown := tenths (vm_percent mem) in
  let after := run_complete_diagnosis p e in
  ((85 < shown)%Q ->
   In (memory_recommendation shown) (recommendations after)) /\
  ((shown <= 85)%Q ->
   forall r, In r (recommendations after) -> rec_componente r <> "RAM") /\
  (Qabs (shown - vm_percent mem) <= 1 # 20)%Q.
Proof.
  intros Hps Hpr Hlib Hvm. cbv zeta.
  split; [|split; [|apply tenths_close]].
  - intros Hgt. apply gt_true in Hgt.
    destruct (run_reaches_analysis p e Hps Hpr) as (e' & ->).
    now apply analyze_recommends_memory.
  - intros Hle.
    destruct (get_memory_info_reading p mem (temp_limits e) Hlib Hvm)
      as (lr & _ & _ & _ & _ & Hspec).
    assert (H : ehoare (temp_limits e) (fun _ => True)
                       (fun r => rec_componente r <> "RAM") true top
                       (diagnosis_body p)).
    { etrack_with Hspec; auto; try (simpl; discriminate).
      all: match goal with
           | E : Py.gt _ _ = true |- rec_componente _ <> _ =>
               exfalso; apply gt_true in E; lra
           end. }
    destruct (run_complete_diagnosis_tracks p _ _ _ H e (reads_refl e))
      as (_ & HR).
    rewrite Forall_forall in HR. exact HR.
Qed.

Lemma memory_recommendation_follows_printed_usage_witness :
  forallb (fun r => negb (String.eqb (rec_componente r) "RAM"))
          (recommendations
             (run_complete_diagnosis (desktop 60 (8504 # 100)) init)) = true.
Proof.
  apply forallb_forall. intros r Hr.
  assert (Hle : (tenths (8504 # 100) <= 85)%Q)
    by (vm_compute; discriminate).
  pose proof (proj1 (proj2 (memory_recommendation_follows_printed_usage
                              (desktop 60 (8504 # 100)) init
                              {| vm_total := 17179869184;
                                 vm_available := 8589934592;
                                 vm_used := 8589934592; vm_free := 4294967296;
                                 vm_percent := 8504 # 100;
                                 vm_cached := Some 1073741824;
                                 vm_buffers := None |}
                              eq_refl eq_refl eq_refl eq_refl)) Hle r Hr) as H.
  apply String.eqb_neq in H. now rewrite H.
Defined.

(** ** The kinds of alerts and recommendations *)

(** The types and priorities of alert that the getters pair, and the
    components they name. *)
Definition known_alert (a : Alert) : bool :=
  existsb (fun k => String.eqb (tipo a) (fst k)
                    && String.eqb (prioridade a) (snd k))
          [("CRÍTICO", "ALTA"); ("AVISO", "MÉDIA"); ("AVISO", "BAIXA")]
  && existsb (String.eqb (componente a)) ["CPU"; "GPU"; "RAM"; "SWAP"; "DISCO"].

Definition known_recommendation (r : Recommendation) : bool :=
  existsb (String.eqb (rec_prioridade r)) priorities.

Lemma get_cpu_info_known p lim :
  getter_spec lim (fun a => known_alert a = true) (fun _ => True)
              (get_cpu_info p).
Proof.
  unfold get_cpu_info. apply getter_shape; auto.
  track; try reflexivity; auto.
Qed.

Lemma get_gpu_info_known p lim :
  getter_spec lim (fun a => known_alert a = true) (fun _ => True)
              (get_gpu_info p).
Proof.
  unfold get_gpu_info. apply getter_shape; auto.
  track; try reflexivity; auto.
Qed.

Lemma get_memory_info_known p lim :
  getter_spec lim (fun a => known_alert a = true) (fun _ => True)
              (get_memory_info p).
Proof.
  unfold get_memory_info. apply getter_shape; auto.
  track; try reflexivity; auto.
Qed.

Lemma get_storage_info_known p lim :
  getter_spec lim (fun a => known_alert a = true) (fun _ => True)
              (get_storage_info p).
Proof.
  unfold get_storage_info. apply getter_shape; auto.
  track; try reflexivity; auto.
Qed.

Ltac etrack_known_step :=
  lazymatch goal with
  | |- hoare _ _ _ _ _ _ _ ?m =>
      lazymatch m with
      | bind (get_cpu_info _) _ => track_getter get_cpu_info_known
      | bind (get_gpu_info _) _ => track_getter get_gpu_info_known
      | bind (get_memory_info _) _ => track_getter get_memory_info_known
      | bind (get_storage_info _) _ => track_getter get_storage_info_known
      | _ => etrack_step
      end
  | _ => etrack_step
  end.

Ltac etrack_known := repeat (etrack_known_step; cbv beta).

Lemma diagnosis_body_known p lim :
  ehoare lim (fun a => known_alert a = true)
         (fun r => known_recommendation r = true) true top (diagnosis_body p).
Proof. etrack_known; auto; try reflexivity; try contradiction. Qed.

Lemma alerts_of_type_partition l :
  Forall (fun a => known_alert a = true) l ->
  (List.length (alerts_of_type "CRÍTICO" l)
   + List.length (alerts_of_type "AVISO" l))%nat = List.length l.
Proof.
  unfold alerts_of_type.
  induction l as [|a l IH]; intros H; [reflexivity|].
  inversion H as [|? ? Ha Hl]; subst. specialize (IH Hl).
  unfold known_alert in Ha. cbn [existsb fst snd] in Ha.
  cbn [filter].
  destruct (String.eqb (tipo a) "CRÍTICO") eqn:E1;
    destruct (String.eqb (tipo a) "AVISO") eqn:E2;
    cbn [List.length]; try lia;
    try discriminate Ha;
    apply String.eqb_eq in E1, E2; rewrite E1 in E2; discriminate E2.
Qed.

Lemma recs_of_priority_partition l :
  Forall (fun r => known_recommendation r = true) l ->
  list_sum (List.map (fun priority => List.length (recs_of_priority priority l))
                     priorities)
  = List.length l.
Proof.
  unfold recs_of_priority, priorities, list_sum. cbn [List.map fold_right].
  induction l as [|r l IH]; intros H; [reflexivity|].
  inversion H as [|? ? Hr Hl]; subst. specialize (IH Hl).
  unfold known_recommendation, priorities in Hr. cbn [existsb] in Hr.
  cbn [filter].
  destruct (String.eqb (rec_prioridade r) "CRÍTICA") eqn:E1;
    destruct (String.eqb (rec_prioridade r) "ALTA") eqn:E2;
    destruct (String.eqb (rec_prioridade r) "MÉDIA") eqn:E3;
    destruct (String.eqb (rec_prioridade r) "BAIXA") eqn:E4;
    cbn [List.length]; try lia; try discriminate Hr;
    repeat match goal with
           | H : String.eqb _ _ = true |- _ => apply String.eqb_eq in H
           end;
    match goal with
    | Ha : rec_prioridade r = _, Hb : rec_prioridade r = _ |- _ =>
        rewrite Ha in Hb; discriminate Hb
    end.
Qed.

Lemma alerts_of_type_nil l :
  Forall (fun a => known_alert a = true) l ->
  alerts_of_type "CRÍTICO" l = [] -> alerts_of_type "AVISO" l = [] -> l = [].
Proof.
  intros H H1 H2. pose proof (alerts_of_type_partition l H) as Hp.
  rewrite H1, H2 in Hp. destruct l; [reflexivity|discriminate].
Qed.

(** X15: whatever the machine answers, every alert that a full diagnostic
    leaves in the list is of type CRÍTICO with priority ALTA or of type
    AVISO with priority MÉDIA or BAIXA, and names one of the components
    CPU, GPU, RAM, SWAP and DISCO; every recommendation has one of the four
    priorities that the alerts tab goes through.  So the tab shows every
    alert in one of its two groups and every recommendation in one of its
    four sections, and it shows the text for a healthy system exactly when
    the alert list is empty. *)
Theorem alerts_tab_shows_every_entry (p : Provider) (e : Engine) :
  let after := run_complete_diagnosis p e in
  Forall (fun a => known_alert a = true) (alerts after) /\
  Forall (fun r => known_recommendation r = true) (recommendations after) /\
  (List.length (alerts_of_type "CRÍTICO" (alerts after))
   + List.length (alerts_of_type "AVISO" (alerts after)))%nat
  = List.length (alerts after) /\
  list_sum (List.map (fun priority =>
                        List.length (recs_of_priority priority
                                                      (recommendations after)))
                     priorities)
  = List.length (recommendations after) /\
  (fst (update_alerts_tab after) = healthy_text <-> alerts after = []).
Proof.
  cbv zeta.
  destruct (run_complete_diagnosis_tracks p _ _ _
              (diagnosis_body_known p (temp_limits e)) e (reads_refl e))
    as (HA & HR).
  split; [exact HA|]. split; [exact HR|].
  split; [now apply alerts_of_type_partition|].
  split; [now apply recs_of_priority_partition|].
  unfold update_alerts_tab, alert_text. cbn [fst].
  split.
  - destruct (nonempty (alerts_of_type "CRÍTICO" _)) eqn:E1;
      [intros H; discriminate H|].
    destruct (nonempty (alerts_of_type "AVISO" _)) eqn:E2;
      [intros H; discriminate H|].
    intros _. apply (alerts_of_type_nil _ HA).
    + destruct (alerts_of_type "CRÍTICO" _); [reflexivity|discriminate].
    + destruct (alerts_of_type "AVISO" _); [reflexivity|discriminate].
  - intros ->. reflexivity.
Qed.

(** ** The health analysis never fails *)

(** An entry of the list of devices as [get_storage_info] builds it: a
    dictionary with the name of the device and its use as a percentage
    with one decimal. *)
Definition device_entry (v : value) : Prop :=
  exists dev q name,
    v = VDict dev /\
    Dict.get "porcentagem_uso" dev = Some (fmt 1 q "%") /\
    Dict.get "dispositivo" dev = Some name.

Definition devices_listed (d : dict) : Prop :=
  exists devices,
    Dict.get "dispositivos" d = Some (VList devices) /\
    Forall device_entry devices.

Lemma devices_listed_set k v d :
  k <> "dispositivos" -> devices_listed d -> devices_listed (Dict.set k v d).
Proof.
  intros Hk (devices & Hget & Hall). exists devices. split; [|exact Hall].
  rewrite get_set. destruct (String.eqb_spec "dispositivos" k); congruence.
Qed.

Lemma devices_listed_append v d :
  device_entry v -> devices_listed d ->
  devices_listed (Dict.append_to "dispositivos" v d).
Proof.
  intros Hv (devices & Hget & Hall). unfold Dict.append_to. rewrite Hget.
  exists (devices ++ [v])%list. split.
  - now rewrite get_set.
  - apply Forall_app. split; auto.
Qed.

Lemma devices_listed_set_in_first k v d :
  k <> "porcentagem_uso" -> k <> "dispositivo" ->
  devices_listed d ->
  devices_listed (Dict.set_in_first "dispositivos" k v d).
Proof.
  intros Hk1 Hk2 (devices & Hget & Hall). unfold Dict.set_in_first.
  rewrite Hget.
  destruct devices as [|[| | | | | |fst_d] r];
    try (exists []; split; [exact Hget|constructor]);
    try (eexists; split; [exact Hget|exact Hall]).
  inversion Hall as [|? ? (dev & q & name & Hv & Hp & Hn) Hr]; subst.
  injection Hv as <-.
  eexists. split; [now rewrite get_set|].
  constructor; [|exact Hr].
  exists (Dict.set k v fst_d), q, name. split; [reflexivity|].
  rewrite !get_set.
  destruct (String.eqb_spec "porcentagem_uso" k); [congruence|].
  destruct (String.eqb_spec "dispositivo" k); [congruence|]. auto.
Qed.

Lemma device_snapshot_entry lim PA (Inv : dict -> Prop) partition usage :
  fhoare lim PA Inv
         (fun r => match r with
                   | Ok d => device_entry (VDict d)
                   | Raise _ => True
                   end)
         (device_snapshot partition usage).
Proof.
  unfold fhoare, device_snapshot, pydiv.
  destruct (Qeq_bool _ 0); unfold bind, raise, ret; cbv beta iota.
  - apply hoare_pure. exact I.
  - apply hoare_pure. eexists. eexists. eexists.
    split; [reflexivity|]. split; reflexivity.
Qed.

Lemma storage_partition_step_listing p lim partition :
  fhoare lim (fun _ => True) devices_listed top
         (storage_partition_step p partition).
Proof.
  unfold fhoare, storage_partition_step.
  apply tracks_try_except_class; [|intros x; apply hoare_ret].
  destruct (disk_usage p (dp_mountpoint partition)) as [usage|x];
    [apply tracks_bind_call_ok|apply tracks_bind_call_raise].
  eapply hoare_bind; [apply device_snapshot_entry| |intros; exact I].
  cbv beta. intros info Hinfo.
  track; auto.
  now apply devices_listed_append.
Qed.

(** [get_storage_info] returns its list of devices, each with its name
    and its use, whatever the machine answers. *)
Lemma get_storage_info_listing p lim :
  getter_spec lim (fun _ => True) devices_listed (get_storage_info p).
Proof.
  unfold get_storage_info. apply getter_shape.
  - unfold fhoare, when. destruct (lib_psutil p); [|apply hoare_ret].
    destruct (disk_partitions p) as [partitions|x];
      [apply tracks_bind_call_ok|apply tracks_bind_call_raise].
    apply tracks_bind.
    + apply tracks_for_each. intros partition.
      apply storage_partition_step_listing.
    + intros _. track; auto.
      * apply devices_listed_set; [discriminate|assumption].
      * apply devices_listed_set_in_first; [discriminate|discriminate|assumption].
  - exists []. split; [reflexivity|constructor].
  - intros x l Hl. apply devices_listed_set; [discriminate|assumption].
Qed.

Lemma set_recommendations_app s l1 l2 :
  set_recommendations
    (recommendations (set_recommendations (recommendations s ++ l1)%list s)
     ++ l2)%list
    (set_recommendations (recommendations s ++ l1)%list s)
  = set_recommendations (recommendations s ++ l1 ++ l2)%list s.
Proof.
  destruct s; unfold set_recommendations; simpl. now rewrite List.app_assoc.
Qed.

(** A step of the loop over the devices, on an entry of the list: it
    never raises and appends at most one recommendation, for the disk. *)
Lemma storage_recommendation_step_run v :
  device_entry v ->
  forall s : Engine,
    exists l,
      storage_recommendation_step v s
      = (Ok Next, set_recommendations (recommendations s ++ l)%list s) /\
      Forall (fun r => rec_componente r = "DISCO") l.
Proof.
  intros (dev & q & name & -> & Hp & Hn) s.
  unfold storage_recommendation_step. rewrite Hp, percent_of_fmt1.
  unfold subscript. rewrite Hn.
  unfold bind, ret, recommendations_append, modify.
  destruct (Py.gt (tenths q) 90); [|destruct (Py.gt (tenths q) 80)].
  - eexists. split; [reflexivity|]. repeat constructor.
  - eexists. split; [reflexivity|]. repeat constructor.
  - exists []. split; [|constructor].
    now rewrite set_recommendations_same.
Qed.

Lemma storage_recommendations_run devices :
  Forall device_entry devices ->
  forall s : Engine,
    exists l,
      for_each devices storage_recommendation_step s
      = (Ok tt, set_recommendations (recommendations s ++ l)%list s) /\
      Forall (fun r => rec_componente r = "DISCO") l.
Proof.
  induction devices as [|v devices IH]; intros Hall s.
  - exists []. split; [|constructor]. simpl. unfold ret.
    now rewrite set_recommendations_same.
  - inversion Hall as [|? ? Hv Hrest]; subst.
    destruct (storage_recommendation_step_run v Hv s) as (l1 & H1 & Hl1).
    destruct (IH Hrest (set_recommendations (recommendations s ++ l1)%list s))
      as (l2 & H2 & Hl2).
    exists (l1 ++ l2)%list. split; [|apply Forall_app; auto].
    simpl. unfold bind. rewrite H1, H2. now rewrite set_recommendations_app.
Qed.

(** A usage step of the analysis, with what it appends. *)
Lemma percent_step_appends k d thr (mk : Q -> Recommendation) :
  pct_ok k d ->
  forall s : Engine,
    exists l,
      (match Dict.get k d with
       | Some v =>
           u <- percent_of v ;;
           when (Py.gt u thr) (recommendations_append (mk u))
       | None => ret tt
       end) s
      = (Ok tt, set_recommendations (recommendations s ++ l)%list s) /\
      (l = [] \/ exists u, l = [mk u]).
Proof.
  unfold pct_ok. intros H s.
  destruct (Dict.get k d) as [v|].
  - destruct H as (q & ->). rewrite percent_of_fmt1.
    unfold bind, ret, when. destruct (Py.gt (tenths q) thr).
    + exists [mk (tenths q)]. split; [reflexivity|]. right. eauto.
    + exists []. unfold ret. rewrite set_recommendations_same. auto.
  - exists []. unfold ret. rewrite set_recommendations_same. auto.
Qed.

(** The components that the recommendations of the analysis are about,
    the two general recommendations apart. *)
Definition hardware_recommendation (r : Recommendation) : bool :=
  existsb (String.eqb (rec_componente r)) ["CPU"; "GPU"; "RAM"; "DISCO"].

Lemma add_alerts_tracked la lr l e :
  add_alerts l (set_recommendations lr (add_alerts la e))
  = set_recommendations lr (add_alerts (la ++ l) e).
Proof.
  destruct e; unfold add_alerts, set_alerts, set_recommendations; simpl.
  now rewrite List.app_assoc.
Qed.

Lemma set_recommendations_tracked la lr l e :
  set_recommendations
    (recommendations (set_recommendations lr (add_alerts la e)) ++ l)%list
    (set_recommendations lr (add_alerts la e))
  = set_recommendations (lr ++ l)%list (add_alerts la e).
Proof. reflexivity. Qed.

(** The analysis runs to its end: it replaces the recommendations by
    those for the hardware followed by the two general ones. *)
Lemma analyze_health_and_recommendations_run p e :
  exists l la,
    analyze_health_and_recommendations p e
    = (Ok tt,
       set_recommendations
         (l ++ [maintenance_recommendation; security_recommendation])%list
         (add_alerts la e)) /\
    Forall (fun r => hardware_recommendation r = true) l.
Proof.
  set (lim := temp_limits e).
  destruct (get_cpu_info_spec p lim) as (dc & lc & Hdc & _ & Hcpu).
  destruct (get_gpu_info_spec p lim) as (dg & lg & Hdg & _ & Hgpu).
  destruct (get_memory_info_spec p lim) as (dm & lm & Hdm & _ & Hmem).
  destruct (get_storage_info_listing p lim)
    as (ds & ls & (devices & Hds & Hdev) & _ & Hsto).
  unfold analyze_health_and_recommendations.
  unfold bind at 1. unfold modify at 1. unfold try_except.
  cbv beta iota.
  replace (set_recommendations [] e)
    with (set_recommendations [] (add_alerts [] e))
    by (now rewrite add_alerts_nil).
  step_with Hcpu. rewrite add_alerts_tracked.
  match goal with
  | |- context [bind ?m ?k ?s] =>
      destruct (percent_step_appends "uso_atual" dc 80 cpu_recommendation Hdc s)
        as (l1 & H1 & Hl1);
      rewrite (bind_run m k s _ _ H1)
  end.
  rewrite set_recommendations_tracked.
  step_with Hgpu. rewrite add_alerts_tracked.
  match goal with
  | |- context [bind ?m ?k ?s] =>
      destruct (percent_step_appends "uso_gpu" dg 90 gpu_recommendation Hdg s)
        as (l2 & H2 & Hl2);
      rewrite (bind_run m k s _ _ H2)
  end.
  rewrite set_recommendations_tracked.
  step_with Hmem. rewrite add_alerts_tracked.
  match goal with
  | |- context [bind ?m ?k ?s] =>
      destruct (percent_step_appends "porcentagem_uso" dm 85
                  memory_recommendation Hdm s)
        as (l3 & H3 & Hl3);
      rewrite (bind_run m k s _ _ H3)
  end.
  rewrite set_recommendations_tracked.
  step_with Hsto. rewrite add_alerts_tracked.
  unfold get_default. rewrite Hds.
  match goal with
  | |- context [bind ?m ?k ?s] =>
      destruct (storage_recommendations_run devices Hdev s)
        as (l4 & H4 & Hl4);
      rewrite (bind_run m k s _ _ H4)
  end.
  rewrite set_recommendations_tracked.
  unfold bind, recommendations_append, modify.
  rewrite !set_recommendations_tracked.
  exists (l1 ++ l2 ++ l3 ++ l4)%list, (lc ++ lg ++ lm ++ ls)%list.
  split.
  - f_equal. f_equal; [|now rewrite <- !List.app_assoc].
    simpl. rewrite <- !List.app_assoc. reflexivity.
  - repeat (apply Forall_app; split).
    + destruct Hl1 as [->|(u & ->)]; repeat constructor.
    + destruct Hl2 as [->|(u & ->)]; repeat constructor.
    + destruct Hl3 as [->|(u & ->)]; repeat constructor.
    + eapply Forall_impl; [|exact Hl4]. cbv beta. intros r Hr.
      unfold hardware_recommendation. rewrite Hr. reflexivity.
Qed.

Lemma rec_text_not_optimized l :
  l <> [] -> rec_text l <> optimized_text.
Proof.
  intros Hl. unfold rec_text, optimized_text.
  destruct l as [|r l]; [congruence|]. cbn [nonempty].
  intros H.
  apply (f_equal (fun s => match s with
                           | String c _ => Some c
                           | EmptyString => None
                           end)) in H.
  cbn [String.append] in H. discriminate H.
Qed.

(** X16: the health analysis never takes its error branch: the usage texts
    it parses are always numbers and the devices it loops over always have
    a name.  So a full diagnostic whose header could read the platform
    leaves the recommendations for the hardware (CPU, GPU, RAM, DISCO)
    followed by the two general ones, on maintenance and on security; the
    recommendations view never shows the text for an optimised system
    after it, and no recommendation reports an error of the analysis. *)
Theorem analysis_never_fails (p : Provider) (e : Engine) :
  is_ok (platform_system p) = true ->
  is_ok (platform_release p) = true ->
  let after := run_complete_diagnosis p e in
  fst (analyze_health_and_recommendations p e) = Ok tt /\
  (exists l,
      recommendations after
      = (l ++ [maintenance_recommendation; security_recommendation])%list /\
      Forall (fun r => hardware_recommendation r = true) l) /\
  snd (update_alerts_tab after) <> optimized_text /\
  (forall r, In r (recommendations after) ->
             rec_componente r <> "DIAGNÓSTICO").
Proof.
  intros Hps Hpr. cbv zeta.
  destruct (run_reaches_analysis p e Hps Hpr) as (e' & ->).
  destruct (analyze_health_and_recommendations_run p e)
    as (l0 & la0 & Hrun0 & _).
  destruct (analyze_health_and_recommendations_run p e')
    as (l & la & Hrun & Hl).
  rewrite Hrun0, Hrun. cbn [fst snd].
  split; [reflexivity|].
  assert (Hrecs : recommendations
                    (set_recommendations
                       (l ++ [maintenance_recommendation;
                              security_recommendation])%list
                       (add_alerts la e'))
                  = (l ++ [maintenance_recommendation;
                           security_recommendation])%list) by reflexivity.
  split; [exists l; auto|].
  unfold update_alerts_tab. cbn [snd]. rewrite Hrecs.
  split.
  - apply rec_text_not_optimized. destruct l; discriminate.
  - intros r Hr. apply in_app_iff in Hr. destruct Hr as [Hr|Hr].
    + rewrite Forall_forall in Hl. specialize (Hl r Hr).
      unfold hardware_recommendation in Hl. cbn [existsb] in Hl.
      intros E. rewrite E in Hl. discriminate Hl.
    + destruct Hr as [<-|[<-|[]]]; discriminate.
Qed.

Lemma analysis_never_fails_witness :
  exists l,
    recommendations (run_complete_diagnosis (desktop 60 91) init)
    = (l ++ [maintenance_recommendation; security_recommendation])%list.
Proof.
  destruct (analysis_never_fails (desktop 60 91) init eq_refl eq_refl)
    as (_ & (l & Hl & _) & _).
  exists l. exact Hl.
Defined.

(** ** The network interfaces *)




(** ** The entry "erro" of a successful read *)

Definition has_error_entry (d : dict) : Prop :=
  exists v, Dict.get "erro" d = Some v.

Lemma get_cpu_info_has_error_entry p lim :
  getter_spec lim (fun _ => True) has_error_entry (get_cpu_info p).
Proof.
  unfold get_cpu_info. apply getter_shape.
  - track; auto;
      match goal with
      | H : has_error_entry _ |- has_error_entry _ =>
          destruct H as (v & Hv); unfold has_error_entry, Dict.update;
          simpl fold_left;
          repeat (rewrite get_set; simpl String.eqb; cbv iota); eauto
      end.
  - eexists. reflexivity.
  - intros x l _. unfold has_error_entry. rewrite get_set. simpl. eauto.
Qed.

(** The two blocks of [get_cpu_info] that come before the temperature,
    when all their reads succeed, leave the initial entry "erro" as it
    is. *)
Lemma cpu_basics_run_keeps_error p :
  cpu_basics_ok p ->
  forall (k : M (Frame dict) unit) e,
  exists loc',
    Dict.get "erro" loc' = Some (VStr "Informações não disponíveis") /\
    (when (lib_psutil p) (cpu_psutil_block p) ;;
     when (lib_cpuinfo p) (cpu_cpuinfo_block p) ;; k)
      (mkFrame e [("erro", VStr "Informações não disponíveis")])
    = k (mkFrame e loc').
Proof.
  intros (Hps & H1 & H2 & H3 & H4 & H5) k e.
  unfold cpu_psutil_block, cpu_cpuinfo_block, cpu_freq_field, when.
  rewrite Hps.
  destruct (cpu_percent p); try discriminate.
  destruct (cpu_count_physical p); try discriminate.
  destruct (cpu_count_logical p); try discriminate.
  destruct (cpu_freq p) as [[f|]|]; try discriminate;
    (destruct (lib_cpuinfo p);
     [ destruct (cpuinfo_get_cpu_info p);
       [|specialize (H5 eq_refl); discriminate] |]);
    unfold bind, call, ret, modify_local, modify; simpl;
    eexists; (split; [|reflexivity]); reflexivity.
Qed.

(** X18: the dictionary of [get_cpu_info] always carries an entry "erro",
    whatever the machine answers, because the initial dictionary is
    updated and never replaced: even when every read succeeds, the entry
    still says that the information is not available.  The dictionary of
    [get_memory_info], which is replaced after the first read, has no such
    entry when its reads succeed. *)
Theorem cpu_info_always_has_error_entry (p : Provider) (e : Engine) :
  (exists d v, fst (get_cpu_info p e) = Ok d /\ Dict.get "erro" d = Some v) /\
  (cpu_basics_ok p ->
   is_ok (sensors_temperatures p) = true ->
   exists d, fst (get_cpu_info p e) = Ok d /\
             Dict.get "erro" d = Some (VStr "Informações não disponíveis")) /\
  (forall mem,
      lib_psutil p = true ->
      virtual_memory p = Ok mem ->
      is_ok (swap_memory p) = true ->
      lib_wmi p = false ->
      exists d, fst (get_memory_info p e) = Ok d /\ Dict.get "erro" d = None).
Proof.
  split; [|split].
  - destruct (getter_spec_run _ _ _ _ e
                (get_cpu_info_has_error_entry p (temp_limits e)) (reads_refl e))
      as (d & l & (v & Hv) & _ & Heq).
    exists d, v. now rewrite Heq.
  - intros Hb Hs.
    destruct (sensors_temperatures p) as [sensors|] eqn:Es; [|discriminate].
    assert (Hps : lib_psutil p = true) by apply Hb.
    unfold get_cpu_info, method, try_except.
    destruct (cpu_basics_run_keeps_error p Hb (cpu_temperature_block p) e)
      as (loc' & Hloc & ->).
    unfold cpu_temperature_block, try_except, when.
    rewrite Hps. unfold bind at 1. unfold call at 1. rewrite Es.
    assert (Hfe := for_each_cpu_sensor sensors (mkFrame e loc')).
    assert (Hrun : (match sensors with
                    | [] => ret tt
                    | _ => for_each sensors cpu_sensor_step
                    end) (mkFrame e loc')
                   = for_each sensors cpu_sensor_step (mkFrame e loc'))
      by (destruct sensors; reflexivity).
    rewrite Hrun, Hfe.
    destruct (first_cpu_reading sensors) as [t|]; simpl.
    + destruct (cpu_temperature_check_ok t
                  (mkFrame e (Dict.set "temperatura" (fmt 1 t "°C") loc')))
        as (_ & Hl).
      destruct (cpu_temperature_check t _) as [r f']. simpl in *.
      eexists. split; [reflexivity|].
      rewrite Hl, get_set. exact Hloc.
    + eexists. split; [reflexivity|]. exact Hloc.
  - intros mem Hps Hvm Hsw Hwmi.
    destruct (swap_memory p) as [sw|] eqn:Esw; [|discriminate].
    unfold get_memory_info, method, try_except, when. rewrite Hps.
    unfold bind at 1. unfold call at 1. rewrite Hvm.
    unfold bind at 1. unfold set_local at 1, modify at 1.
    destruct (memory_usage_check_run mem) as (l & Hrun & _).
    unfold bind at 1. rewrite Hrun.
    unfold memory_swap_block, memory_wmi_block, when. rewrite Esw, Hwmi.
    unfold bind at 1. unfold bind at 1. unfold call at 1.
    destruct (Z.gtb (sw_total sw) 0).
    + unfold bind at 1. unfold modify_local at 1, modify at 1.
      destruct (Py.gt (sw_percent sw) 50);
        unfold alerts_append, modify, ret; simpl;
        eexists; (split; [reflexivity|]); reflexivity.
    + unfold ret; simpl. eexists. split; reflexivity.
Qed.

Lemma cpu_info_always_has_error_entry_witness :
  (exists d, fst (get_cpu_info (desktop 55 50) init) = Ok d /\
             Dict.get "erro" d = Some (VStr "Informações não disponíveis")) /\
  (exists d, fst (get_memory_info (desktop 55 50) init) = Ok d /\
             Dict.get "erro" d = None).
Proof.
  split.
  - apply (proj1 (proj2 (cpu_info_always_has_error_entry (desktop 55 50) init))).
    + repeat split. discriminate.
    + reflexivity.
  - apply (proj2 (proj2 (cpu_info_always_has_error_entry (desktop 55 50) init))
             {| vm_total := 17179869184; vm_available := 8589934592;
                vm_used := 8589934592; vm_free := 4294967296;
                vm_percent := 50;
                vm_cached := Some 1073741824; vm_buffers := None |});
      reflexivity.
Defined.

(** ** The system information *)

(** X19: when the platform answers, [get_system_info] returns its seven
    fields; on a machine without psutil it returns nothing else; and when
    a query of psutil raises, the seven fields stay in the result beside
    the error, while the three fields of psutil are all missing. *)
Theorem system_info_keeps_platform_fields (p : Provider) (e : Engine)
        (sistema versao release arquitetura processador maquina no : string) :
  platform_system p = Ok sistema ->
  platform_version p = Ok versao ->
  platform_release p = Ok release ->
  platform_architecture p = Ok arquitetura ->
  platform_processor p = Ok processador ->
  platform_machine p = Ok maquina ->
  platform_node p = Ok no ->
  let fields :=
    [("sistema", VStr sistema); ("versao", VStr versao);
     ("release", VStr release); ("arquitetura", VStr arquitetura);
     ("processador", VStr processador); ("maquina", VStr maquina);
     ("no_computador", VStr no)] in
  (lib_psutil p = false -> get_system_info p e = (Ok fields, e)) /\
  (forall x, lib_psutil p = true ->
             (boot_time_str p = Raise x \/
              (is_ok (boot_time_str p) = true /\ uptime_str p = Raise x) \/
              (is_ok (boot_time_str p) = true /\ is_ok (uptime_str p) = true /\
               users_count p = Raise x)) ->
             get_system_info p e
             = (Ok (fields ++ [("erro",
                                VStr ("Erro ao obter informações do sistema: "
                                      ++ exn_msg x))])%list,
                e)).
Proof.
  intros H1 H2 H3 H4 H5 H6 H7. cbv zeta.
  unfold get_system_info, method, try_except, when.
  unfold bind at 1, call at 1. rewrite H1.
  unfold bind at 1, call at 1. rewrite H2.
  unfold bind at 1, call at 1. rewrite H3.
  unfold bind at 1, call at 1. rewrite H4.
  unfold bind at 1, call at 1. rewrite H5.
  unfold bind at 1, call at 1. rewrite H6.
  unfold bind at 1, call at 1. rewrite H7.
  unfold bind at 1. unfold set_local at 1, modify at 1.
  split.
  - intros ->. reflexivity.
  - intros x -> Hx.
    unfold bind at 1, call at 1.
    destruct Hx as [Hb|[(Hb & Hu)|(Hb & Hu & Hc)]].
    + rewrite Hb. reflexivity.
    + destruct (boot_time_str p); [|discriminate].
      unfold bind at 1, call at 1. rewrite Hu. reflexivity.
    + destruct (boot_time_str p); [|discriminate].
      unfold bind at 1, call at 1.
      destruct (uptime_str p); [|discriminate].
      unfold bind at 1, call at 1. rewrite Hc. reflexivity.
Qed.

Lemma system_info_keeps_platform_fields_witness :
  get_system_info bare_machine init
  = (Ok [("sistema", VStr "Linux"); ("versao", VStr "#1 SMP");
         ("release", VStr "6.1.0"); ("arquitetura", VStr "64bit");
         ("processador", VStr "x86_64"); ("maquina", VStr "x86_64");
         ("no_computador", VStr "bare")],
     init).
Proof.
  exact (proj1 (system_info_keeps_platform_fields bare_machine init
                  "Linux" "#1 SMP" "6.1.0" "64bit" "x86_64" "x86_64" "bare"
                  eq_refl eq_refl eq_refl eq_refl eq_refl eq_refl eq_refl)
               eq_refl).
Defined.
